(** * IEAP training launcher ([src/train/train.py]): a shallow embedding

    The launcher is orchestration code: it reads two environment variables,
    loads a YAML document, picks a dataset by a string tag, builds a batch
    loader, a model wrapper and a Lightning trainer, writes a copy of the
    config and calls [trainer.fit].  The embedding keeps the Python control
    flow (dictionary lookups that raise, [try]/[except], the [if]/[elif]
    chain) and records every call that leaves the module as an event of a
    chronological log, so that statements about order, about what is and is
    not constructed, and about what reaches the file system can be read off
    the log.

    Strings are byte strings; path normalisation and file permissions are
    not modelled. *)

From Stdlib Require Import ZArith List Ascii String Sorted Permutation.
From Stdlib Require Import Floats.SpecFloat.
From stdpp Require Import base option list gmap strings.

Set Warnings "-register-all".

Open Scope Z_scope.
Open Scope string_scope.

(** ** Python values: what [yaml.safe_load] and a pandas cell can hold *)

Inductive pyval : Type :=
| VNone
| VBool (b : bool)
| VInt (z : Z)
| VFloat (f : spec_float)
| VStr (s : string)
| VList (l : list pyval)
| VDict (kvs : list (pyval * pyval)).

(** The float literals of the source, as binary64 values. *)
Definition float_0_5 : spec_float := S754_finite false 4503599627370496 (-53).
Definition float_1_0 : spec_float := S754_finite false 4503599627370496 (-52).

(** ** Exceptions *)

Inductive exn : Type :=
| AssertionError (msg : string)
| KeyError (key : string)
| TypeError
| AttributeError
| ValueError
| IndexError
| FileNotFoundError (path : string)
| IsADirectoryError (path : string)
| NotADirectoryError (path : string)
| FileExistsError (path : string)
| NotImplementedError
| UnboundLocalError (name : string)
| LibraryError (what : string).

Inductive outcome (A : Type) : Type :=
| Ok (a : A)
| Raise (e : exn).
Arguments Ok {A} a.
Arguments Raise {A} e.

Definition is_ok {A} (o : outcome A) : bool :=
  match o with Ok _ => true | Raise _ => false end.

(** ** Dictionaries

    A Python [dict] keeps insertion order; it is an association list whose
    keys are arbitrary YAML values.  The source only ever looks string keys
    up. *)

Definition key_is (k : string) (key : pyval) : bool :=
  match key with
  | VStr s => String.eqb s k
  | _ => false
  end.

Fixpoint dict_lookup (k : string) (kvs : list (pyval * pyval)) : option pyval :=
  match kvs with
  | [] => None
  | (key, v) :: rest => if key_is k key then Some v else dict_lookup k rest
  end.

(** [obj[k]] for a string [k]. *)
Definition py_getitem (obj : pyval) (k : string) : outcome pyval :=
  match obj with
  | VDict kvs =>
      match dict_lookup k kvs with
      | Some v => Ok v
      | None => Raise (KeyError k)
      end
  | _ => Raise TypeError
  end.

(** [obj.get(k, default)]. *)
Definition py_get (obj : pyval) (k : string) (default : pyval) : outcome pyval :=
  match obj with
  | VDict kvs =>
      match dict_lookup k kvs with
      | Some v => Ok v
      | None => Ok default
      end
  | _ => Raise AttributeError
  end.

(** [v == s] for a string literal [s]. *)
Definition py_eq_str (v : pyval) (s : string) : bool :=
  match v with
  | VStr t => String.eqb t s
  | _ => false
  end.

(** ** [int(str)]

    A character of a string stands for the code point of the same number.
    Before parsing, CPython turns every white-space code point from 127 on
    (of those below 256: U+0085 and U+00A0) into a blank and leaves the
    ASCII ones as they are; the parser then skips what C's [isspace]
    accepts (9 to 13 and 32) on both sides, allows one sign, and single
    underscores between digits.  The only decimal digits below 256 are the
    ASCII ones.  A text of more than [int_max_str_digits] digits is
    refused: the interpreter's default of 4300, which the launcher does not
    change. *)

Definition is_space (c : ascii) : bool :=
  let n := nat_of_ascii c in
  ((9 <=? n) && (n <=? 13) || (n =? 32) || (n =? 133) || (n =? 160))%nat.

Definition is_digit (c : ascii) : bool :=
  let n := nat_of_ascii c in ((48 <=? n) && (n <=? 57))%nat.

Definition digit_val (c : ascii) : Z := Z.of_nat (nat_of_ascii c) - 48.

Fixpoint lstrip (l : list ascii) : list ascii :=
  match l with
  | c :: r => if is_space c then lstrip r else l
  | [] => []
  end.

Definition strip (l : list ascii) : list ascii :=
  rev (lstrip (rev (lstrip l))).

Fixpoint parse_digits (after_digit : bool) (acc : Z) (l : list ascii) : option Z :=
  match l with
  | [] => if after_digit then Some acc else None
  | c :: r =>
      if is_digit c then parse_digits true (10 * acc + digit_val c) r
      else if Ascii.eqb c "_" && after_digit then parse_digits false acc r
      else None
  end.

(** [sys.int_info.default_max_str_digits] *)
Definition int_max_str_digits : Z := 4300.

(** The digits of the text count, leading zeros among them; underscores
    do not. *)
Definition count_digits (l : list ascii) : Z :=
  Z.of_nat (length (List.filter is_digit l)).

Definition parse_unsigned (l : list ascii) : option Z :=
  if (int_max_str_digits <? count_digits l)%Z then None
  else parse_digits false 0 l.

Definition parse_int (s : string) : option Z :=
  match strip (list_ascii_of_string s) with
  | "-"%char :: r => Z.opp <$> parse_unsigned r
  | "+"%char :: r => parse_unsigned r
  | r => parse_unsigned r
  end.

(** [int(x)] where [x] is the result of [os.environ.get]: [None] or a string. *)
Definition py_int (x : option string) : outcome Z :=
  match x with
  | None => Raise TypeError
  | Some s =>
      match parse_int s with
      | Some z => Ok z
      | None => Raise ValueError
      end
  end.

(** ** Formatting

    [str(v)] as used by f-strings and by [str(cell)].  The cases a path is
    built from are computed; the text of floats and containers is left to
    the oracle [repr_other]. *)

Fixpoint pos_digits (fuel : nat) (z : Z) (acc : string) : string :=
  match fuel with
  | O => acc
  | S fuel' =>
      let acc' := String (ascii_of_nat (Z.to_nat (48 + z mod 10))) acc in
      if (z / 10 =? 0)%Z then acc' else pos_digits fuel' (z / 10) acc'
  end.

Definition str_of_Z (z : Z) : string :=
  if (z <? 0)%Z then "-" ++ pos_digits (S (Z.to_nat (Z.log2 (- z)))) (- z) ""
  else pos_digits (S (Z.to_nat (Z.log2 z))) z "".

Definition py_str (repr_other : pyval → string) (v : pyval) : string :=
  match v with
  | VStr s => s
  | VNone => "None"
  | VBool true => "True"
  | VBool false => "False"
  | VInt z => str_of_Z z
  | _ => repr_other v
  end.

(** [os.path.join(a, b)] on POSIX. *)
Definition ends_with_slash (s : string) : bool :=
  match rev (list_ascii_of_string s) with
  | "/"%char :: _ => true
  | _ => false
  end.

Definition path_join (a b : string) : string :=
  match b with
  | String "/" _ => b
  | _ =>
      if String.eqb a "" then b
      else if ends_with_slash a then a ++ b
      else a ++ "/" ++ b
  end.


(** ** Objects built by the launcher *)

Definition kwargs : Type := list (string * pyval).

Record DataFrame : Type := {
  df_columns : list string;
  df_rows : list (list pyval);
}.

Record Image : Type := {
  img_path : string;
  img_mode : string;
  img_size : nat * nat;
}.

Inductive transform_op : Type :=
| Resize (height width : nat).

Inductive Transform : Type :=
| Compose (ops : list transform_op).

Definition apply_op (op : transform_op) (im : Image) : Image :=
  match op with
  | Resize h w => {| img_path := img_path im; img_mode := img_mode im; img_size := (h, w) |}
  end.

Definition apply_transform (t : Transform) (im : Image) : Image :=
  match t with
  | Compose ops => fold_left (λ acc op, apply_op op acc) ops im
  end.

(** Lines 62-65: the module-level [transform]. *)
Definition transform : Transform := Compose [Resize 600 600].

(** Lines 25-34: the fields [__init__] stores. *)
Record LocalSubjectsDataset : Type := {
  lsd_data : DataFrame;
  lsd_image_dir : string;
  lsd_transform : option Transform;
  lsd_features : pyval;
}.

Inductive dataset : Type :=
| DLocalSubjects (d : LocalSubjectsDataset)
| DHub (path : string) (kw : kwargs) (num_rows : nat)
| DScene (base : dataset) (kw : kwargs)
| DImageCondition (base : dataset) (kw : kwargs)
| DCartoon (base : dataset) (kw : kwargs).

Record DataLoader : Type := {
  dl_dataset : dataset;
  dl_batch_size : pyval;
  dl_shuffle : bool;
  dl_num_workers : pyval;
}.

Record OminiModel : Type := {
  flux_pipe_id : pyval;
  lora_config : pyval;
  device : string;
  dtype : string;
  optimizer_config : pyval;
  model_config : pyval;
  gradient_checkpointing : pyval;
}.

Record TrainingCallback : Type := {
  cb_run_name : string;
  cb_training_config : pyval;
}.

Record Trainer : Type := {
  accumulate_grad_batches : pyval;
  callbacks : list TrainingCallback;
  enable_checkpointing : bool;
  enable_progress_bar : bool;
  logger : bool;
  max_steps : pyval;
  max_epochs : pyval;
  gradient_clip_val : pyval;
  attr_training_config : option pyval;
}.

(** ** Events

    Every call that leaves the module, and the construction of the local
    dataset, in the order made. *)

Inductive Event : Type :=
| EnvGet (name : string)
| CudaSetDevice (rank : Z)
| OpenRead (path : string)
| YamlSafeLoad (path : string)
| Strftime (format : string)
| ImportWandb
| WandbInit (project : pyval) (name : string)
| Print (args : list pyval)
| NewLocalSubjectsDataset (csv_file image_dir : string)
| ReadCsv (path : string)
| ImageOpen (path : string)
| LoadDataset (path : string) (kw : kwargs)
| NewSceneDataset (d : dataset)
| NewImageConditionDataset (d : dataset)
| NewCartoonDataset (d : dataset)
| NewDataLoader (dl : DataLoader)
| GetattrTorch (name : string)
| NewOminiModel (m : OminiModel)
| NewTrainingCallback (cb : TrainingCallback)
| NewTrainer (t : Trainer)
| Makedirs (path : string)
| OpenWrite (path : string)
| YamlDump (v : pyval) (path : string)
| TrainerFit (t : Trainer) (m : OminiModel) (dl : DataLoader).

(** ** The world outside the process

    Everything the launcher cannot decide itself: the environment, the
    clock, the parsers and printers of the libraries, and [lib_raises],
    which says for each library call whether it raises. *)

Record World : Type := {
  environ : gmap string string;
  strftime_now : string;
  safe_load : string → outcome pyval;
  yaml_dump : pyval → string;
  parse_csv : string → outcome DataFrame;
  decode_image : string → outcome (nat * nat);
  hub_rows : string → nat;
  repr_other : pyval → string;
  lib_raises : Event → option exn;
}.

(** ** Mutable state: the file system and the log *)

Inductive fnode : Type :=
| Dir
| File (content : string).

Record St : Type := {
  fs : gmap string fnode;
  log : list Event;
}.

Definition initial (files : gmap string fnode) : St :=
  {| fs := files; log := [] |}.

(** ** The monad: reader of the world, state, exceptions *)

Definition M (A : Type) : Type := World → St → outcome A * St.

#[global] Instance M_ret : MRet M := λ A a _ s, (Ok a, s).

#[global] Instance M_bind : MBind M := λ A B k m w s,
  match m w s with
  | (Ok a, s') => k a w s'
  | (Raise e, s') => (Raise e, s')
  end.

Definition raise {A} (e : exn) : M A := λ _ s, (Raise e, s).

Definition lift {A} (o : outcome A) : M A := λ _ s, (o, s).

Definition ask : M World := λ w s, (Ok w, s).

Definition emit (e : Event) : M unit :=
  λ _ s, (Ok tt, {| fs := fs s; log := log s ++ [e] |}).

(** A library call: logged, then it raises or returns as the world says. *)
Definition lib_call (e : Event) : M unit :=
  emit e ;;
  w ← ask;
  match lib_raises w e with
  | Some x => raise x
  | None => mret tt
  end.

(** [try: m  except: h] with a bare [except]. *)
Definition try_except {A} (m : M A) (h : M A) : M A := λ w s,
  match m w s with
  | (Ok a, s') => (Ok a, s')
  | (Raise _, s') => h w s'
  end.

Definition outcome_of {A} (r : outcome A * St) : outcome A := fst r.
Definition log_of {A} (r : outcome A * St) : list Event := log (snd r).
Definition fs_of {A} (r : outcome A * St) : gmap string fnode := fs (snd r).

(** ** Operating-system and library primitives *)

Definition get_fs : M (gmap string fnode) := λ _ s, (Ok (fs s), s).

Definition put_fs (files : gmap string fnode) : M unit :=
  λ _ s, (Ok tt, {| fs := files; log := log s |}).

(** [os.environ.get(name)]. *)
Definition os_environ_get (name : string) : M (option string) :=
  emit (EnvGet name) ;;
  w ← ask;
  mret (environ w !! name).

(** [open(path, "r")] followed by reading the whole file. *)
Definition open_read (path : string) : M string :=
  emit (OpenRead path) ;;
  files ← get_fs;
  match files !! path with
  | Some (File c) => mret c
  | Some Dir => raise (IsADirectoryError path)
  | None => raise (FileNotFoundError path)
  end.

(** The proper prefixes of a path that end just before a slash. *)
Fixpoint ancestors_from (pre rest : string) : list string :=
  match rest with
  | EmptyString => []
  | String c r =>
      let tl := ancestors_from (pre ++ String c "") r in
      if Ascii.eqb c "/" && negb (String.eqb pre "") then pre :: tl else tl
  end.

Definition ancestors (path : string) : list string := ancestors_from "" path.

Definition is_file (files : gmap string fnode) (p : string) : bool :=
  match files !! p with
  | Some (File _) => true
  | _ => false
  end.

Definition mkdir_missing (p : string) (files : gmap string fnode) : gmap string fnode :=
  match files !! p with
  | Some _ => files
  | None => <[p := Dir]> files
  end.

(** The first path of a chain whose parent, the element before it, is a
    regular file: the [mkdir] that fails. *)
Fixpoint below_file (files : gmap string fnode) (chain : list string) : option string :=
  match chain with
  | a :: (b :: _) as rest => if is_file files a then Some b else below_file files rest
  | _ => None
  end.

(** [os.makedirs(path)], with [exist_ok] left at its default [False]: the
    leaf must not exist; missing ancestors are created on the way down, and
    a regular file on the way stops the descent. *)
Definition os_makedirs (path : string) : M unit :=
  emit (Makedirs path) ;;
  files ← get_fs;
  match files !! path with
  | Some _ => raise (FileExistsError path)
  | None =>
      match below_file files (ancestors path ++ [path])%list with
      | Some p => raise (NotADirectoryError p)
      | None => put_fs (<[path := Dir]> (foldr mkdir_missing files (ancestors path)))
      end
  end.

(** [open(path, "w")]: the parent must be a directory; the file is created
    or truncated. *)
Definition open_write (path : string) : M unit :=
  emit (OpenWrite path) ;;
  files ← get_fs;
  match last (ancestors path) with
  | None => mret tt
  | Some d =>
      match files !! d with
      | Some Dir => mret tt
      | Some (File _) => raise (NotADirectoryError path)
      | None => raise (FileNotFoundError path)
      end
  end ;;
  match files !! path with
  | Some Dir => raise (IsADirectoryError path)
  | _ => put_fs (<[path := File ""]> files)
  end.

(** [yaml.safe_load(f)] on the text read from [path]. *)
Definition yaml_safe_load (path content : string) : M pyval :=
  emit (YamlSafeLoad path) ;;
  w ← ask;
  lift (safe_load w content).

(** [yaml.dump(v, f)] on the file opened at [path]. *)
Definition yaml_dump_to (v : pyval) (path : string) : M unit :=
  lib_call (YamlDump v path) ;;
  w ← ask;
  files ← get_fs;
  put_fs (<[path := File (yaml_dump w v)]> files).

Definition py_print (args : list pyval) : M unit := emit (Print args).

(** [time.strftime(format)]. *)
Definition time_strftime (format : string) : M string :=
  emit (Strftime format) ;;
  w ← ask;
  mret (strftime_now w).

(** [str(v)], also as the interpolation of [v] in an f-string. *)
Definition fmt (v : pyval) : M string :=
  w ← ask;
  mret (py_str (repr_other w) v).

(** ** Lines 68-73: [get_rank] *)

Definition get_rank : M Z :=
  try_except
    (v ← os_environ_get "LOCAL_RANK";
     lift (py_int v))
    (mret 0).

(** ** Lines 76-81: [get_config] *)

Definition get_config : M pyval :=
  config_path ← os_environ_get "XFL_CONFIG";
  match config_path with
  | None => raise (AssertionError "Please set the XFL_CONFIG environment variable")
  | Some path =>
      f ← open_read path;
      yaml_safe_load path f
  end.

(** ** Lines 84-90: [init_wandb] *)

Definition init_wandb (wandb_config : pyval) (run_name : string) : M unit :=
  lib_call ImportWandb ;;
  project ← lift (py_getitem wandb_config "project");
  lib_call (WandbInit project run_name).

(** ** Lines 25-60: [LocalSubjectsDataset] *)

(** [pd.read_csv(path)]: the file is read and handed to the CSV parser. *)
Definition pd_read_csv (path : string) : M DataFrame :=
  emit (ReadCsv path) ;;
  files ← get_fs;
  match files !! path with
  | Some (File c) => w ← ask; lift (parse_csv w c)
  | Some Dir => raise (IsADirectoryError path)
  | None => raise (FileNotFoundError path)
  end.

Definition features_literal : pyval :=
  VDict [(VStr "imageA", VStr "PIL.Image");
         (VStr "prompt", VStr "str");
         (VStr "imageB", VStr "PIL.Image")].

(** [__init__] *)
Definition LocalSubjectsDataset_init
    (csv_file image_dir : string) (tr : option Transform) : M LocalSubjectsDataset :=
  emit (NewLocalSubjectsDataset csv_file image_dir) ;;
  data ← pd_read_csv csv_file;
  mret {| lsd_data := data; lsd_image_dir := image_dir;
          lsd_transform := tr; lsd_features := features_literal |}.

(** [__len__] *)
Definition LocalSubjectsDataset_len (self : LocalSubjectsDataset) : nat :=
  length (df_rows (lsd_data self)).

(** [df.iloc[idx]]: negative positions count from the end. *)
Definition iloc (df : DataFrame) (idx : Z) : outcome (list pyval) :=
  let n := Z.of_nat (length (df_rows df)) in
  let i := if (idx <? 0)%Z then idx + n else idx in
  if (0 <=? i)%Z && (i <? n)%Z then
    match nth_error (df_rows df) (Z.to_nat i) with
    | Some r => Ok r
    | None => Raise IndexError
    end
  else Raise IndexError.

(** [row[name]]: a scalar, or a [Series] when several columns carry the name. *)
Inductive cell : Type :=
| Scalar (v : pyval)
| Series (vs : list pyval).

Definition series_getitem (cols : list string) (row : list pyval) (name : string)
    : outcome cell :=
  match map snd (List.filter (λ cv, String.eqb (fst cv) name) (combine cols row)) with
  | [] => Raise (KeyError name)
  | [v] => Ok (Scalar v)
  | vs => Ok (Series vs)
  end.

(** [if isinstance(x, pd.Series): x = x.values[0]] *)
Definition first_if_series (c : cell) : outcome pyval :=
  match c with
  | Scalar v => Ok v
  | Series (v :: _) => Ok v
  | Series [] => Raise IndexError
  end.

(** [Image.open(path).convert("RGB")].  A regular file on the way to
    [path] makes the underlying [open] fail with [NotADirectoryError]. *)
Definition image_open_rgb (path : string) : M Image :=
  emit (ImageOpen path) ;;
  files ← get_fs;
  if existsb (is_file files) (ancestors path) then raise (NotADirectoryError path)
  else
    match files !! path with
    | Some (File c) =>
        w ← ask;
        size ← lift (decode_image w c);
        mret {| img_path := path; img_mode := "RGB"; img_size := size |}
    | Some Dir => raise (IsADirectoryError path)
    | None => raise (FileNotFoundError path)
    end.

Record Sample : Type := {
  imageA : Image;
  prompt : cell;
  imageB : Image;
}.

(** [__getitem__] *)
Definition LocalSubjectsDataset_getitem (self : LocalSubjectsDataset) (idx : Z) : M Sample :=
  let cols := df_columns (lsd_data self) in
  rowA ← lift (iloc (lsd_data self) idx);
  imgA_cell ← lift (series_getitem cols rowA "imageA");
  imgA_value ← lift (first_if_series imgA_cell);
  a ← fmt imgA_value;
  let imgA_name := path_join (lsd_image_dir self) a in
  rowP ← lift (iloc (lsd_data self) idx);
  prompt ← lift (series_getitem cols rowP "prompt");
  rowB ← lift (iloc (lsd_data self) idx);
  imgB_cell ← lift (series_getitem cols rowB "imageB");
  imgB_value ← lift (first_if_series imgB_cell);
  b ← fmt imgB_value;
  let imgB_name := path_join (lsd_image_dir self) b in
  imA ← image_open_rgb imgA_name;
  imB ← image_open_rgb imgB_name;
  let '(imA, imB) :=
    match lsd_transform self with
    | Some t => (apply_transform t imA, apply_transform t imB)
    | None => (imA, imB)
    end in
  mret {| imageA := imA; prompt := prompt; imageB := imB |}.

(** ** The adapters of [src/train/data.py]

    Modelled from the spec: the adapter classes [SceneDataset],
    [ImageConditionDataset] and [CartoonDataset] are imported from
    [.data], which is not among the sources.  The spec (section 8) says an
    adapter's length matches the record count of the raw source it wraps. *)
Fixpoint dataset_len (d : dataset) : nat :=
  match d with
  | DLocalSubjects self => LocalSubjectsDataset_len self
  | DHub _ _ n => n
  | DScene base _ => dataset_len base
  | DImageCondition base _ => dataset_len base
  | DCartoon base _ => dataset_len base
  end.

(** ** Lines 93-210: [main], phase by phase *)

(** [training_config["dataset"][k]] *)
Definition dataset_param (training_config : pyval) (k : string) : M pyval :=
  d ← lift (py_getitem training_config "dataset");
  lift (py_getitem d k).

(** Lines 101-104. *)
Definition main_wandb (training_config : pyval) (is_main_process : bool)
    (run_name : string) : M unit :=
  wandb_config ← lift (py_get training_config "wandb" VNone);
  match wandb_config with
  | VNone => mret tt
  | _ => if is_main_process then init_wandb wandb_config run_name else mret tt
  end.

(** Lines 112-126: the [scene] branch. *)
Definition scene_branch (training_config : pyval) : M dataset :=
  local ← LocalSubjectsDataset_init "csv_path" "images_path" (Some transform);
  let data_valid := DLocalSubjects local in
  py_print [lsd_features local] ;;
  py_print [VInt (Z.of_nat (LocalSubjectsDataset_len local))] ;;
  d ← lift (py_getitem training_config "dataset");
  py_print [d] ;;
  condition_size ← dataset_param training_config "condition_size";
  target_size ← dataset_param training_config "target_size";
  image_size ← dataset_param training_config "image_size";
  padding ← dataset_param training_config "padding";
  condition_type ← lift (py_getitem training_config "condition_type");
  drop_text_prob ← dataset_param training_config "drop_text_prob";
  drop_image_prob ← dataset_param training_config "drop_image_prob";
  let ds := DScene data_valid
    [("condition_size", condition_size); ("target_size", target_size);
     ("image_size", image_size); ("padding", padding);
     ("condition_type", condition_type);
     ("drop_text_prob", drop_text_prob); ("drop_image_prob", drop_image_prob)] in
  lib_call (NewSceneDataset ds) ;;
  mret ds.

(** [load_dataset(path, **kw)] *)
Definition load_dataset (path : string) (kw : kwargs) : M dataset :=
  lib_call (LoadDataset path kw) ;;
  w ← ask;
  mret (DHub path kw (hub_rows w path)).

(** Lines 128-144: the [img] branch. *)
Definition img_branch (training_config : pyval) : M dataset :=
  urls ← dataset_param training_config "urls";
  raw ← load_dataset "webdataset"
          [("data_files", VDict [(VStr "train", urls)]); ("split", VStr "train");
           ("cache_dir", VStr "cache/t2i2m"); ("num_proc", VInt 32)];
  condition_size ← dataset_param training_config "condition_size";
  target_size ← dataset_param training_config "target_size";
  condition_type ← lift (py_getitem training_config "condition_type");
  drop_text_prob ← dataset_param training_config "drop_text_prob";
  drop_image_prob ← dataset_param training_config "drop_image_prob";
  d ← lift (py_getitem training_config "dataset");
  position_scale ← lift (py_get d "position_scale" (VFloat float_1_0));
  let ds := DImageCondition raw
    [("condition_size", condition_size); ("target_size", target_size);
     ("condition_type", condition_type);
     ("drop_text_prob", drop_text_prob); ("drop_image_prob", drop_image_prob);
     ("position_scale", position_scale)] in
  lib_call (NewImageConditionDataset ds) ;;
  mret ds.

(** Lines 146-156: the [cartoon] branch. *)
Definition cartoon_branch (training_config : pyval) : M dataset :=
  raw ← load_dataset "saquiboye/oye-cartoon" [("split", VStr "train")];
  condition_size ← dataset_param training_config "condition_size";
  target_size ← dataset_param training_config "target_size";
  image_size ← dataset_param training_config "image_size";
  padding ← dataset_param training_config "padding";
  condition_type ← lift (py_getitem training_config "condition_type");
  drop_text_prob ← dataset_param training_config "drop_text_prob";
  drop_image_prob ← dataset_param training_config "drop_image_prob";
  let ds := DCartoon raw
    [("condition_size", condition_size); ("target_size", target_size);
     ("image_size", image_size); ("padding", padding);
     ("condition_type", condition_type);
     ("drop_text_prob", drop_text_prob); ("drop_image_prob", drop_image_prob)] in
  lib_call (NewCartoonDataset ds) ;;
  mret ds.

(** Lines 111-160: the [if]/[elif] chain.  Each test looks the tag up
    again; the second [scene] test of line 157 is kept, with the unbound
    [dataset] it would read. *)
Definition main_dataset (training_config : pyval) : M dataset :=
  t1 ← dataset_param training_config "type";
  if py_eq_str t1 "scene" then scene_branch training_config
  else
    t2 ← dataset_param training_config "type";
    if py_eq_str t2 "img" then img_branch training_config
    else
      t3 ← dataset_param training_config "type";
      if py_eq_str t3 "cartoon" then cartoon_branch training_config
      else
        t4 ← dataset_param training_config "type";
        if py_eq_str t4 "scene" then raise (UnboundLocalError "dataset")
        else raise NotImplementedError.

(** Lines 163-168. *)
Definition main_loader (training_config : pyval) (ds : dataset) : M DataLoader :=
  batch_size ← lift (py_getitem training_config "batch_size");
  num_workers ← lift (py_getitem training_config "dataloader_workers");
  let dl := {| dl_dataset := ds; dl_batch_size := batch_size;
               dl_shuffle := true; dl_num_workers := num_workers |} in
  lib_call (NewDataLoader dl) ;;
  mret dl.

(** [getattr(torch, name)] *)
Definition getattr_torch (name : pyval) : M string :=
  match name with
  | VStr n => lib_call (GetattrTorch n) ;; mret n
  | _ => raise TypeError
  end.

(** Lines 172-180. *)
Definition main_model (config training_config : pyval) : M OminiModel :=
  flux_path ← lift (py_getitem config "flux_path");
  lora ← lift (py_getitem training_config "lora_config");
  dtype_name ← lift (py_getitem config "dtype");
  dt ← getattr_torch dtype_name;
  optimizer ← lift (py_getitem training_config "optimizer");
  model ← lift (py_get config "model" (VDict []));
  checkpointing ← lift (py_get training_config "gradient_checkpointing" (VBool false));
  let m := {| flux_pipe_id := flux_path; lora_config := lora; device := "cuda";
              dtype := dt; optimizer_config := optimizer; model_config := model;
              gradient_checkpointing := checkpointing |} in
  lib_call (NewOminiModel m) ;;
  mret m.

(** Lines 182-186. *)
Definition main_callbacks (training_config : pyval) (is_main_process : bool)
    (run_name : string) : M (list TrainingCallback) :=
  if is_main_process then
    let cb := {| cb_run_name := run_name; cb_training_config := training_config |} in
    lib_call (NewTrainingCallback cb) ;;
    mret [cb]
  else mret [].

(** Lines 189-198. *)
Definition main_trainer (training_config : pyval)
    (training_callbacks : list TrainingCallback) : M Trainer :=
  accumulate ← lift (py_getitem training_config "accumulate_grad_batches");
  steps ← lift (py_get training_config "max_steps" (VInt (-1)));
  epochs ← lift (py_get training_config "max_epochs" (VInt (-1)));
  clip ← lift (py_get training_config "gradient_clip_val" (VFloat float_0_5));
  let t := {| accumulate_grad_batches := accumulate; callbacks := training_callbacks;
              enable_checkpointing := false; enable_progress_bar := false;
              logger := false; max_steps := steps; max_epochs := epochs;
              gradient_clip_val := clip; attr_training_config := None |} in
  lib_call (NewTrainer t) ;;
  mret t.

(** Line 200: [setattr(trainer, "training_config", training_config)]. *)
Definition set_training_config (t : Trainer) (training_config : pyval) : Trainer :=
  {| accumulate_grad_batches := accumulate_grad_batches t; callbacks := callbacks t;
     enable_checkpointing := enable_checkpointing t;
     enable_progress_bar := enable_progress_bar t; logger := logger t;
     max_steps := max_steps t; max_epochs := max_epochs t;
     gradient_clip_val := gradient_clip_val t;
     attr_training_config := Some training_config |}.

(** Lines 203-207. *)
Definition main_save_config (config training_config : pyval) (is_main_process : bool)
    (run_name : string) : M unit :=
  save_path ← lift (py_get training_config "save_path" (VStr "./output"));
  if is_main_process then
    sp ← fmt save_path;
    os_makedirs (sp ++ "/" ++ run_name) ;;
    open_write (sp ++ "/" ++ run_name ++ "/config.yaml") ;;
    yaml_dump_to config (sp ++ "/" ++ run_name ++ "/config.yaml")
  else mret tt.

(** Line 210. *)
Definition trainer_fit (t : Trainer) (m : OminiModel) (dl : DataLoader) : M unit :=
  lib_call (TrainerFit t m dl).

(** Lines 101-210: everything after the initialisation block. *)
Definition main_stages (is_main_process : bool) (rank : Z)
    (config training_config : pyval) (run_name : string) : M unit :=
  main_wandb training_config is_main_process run_name ;;
  py_print [VStr "Rank:"; VInt rank] ;;
  (if is_main_process then py_print [VStr "Config:"; config] else mret tt) ;;
  ds ← main_dataset training_config;
  py_print [VStr "Dataset length:"; VInt (Z.of_nat (dataset_len ds))] ;;
  train_loader ← main_loader training_config ds;
  py_print [VStr "Trainloader generated."] ;;
  trainable_model ← main_model config training_config;
  training_callbacks ← main_callbacks training_config is_main_process run_name;
  trainer ← main_trainer training_config training_callbacks;
  let trainer := set_training_config trainer training_config in
  main_save_config config training_config is_main_process run_name ;;
  trainer_fit trainer trainable_model train_loader.

(** Lines 93-210.  Line 95 calls [get_rank] twice, left to right. *)
Definition main : M unit :=
  r0 ← get_rank;
  rank ← get_rank;
  let is_main_process := (r0 =? 0)%Z in
  lib_call (CudaSetDevice rank) ;;
  config ← get_config;
  training_config ← lift (py_getitem config "train");
  run_name ← time_strftime "%Y%m%d-%H%M%S";
  main_stages is_main_process rank config training_config run_name.

(** A run of the launcher from an initial file system. *)
Definition run (w : World) (files : gmap string fnode) : outcome unit * St :=
  main w (initial files).

(** ** Reading batches

    Modelled from the spec: per-index access of an adapter lives in
    [src/train/data.py], which is not among the sources.  The spec's
    SampleRecord is [{condition_image, target_image, prompt, condition_type,
    auxiliary_drop_flags}], built from one raw record, with two dropout
    gates drawn at read time.  The spec does not say which raw image is the
    condition; [imageA] is taken in [scene_record], and the statements below
    go through [scene_record] rather than through that choice. *)
Record SampleRecord : Type := {
  condition_image : Image;
  target_image : Image;
  sr_prompt : cell;
  sr_condition_type : pyval;
  drop_flags : bool * bool;
}.

Definition kw_lookup (k : string) (kw : kwargs) : pyval :=
  match List.find (λ kv, String.eqb (fst kv) k) kw with
  | Some kv => snd kv
  | None => VNone
  end.

(** Modelled from the spec: the record [SceneDataset.__getitem__] makes
    of a raw sample.  The spec names cropping, padding and the two dropout
    gates without saying what they compute: the record keeps the raw images
    and prompt, and carries the gates as flags. *)
Definition scene_record (kw : kwargs) (gates : bool * bool) (raw : Sample) : SampleRecord :=
  {| condition_image := imageA raw; target_image := imageB raw;
     sr_prompt := prompt raw;
     sr_condition_type := kw_lookup "condition_type" kw;
     drop_flags := gates |}.

(** Modelled from the spec: [SceneDataset.__getitem__] over the local
    table reads the raw sample at the same position; records of hub-backed
    sources are not modelled. *)
Definition adapter_getitem (d : dataset) (idx : Z) (gates : bool * bool) : M SampleRecord :=
  match d with
  | DScene (DLocalSubjects self) kw =>
      raw ← LocalSubjectsDataset_getitem self idx;
      mret (scene_record kw gates raw)
  | _ => raise (LibraryError "record access of this source is not modelled")
  end.

(** A collated batch: one list per field. *)
Record Batch : Type := {
  b_condition : list Image;
  b_target : list Image;
  b_prompt : list cell;
}.

Definition collate (rs : list SampleRecord) : Batch :=
  {| b_condition := map condition_image rs;
     b_target := map target_image rs;
     b_prompt := map sr_prompt rs |}.

(** [torch.utils.data.BatchSampler] with [drop_last=False]: consecutive
    groups of [n] indices, the last one possibly shorter. *)
Fixpoint chunks_aux {A} (fuel n : nat) (l : list A) : list (list A) :=
  match fuel with
  | O => []
  | S fuel' =>
      match l with
      | [] => []
      | _ => take n l :: chunks_aux fuel' n (drop n l)
      end
  end.

Definition chunks {A} (n : nat) (l : list A) : list (list A) :=
  chunks_aux (length l) n l.

Fixpoint mapM {A B} (f : A → M B) (l : list A) : M (list B) :=
  match l with
  | [] => mret []
  | x :: r => y ← f x; ys ← mapM f r; mret (y :: ys)
  end.

(** One pass over a [DataLoader] built with [shuffle=True]: [order] is the
    permutation the sampler drew, [gates] the dropout draws by index. *)
Definition epoch (dl : DataLoader) (order : list nat) (gates : nat → bool * bool)
    : M (list Batch) :=
  match dl_batch_size dl with
  | VInt b =>
      if (0 <? b)%Z then
        mapM (λ ixs : list nat,
                rs ← mapM (λ i : nat, adapter_getitem (dl_dataset dl) (Z.of_nat i) (gates i)) ixs;
                mret (collate rs))
             (chunks (Z.to_nat b) order)
      else raise ValueError
  | _ => raise ValueError
  end.

Definition ceil_div (a b : nat) : nat := ((a + b - 1) / b)%nat.

(** ** Stages of a run and the two orders compared *)

Inductive Stage : Type :=
| SRank | SConfig | SMetrics | SDataset | SLoader | SModel | SDriver | SPersist | SFit.

Definition stage_of (e : Event) : option Stage :=
  match e with
  | EnvGet name =>
      if String.eqb name "LOCAL_RANK" then Some SRank
      else if String.eqb name "XFL_CONFIG" then Some SConfig
      else None
  | CudaSetDevice _ => Some SRank
  | OpenRead _ | YamlSafeLoad _ => Some SConfig
  | ImportWandb | WandbInit _ _ => Some SMetrics
  | NewLocalSubjectsDataset _ _ | ReadCsv _ | ImageOpen _ | LoadDataset _ _
  | NewSceneDataset _ | NewImageConditionDataset _ | NewCartoonDataset _ => Some SDataset
  | NewDataLoader _ => Some SLoader
  | GetattrTorch _ | NewOminiModel _ => Some SModel
  | NewTrainingCallback _ | NewTrainer _ => Some SDriver
  | Makedirs _ | OpenWrite _ | YamlDump _ _ => Some SPersist
  | TrainerFit _ _ _ => Some SFit
  | Strftime _ | Print _ => None
  end.

(** The order the spec lists: config first, then rank. *)
Definition spec_position (st : Stage) : nat :=
  match st with
  | SConfig => 0 | SRank => 1 | SMetrics => 2 | SDataset => 3 | SLoader => 4
  | SModel => 5 | SDriver => 6 | SPersist => 7 | SFit => 8
  end.

(** The order of the source: rank first, then config. *)
Definition code_position (st : Stage) : nat :=
  match st with
  | SRank => 0 | SConfig => 1 | SMetrics => 2 | SDataset => 3 | SLoader => 4
  | SModel => 5 | SDriver => 6 | SPersist => 7 | SFit => 8
  end.

Definition positions (pos : Stage → nat) (l : list Event) : list nat :=
  omap (λ e, pos <$> stage_of e) l.

(** No stage occurs before a stage listed earlier. *)
Definition in_order (pos : Stage → nat) (l : list Event) : Prop :=
  Sorted le (positions pos l).

Fixpoint sortedb (l : list nat) : bool :=
  match l with
  | a :: (b :: _) as r => (a <=? b)%nat && sortedb r
  | _ => true
  end.

Definition is_fit (e : Event) : bool :=
  match e with TrainerFit _ _ _ => true | _ => false end.

(** ** Classes of events *)

(** Construction of a dataset, loader or model object. *)
Definition is_construction (e : Event) : bool :=
  match stage_of e with
  | Some SDataset | Some SLoader | Some SModel => true
  | _ => false
  end.

Definition is_fs_write (e : Event) : bool :=
  match e with
  | Makedirs _ | OpenWrite _ | YamlDump _ _ => true
  | _ => false
  end.

Definition is_wandb (e : Event) : bool :=
  match e with
  | ImportWandb | WandbInit _ _ => true
  | _ => false
  end.

Definition is_callback (e : Event) : bool :=
  match e with NewTrainingCallback _ => true | _ => false end.

(** ** What the prelude of [main] computes, as functions of the world *)

(** The value [get_rank] returns. *)
Definition rank_of (w : World) : Z :=
  match py_int (environ w !! "LOCAL_RANK") with
  | Ok z => z
  | Raise _ => 0
  end.

(** The outcome of [get_config] on a file system. *)
Definition loaded_config (w : World) (files : gmap string fnode) : outcome pyval :=
  match environ w !! "XFL_CONFIG" with
  | None => Raise (AssertionError "Please set the XFL_CONFIG environment variable")
  | Some path =>
      match files !! path with
      | Some (File c) => safe_load w c
      | Some Dir => Raise (IsADirectoryError path)
      | None => Raise (FileNotFoundError path)
      end
  end.

(** The events [get_config] logs on a file system. *)
Definition config_events (w : World) (files : gmap string fnode) : list Event :=
  match environ w !! "XFL_CONFIG" with
  | None => [EnvGet "XFL_CONFIG"]
  | Some path =>
      match files !! path with
      | Some (File c) => [EnvGet "XFL_CONFIG"; OpenRead path; YamlSafeLoad path]
      | _ => [EnvGet "XFL_CONFIG"; OpenRead path]
      end
  end.

(** The state after appending events to the log. *)
Definition logged (s : St) (l : list Event) : St :=
  {| fs := fs s; log := (log s ++ l)%list |}.

(** The output directory and file of lines 205-206. *)
Definition output_dir (w : World) (save_path : pyval) : string :=
  py_str (repr_other w) save_path ++ "/" ++ strftime_now w.

Definition output_file (w : World) (save_path : pyval) : string :=
  py_str (repr_other w) save_path ++ "/" ++ strftime_now w ++ "/config.yaml".

(** The same world with [LOCAL_RANK] set to [v], or unset. *)
Definition with_local_rank (v : option string) (w : World) : World :=
  {| environ := match v with
                | Some x => <["LOCAL_RANK" := x]> (environ w)
                | None => delete "LOCAL_RANK" (environ w)
                end;
     strftime_now := strftime_now w; safe_load := safe_load w;
     yaml_dump := yaml_dump w; parse_csv := parse_csv w;
     decode_image := decode_image w; hub_rows := hub_rows w;
     repr_other := repr_other w; lib_raises := lib_raises w |}.

(** Events with the rank they carry blanked. *)
Definition blank_rank (e : Event) : Event :=
  match e with
  | CudaSetDevice _ => CudaSetDevice 0
  | Print [VStr "Rank:"; VInt _] => Print [VStr "Rank:"; VInt 0]
  | _ => e
  end.

(** ** A concrete world, for evaluating the launcher *)

Definition example_dataset_group (tag : string) : pyval :=
  VDict [(VStr "type", VStr tag);
         (VStr "csv_file", VStr "data/train.csv");
         (VStr "image_dir", VStr "data/images");
         (VStr "urls", VList [VStr "https://example.org/shard-0.tar"]);
         (VStr "condition_size", VInt 512);
         (VStr "target_size", VInt 512);
         (VStr "image_size", VInt 512);
         (VStr "padding", VInt 8);
         (VStr "drop_text_prob", VFloat float_0_5);
         (VStr "drop_image_prob", VFloat float_0_5)].

Definition example_train (tag : string) : pyval :=
  VDict [(VStr "dataset", example_dataset_group tag);
         (VStr "condition_type", VStr "scene");
         (VStr "batch_size", VInt 2);
         (VStr "dataloader_workers", VInt 0);
         (VStr "lora_config", VDict [(VStr "r", VInt 16)]);
         (VStr "optimizer", VDict [(VStr "type", VStr "AdamW")]);
         (VStr "accumulate_grad_batches", VInt 1);
         (VStr "save_path", VStr "runs")].

Definition example_config (tag : string) : pyval :=
  VDict [(VStr "flux_path", VStr "black-forest-labs/FLUX.1-dev");
         (VStr "dtype", VStr "bfloat16");
         (VStr "train", example_train tag)].

(** The config document is stood for by its dataset tag. *)
Definition example_safe_load (content : string) : outcome pyval :=
  if existsb (String.eqb content) ["scene"; "img"; "cartoon"; "unsupported"]
  then Ok (example_config content)
  else Raise (LibraryError "yaml: cannot parse").

Definition example_table : DataFrame :=
  {| df_columns := ["imageA"; "prompt"; "imageB"];
     df_rows := [[VStr "a0.png"; VStr "add a lamp"; VStr "b0.png"];
                 [VStr "a1.png"; VStr "remove the chair"; VStr "b1.png"];
                 [VStr "a2.png"; VStr "paint the wall blue"; VStr "b2.png"];
                 [VStr "a3.png"; VStr "open the window"; VStr "b3.png"]] |}.

Definition example_world (local_rank : option string) : World :=
  {| environ :=
       match local_rank with
       | Some r => {[ "LOCAL_RANK" := r; "XFL_CONFIG" := "config.yaml" ]}
       | None => {[ "XFL_CONFIG" := "config.yaml" ]}
       end;
     strftime_now := "20250101-093000";
     safe_load := example_safe_load;
     yaml_dump := λ _, "flux_path: black-forest-labs/FLUX.1-dev";
     parse_csv := λ _, Ok example_table;
     decode_image := λ _, Ok (1024, 768)%nat;
     hub_rows := λ _, 10%nat;
     repr_other := λ _, "?";
     lib_raises := λ _, None |}.

(** The same world without [XFL_CONFIG]. *)
Definition example_world_no_config : World :=
  {| environ := {[ "LOCAL_RANK" := "0" ]};
     strftime_now := "20250101-093000";
     safe_load := example_safe_load;
     yaml_dump := λ _, "flux_path: black-forest-labs/FLUX.1-dev";
     parse_csv := λ _, Ok example_table;
     decode_image := λ _, Ok (1024, 768)%nat;
     hub_rows := λ _, 10%nat;
     repr_other := λ _, "?";
     lib_raises := λ _, None |}.

Definition example_files (tag : string) : gmap string fnode :=
  {[ "config.yaml" := File tag;
     "csv_path" := File "imageA,prompt,imageB";
     "images_path/a0.png" := File "png"; "images_path/b0.png" := File "png";
     "images_path/a1.png" := File "png"; "images_path/b1.png" := File "png";
     "images_path/a2.png" := File "png"; "images_path/b2.png" := File "png";
     "images_path/a3.png" := File "png"; "images_path/b3.png" := File "png" ]}.


Open Scope list_scope.

(** ** Assertions about computations

    [emits w P strict m]: whatever the state, [m] only appends events that
    satisfy [P] to the log, and leaves the file system alone when [strict]. *)
Definition fs_rel (strict : bool) (f f' : gmap string fnode) : Prop :=
  if strict then f = f' else True.

Definition emits {A} (w : World) (P : Event → Prop) (strict : bool) (m : M A) : Prop :=
  ∀ s, ∃ l, log (m w s).2 = log s ++ l ∧ Forall P l ∧ fs_rel strict (fs s) (fs (m w s).2).

(** [after w P files m Q]: started in a state whose file system is [files]
    and whose log satisfies [P] throughout, [m] ends in [Q]. *)
Definition after {A} (w : World) (P : Event → Prop) (files : gmap string fnode)
    (m : M A) (Q : outcome A → St → Prop) : Prop :=
  ∀ s, fs s = files → Forall P (log s) → Q (m w s).1 (m w s).2.

(** [within lo hi m]: the stages of the events [m] appends are in source
    order and lie between positions [lo] and [hi]. *)
Definition within {A} (lo hi : nat) (m : M A) : Prop :=
  ∀ w s, ∃ l, log (m w s).2 = log s ++ l
    ∧ Sorted le (positions code_position l)
    ∧ Forall (λ n, lo ≤ n ≤ hi)%nat (positions code_position l).

(** [rank_blind v w m]: run in [w] and in [w] with [LOCAL_RANK] replaced by
    [v], from states that agree up to the ranks logged, [m] gives the same
    outcome and again states that agree. *)
Definition agree (s s' : St) : Prop :=
  fs s = fs s' ∧ map blank_rank (log s) = map blank_rank (log s').

Definition rank_blind {A} (v : option string) (w : World) (m : M A) : Prop :=
  ∀ s s', agree s s' →
    (m w s).1 = (m (with_local_rank v w) s').1
    ∧ agree (m w s).2 (m (with_local_rank v w) s').2.

(** ** Predicates and examples used in the statements *)

Definition mentions_csv (path : string) (e : Event) : bool :=
  match e with
  | NewLocalSubjectsDataset c _ => String.eqb c path
  | ReadCsv p => String.eqb p path
  | _ => false
  end.

Definition mentions_image_dir (dir : string) (e : Event) : bool :=
  match e with
  | NewLocalSubjectsDataset _ d => String.eqb d dir
  | _ => false
  end.

(** What line 195-197 pass, in terms of the training config. *)
Definition trainer_limits (tc : pyval) (t : Trainer) : Prop :=
  ∃ kvs, tc = VDict kvs
    ∧ gradient_clip_val t = default (VFloat float_0_5) (dict_lookup "gradient_clip_val" kvs)
    ∧ max_steps t = default (VInt (-1)) (dict_lookup "max_steps" kvs)
    ∧ max_epochs t = default (VInt (-1)) (dict_lookup "max_epochs" kvs).

(** Either the computation raised without calling [fit], or [fit] was its
    last event and its only call of [fit]. *)
Definition fit_last {A} (w : World) (m : M A) : Prop :=
  ∀ s, ∃ pre,
    Forall (λ e, is_fit e = false) pre
    ∧ ((is_ok (m w s).1 = false ∧ log (m w s).2 = log s ++ pre)
       ∨ (∃ t md dl, log (m w s).2 = log s ++ pre ++ [TrainerFit t md dl])).

(** [on_ok_has w sts m]: when [m] returns, it has logged an event of each
    stage in [sts]. *)
Definition on_ok_has {A} (w : World) (sts : list Stage) (m : M A) : Prop :=
  ∀ s, ∃ l,
    log (m w s).2 = log s ++ l
    ∧ (is_ok (m w s).1 = true →
       Forall (λ st, ∃ e, In e l ∧ stage_of e = Some st) sts).

(** The stages of lines 110-210 that a returning run goes through. *)
Definition stages_from_dataset (is_main_process : bool) : list Stage :=
  [SDataset; SLoader; SModel; SDriver]
  ++ (if is_main_process then [SPersist] else []) ++ [SFit].

(** Events before the config copy is attempted: nothing is written and
    [fit] is not called. *)
Definition before_copy (e : Event) : Prop :=
  is_fs_write e = false ∧ is_fit e = false.

Definition is_config_write (e : Event) : bool :=
  match e with
  | OpenWrite _ | YamlDump _ _ => true
  | _ => false
  end.

(** What a primary run ends in when the output directory already exists. *)
Definition aborted_at_makedirs (files : gmap string fnode) (d : string)
    (o : outcome unit) (s : St) : Prop :=
  (∃ e, o = Raise e)
  ∧ (In (Makedirs d) (log s) → o = Raise (FileExistsError d))
  ∧ Forall (λ e, is_config_write e = false ∧ is_fit e = false) (log s)
  ∧ fs s = files.

(** What a primary run that called [fit] looks like: the directory is made,
    the file opened and the config dumped, in this order and just before
    the call, and nothing was written earlier. *)
Definition copied_before_fit (w : World) (config tc : pyval) (s : St) : Prop :=
  ∀ t md dl,
    In (TrainerFit t md dl) (log s) →
    ∃ sp pre,
      py_get tc "save_path" (VStr "./output") = Ok sp
      ∧ log s = pre ++ [Makedirs (output_dir w sp); OpenWrite (output_file w sp);
                        YamlDump config (output_file w sp); TrainerFit t md dl]
      ∧ Forall before_copy pre
      ∧ fs s !! output_file w sp = Some (File (yaml_dump w config)).

(** An image file that is there, below no regular file, and decodes. *)
Definition image_ok (w : World) (files : gmap string fnode) (path : string) : Prop :=
  existsb (is_file files) (ancestors path) = false
  ∧ ∃ c size, files !! path = Some (File c) ∧ decode_image w c = Ok size.

(** A record of the table whose three cells are strings and whose two
    images are valid files under [dir]. *)
Definition valid_row (w : World) (files : gmap string fnode) (dir : string)
    (cols : list string) (row : list pyval) : Prop :=
  ∃ a p b,
    series_getitem cols row "imageA" = Ok (Scalar (VStr a))
    ∧ series_getitem cols row "prompt" = Ok (Scalar (VStr p))
    ∧ series_getitem cols row "imageB" = Ok (Scalar (VStr b))
    ∧ image_ok w files (path_join dir a)
    ∧ image_ok w files (path_join dir b).

Definition is_prompt_string (c : cell) : Prop := ∃ p, c = Scalar (VStr p).

(** The file [name] under [dir] as [__getitem__] hands it on with the
    module's [transform]: opened, in RGB, 600 by 600. *)
Definition resized (dir name : string) : Image :=
  {| img_path := path_join dir name; img_mode := "RGB"; img_size := (600, 600)%nat |}.

(** The raw sample of a row: the two files it names, resized, and its
    prompt. *)
Definition raw_of_row (dir : string) (cols : list string) (row : list pyval)
    (raw : Sample) : Prop :=
  ∃ a p b,
    series_getitem cols row "imageA" = Ok (Scalar (VStr a))
    ∧ series_getitem cols row "prompt" = Ok (Scalar (VStr p))
    ∧ series_getitem cols row "imageB" = Ok (Scalar (VStr b))
    ∧ raw = {| imageA := resized dir a; prompt := Scalar (VStr p);
               imageB := resized dir b |}.

(** The files [__getitem__] opens for the record at position [i]. *)
Definition image_opens (dir : string) (df : DataFrame) (i : nat) : list Event :=
  match nth_error (df_rows df) i with
  | Some row =>
      match series_getitem (df_columns df) row "imageA",
            series_getitem (df_columns df) row "imageB" with
      | Ok (Scalar (VStr a)), Ok (Scalar (VStr b)) =>
          [ImageOpen (path_join dir a); ImageOpen (path_join dir b)]
      | _, _ => []
      end
  | None => []
  end.

(** A batch drawn for the indices [ixs]: the collation of the records made
    of the raw samples of the rows at these positions, in this order. *)
Definition batch_for (dir : string) (df : DataFrame) (kw : kwargs)
    (gates : nat → bool * bool) (ixs : list nat) (b : Batch) : Prop :=
  ∃ raws,
    Forall2 (λ i raw, ∃ row, nth_error (df_rows df) i = Some row
                        ∧ raw_of_row dir (df_columns df) row raw) ixs raws
    ∧ b = collate (zip_with (λ i raw, scene_record kw (gates i) raw) ixs raws).

(** A batch of [n] condition/target pairs and [n] prompt strings. *)
Definition batch_of_size (n : nat) (b : Batch) : Prop :=
  length (b_condition b) = n
  ∧ length (b_target b) = n
  ∧ length (b_prompt b) = n
  ∧ Forall is_prompt_string (b_prompt b).

Definition maybe_transform (t : option Transform) (im : Image) : Image :=
  match t with
  | Some t => apply_transform t im
  | None => im
  end.

Definition example_trainer : Trainer :=
  {| accumulate_grad_batches := VInt 1;
     callbacks := [{| cb_run_name := "20250101-093000";
                      cb_training_config := example_train "scene" |}];
     enable_checkpointing := false; enable_progress_bar := false; logger := false;
     max_steps := VInt (-1); max_epochs := VInt (-1);
     gradient_clip_val := VFloat float_0_5;
     attr_training_config := None |}.

(** What the example scene run passes to [fit]. *)
Definition example_fit : Trainer * OminiModel * DataLoader :=
  Eval vm_compute in
    match last (log_of (run (example_world (Some "0")) (example_files "scene"))) with
    | Some (TrainerFit t md dl) => (t, md, dl)
    | _ => (example_trainer,
            {| flux_pipe_id := VNone; lora_config := VNone; device := ""; dtype := "";
               optimizer_config := VNone; model_config := VNone;
               gradient_checkpointing := VNone |},
            {| dl_dataset := DHub "" [] 0; dl_batch_size := VNone; dl_shuffle := true;
               dl_num_workers := VNone |})
    end.

(** The state in which the example scene run selects its dataset, and the
    results of the selection and of the loader construction there. *)
Definition example_state : St := initial (example_files "scene").

Definition example_dataset : dataset * St :=
  Eval vm_compute in
    match main_dataset (example_train "scene") (example_world (Some "0")) example_state with
    | (Ok ds, s1) => (ds, s1)
    | (Raise _, s1) => (DHub "" [] 0, s1)
    end.

Definition example_loader : DataLoader * St :=
  Eval vm_compute in
    match main_loader (example_train "scene") example_dataset.1
            (example_world (Some "0")) example_dataset.2 with
    | (Ok dl, s2) => (dl, s2)
    | (Raise _, s2) =>
        ({| dl_dataset := DHub "" [] 0; dl_batch_size := VNone; dl_shuffle := true;
            dl_num_workers := VNone |}, s2)
    end.

(** ** Predicates and examples of the further properties *)

Definition is_image_open (e : Event) : bool :=
  match e with ImageOpen _ => true | _ => false end.

(** The dataset [main] builds over the example table. *)
Definition example_local : LocalSubjectsDataset :=
  {| lsd_data := example_table; lsd_image_dir := "images_path";
     lsd_transform := Some transform; lsd_features := features_literal |}.

(** A table without a [prompt] column. *)
Definition example_local_no_prompt : LocalSubjectsDataset :=
  {| lsd_data := {| df_columns := ["imageA"; "imageB"];
                    df_rows := [[VStr "a0.png"; VStr "b0.png"]] |};
     lsd_image_dir := "images_path";
     lsd_transform := Some transform; lsd_features := features_literal |}.



(** The chain of lines 111-160 with the second [scene] test, line 157,
    left out: what [main_dataset] is compared with. *)
Definition main_dataset_without_line_157 (training_config : pyval) : M dataset :=
  t1 ← dataset_param training_config "type";
  if py_eq_str t1 "scene" then scene_branch training_config
  else
    t2 ← dataset_param training_config "type";
    if py_eq_str t2 "img" then img_branch training_config
    else
      t3 ← dataset_param training_config "type";
      if py_eq_str t3 "cartoon" then cartoon_branch training_config
      else raise NotImplementedError.

(** The keyword arguments line 129-135 pass to [load_dataset]. *)
Definition webdataset_kwargs (urls : pyval) : kwargs :=
  [("data_files", VDict [(VStr "train", urls)]); ("split", VStr "train");
   ("cache_dir", VStr "cache/t2i2m"); ("num_proc", VInt 32)].

(** A training config whose [wandb] group has no [project]. *)
Definition example_train_wandb : pyval :=
  VDict [(VStr "wandb", VDict [(VStr "entity", VStr "lab")])].

(** An [img] training config without [urls], and one with [urls] but
    without [condition_size]. *)
Definition example_train_img (group : list (pyval * pyval)) : pyval :=
  VDict [(VStr "dataset", VDict ((VStr "type", VStr "img") :: group));
         (VStr "condition_type", VStr "canny")].

(** What lines 172-180 pass to [OminiModel], in terms of the config and
    its [train] section. *)
Definition model_from (config tc : pyval) (m : OminiModel) : Prop :=
  py_getitem config "flux_path" = Ok (flux_pipe_id m)
  ∧ py_getitem tc "lora_config" = Ok (lora_config m)
  ∧ device m = "cuda"
  ∧ py_getitem config "dtype" = Ok (VStr (dtype m))
  ∧ py_getitem tc "optimizer" = Ok (optimizer_config m)
  ∧ py_get config "model" (VDict []) = Ok (model_config m)
  ∧ py_get tc "gradient_checkpointing" (VBool false) = Ok (gradient_checkpointing m).

(** What lines 163-168 pass to [DataLoader]. *)
Definition loader_from (tc : pyval) (dl : DataLoader) : Prop :=
  dl_shuffle dl = true
  ∧ py_getitem tc "batch_size" = Ok (dl_batch_size dl)
  ∧ py_getitem tc "dataloader_workers" = Ok (dl_num_workers dl).

(** Where an adapter's keyword comes from: [condition_type] from the
    [train] section itself, [position_scale] from the dataset group with
    default 1.0, every other one from the dataset group. *)
Definition param_source (tc d : pyval) (k : string) : outcome pyval :=
  if String.eqb k "condition_type" then py_getitem tc k
  else if String.eqb k "position_scale" then py_get d k (VFloat float_1_0)
  else py_getitem d k.

Definition adapter_params (tc d : pyval) (keys : list string) (kw : kwargs) : Prop :=
  map fst kw = keys ∧ Forall (λ kv, param_source tc d kv.1 = Ok kv.2) kw.

(** The dataset lines 111-160 build, by tag. *)
Definition dataset_from (w : World) (tc : pyval) (ds : dataset) : Prop :=
  ∃ d tag,
    py_getitem tc "dataset" = Ok d
    ∧ py_getitem d "type" = Ok (VStr tag)
    ∧ match ds with
      | DScene (DLocalSubjects local) kw =>
          tag = "scene"
          ∧ lsd_image_dir local = "images_path"
          ∧ lsd_transform local = Some transform
          ∧ adapter_params tc d
              ["condition_size"; "target_size"; "image_size"; "padding";
               "condition_type"; "drop_text_prob"; "drop_image_prob"] kw
      | DImageCondition (DHub path hub_kw n) kw =>
          tag = "img"
          ∧ path = "webdataset"
          ∧ (∃ urls, py_getitem d "urls" = Ok urls ∧ hub_kw = webdataset_kwargs urls)
          ∧ n = hub_rows w path
          ∧ adapter_params tc d
              ["condition_size"; "target_size"; "condition_type";
               "drop_text_prob"; "drop_image_prob"; "position_scale"] kw
      | DCartoon (DHub path hub_kw n) kw =>
          tag = "cartoon"
          ∧ path = "saquiboye/oye-cartoon"
          ∧ hub_kw = [("split", VStr "train")]
          ∧ n = hub_rows w path
          ∧ adapter_params tc d
              ["condition_size"; "target_size"; "image_size"; "padding";
               "condition_type"; "drop_text_prob"; "drop_image_prob"] kw
      | _ => False
      end.

(** What line 88-90 pass to [wandb.init]. *)
Definition wandb_from (tc : pyval) (project : pyval) : Prop :=
  ∃ wandb_config,
    py_get tc "wandb" VNone = Ok wandb_config
    ∧ py_getitem wandb_config "project" = Ok project.

(** The example config with a [wandb] group, and a world that loads it. *)
Definition example_config_wandb : pyval :=
  VDict [(VStr "flux_path", VStr "black-forest-labs/FLUX.1-dev");
         (VStr "dtype", VStr "bfloat16");
         (VStr "train",
          VDict [(VStr "wandb", VDict [(VStr "project", VStr "ieap")]);
                 (VStr "dataset", example_dataset_group "img")])].

Definition example_world_wandb (local_rank : string) : World :=
  {| environ := {[ "LOCAL_RANK" := local_rank; "XFL_CONFIG" := "config.yaml" ]};
     strftime_now := "20250101-093000";
     safe_load := λ _, Ok example_config_wandb;
     yaml_dump := λ _, "flux_path: black-forest-labs/FLUX.1-dev";
     parse_csv := λ _, Ok example_table;
     decode_image := λ _, Ok (1024, 768)%nat;
     hub_rows := λ _, 10%nat;
     repr_other := λ _, "?";
     lib_raises := λ _, None |}.

(** What lines 189-198 pass to [L.Trainer] besides the limits and the
    callbacks. *)
Definition trainer_from (tc : pyval) (t : Trainer) : Prop :=
  py_getitem tc "accumulate_grad_batches" = Ok (accumulate_grad_batches t)
  ∧ enable_checkpointing t = false
  ∧ enable_progress_bar t = false
  ∧ logger t = false
  ∧ attr_training_config t = None.

(** [returns w P Q m]: [m] only appends events that satisfy [P], and what
    it returns satisfies [Q]. *)
Definition returns {A} (w : World) (P : Event → Prop) (Q : A → Prop) (m : M A) : Prop :=
  ∀ s, ∃ l, log (m w s).2 = log s ++ l ∧ Forall P l ∧ ∀ a, (m w s).1 = Ok a → Q a.

(** The arguments of the constructions and of [wandb.init], in terms of
    the config, its [train] section and the run name. *)
Definition arguments_ok (w : World) (is_main_process : bool)
    (config tc : pyval) (run_name : string) (e : Event) : Prop :=
  match e with
  | WandbInit project name =>
      is_main_process = true ∧ name = run_name ∧ wandb_from tc project
  | NewSceneDataset ds | NewImageConditionDataset ds | NewCartoonDataset ds =>
      dataset_from w tc ds
  | NewDataLoader dl => loader_from tc dl ∧ dataset_from w tc (dl_dataset dl)
  | NewOminiModel m => model_from config tc m
  | NewTrainer t => trainer_from tc t
  | _ => True
  end.

(** The events whose arguments [arguments_ok] describes. *)
Definition takes_arguments (e : Event) : bool :=
  match e with
  | WandbInit _ _ | NewSceneDataset _ | NewImageConditionDataset _
  | NewCartoonDataset _ | NewDataLoader _ | NewOminiModel _ | NewTrainer _ => true
  | _ => false
  end.

(** The loader of the example [img] run. *)
Definition example_loader_img : DataLoader :=
  {| dl_dataset :=
       DImageCondition
         (DHub "webdataset"
            (webdataset_kwargs (VList [VStr "https://example.org/shard-0.tar"])) 10)
         [("condition_size", VInt 512); ("target_size", VInt 512);
          ("condition_type", VStr "scene");
          ("drop_text_prob", VFloat float_0_5); ("drop_image_prob", VFloat float_0_5);
          ("position_scale", VFloat float_1_0)];
     dl_batch_size := VInt 2; dl_shuffle := true; dl_num_workers := VInt 0 |}.

(** A table in which the names [imageA], [prompt] and [imageB] each head
    two columns, and the sample [__getitem__] makes of its record. *)
Definition example_local_duplicates : LocalSubjectsDataset :=
  {| lsd_data :=
       {| df_columns := ["imageA"; "imageA"; "prompt"; "prompt"; "imageB"; "imageB"];
          df_rows := [[VStr "a0.png"; VStr "a1.png"; VStr "add a lamp";
                       VStr "remove the chair"; VStr "b0.png"; VStr "b1.png"]] |};
     lsd_image_dir := "images_path"; lsd_transform := Some transform;
     lsd_features := features_literal |}.

Definition example_sample_duplicates : Sample * St :=
  Eval vm_compute in
    match LocalSubjectsDataset_getitem example_local_duplicates 0
            (example_world (Some "0")) example_state with
    | (Ok sample, s') => (sample, s')
    | (Raise _, s') =>
        ({| imageA := {| img_path := ""; img_mode := ""; img_size := (0, 0)%nat |};
            prompt := Series [];
            imageB := {| img_path := ""; img_mode := ""; img_size := (0, 0)%nat |} |}, s')
    end.

(** A file system in which every entry lies in directories that are
    entries themselves. *)
Definition well_formed (files : gmap string fnode) : Prop :=
  ∀ p d, is_Some (files !! p) → In d (ancestors p) → files !! d = Some Dir.

Definition well_formedb (files : gmap string fnode) : bool :=
  forallb (λ p, forallb (λ d, match files !! d with Some Dir => true | _ => false end)
                  (ancestors p))
    (map fst (map_to_list files)).

(** The example files with the directory they lie in, and an older run's
    output. *)
Definition example_tree : gmap string fnode :=
  {[ "config.yaml" := File "scene";
     "csv_path" := File "imageA,prompt,imageB";
     "images_path" := Dir;
     "images_path/a0.png" := File "png"; "images_path/b0.png" := File "png";
     "runs" := Dir; "runs/20241231-180000" := Dir;
     "runs/20241231-180000/config.yaml" := File "flux_path: old" ]}.

(** * Proofs *)

(** ** The pure helpers on small inputs *)

Example parse_int_padded : parse_int " -1_0 " = Some (-10)%Z.
Proof. reflexivity. Qed.

Example parse_int_leading_zero : parse_int "07" = Some 7%Z.
Proof. reflexivity. Qed.

Example parse_int_spaces :
  map parse_int [String (ascii_of_nat 160) "7"; String (ascii_of_nat 133) "7";
                 String (ascii_of_nat 28) "7"; String (ascii_of_nat 11) "7"]
  = [Some 7%Z; Some 7%Z; None; Some 7%Z].
Proof. reflexivity. Qed.

Example parse_int_rejects :
  map parse_int [""; "+"; "1__0"; "12_"; "_1"; "3 4"; "0x10"; "1.0"; "gpu0"]
  = [None; None; None; None; None; None; None; None; None].
Proof. reflexivity. Qed.

Example str_of_Z_samples :
  map str_of_Z [0; 7; 10; -120; 1024]%Z = ["0"; "7"; "10"; "-120"; "1024"].
Proof. reflexivity. Qed.

Example path_join_samples :
  [path_join "a" "b"; path_join "a/" "b"; path_join "" "b"; path_join "a" "/b"]
  = ["a/b"; "a/b"; "b"; "/b"].
Proof. reflexivity. Qed.

Example ancestors_sample :
  ancestors "runs/20250101-093000/config.yaml" = ["runs"; "runs/20250101-093000"].
Proof. reflexivity. Qed.

Example chunks_samples :
  chunks 2 [3; 1; 0; 2]%nat = [[3; 1]; [0; 2]]%nat
  ∧ chunks 2 [4; 3; 1; 0; 2]%nat = [[4; 3]; [1; 0]; [2]]%nat.
Proof. split; reflexivity. Qed.

Example py_get_default :
  py_get (VDict [(VStr "max_steps", VInt 1)]) "max_steps" (VInt (-1)) = Ok (VInt 1)
  ∧ py_get (VDict []) "max_steps" (VInt (-1)) = Ok (VInt (-1))
  ∧ py_get VNone "max_steps" (VInt (-1)) = Raise AttributeError.
Proof. repeat split. Qed.

(** ** Running the monad *)

Lemma bind_run {A B} (m : M A) (k : A → M B) w s :
  (m ≫= k) w s =
  match m w s with
  | (Ok a, s') => k a w s'
  | (Raise e, s') => (Raise e, s')
  end.
Proof. reflexivity. Qed.

Lemma bind_assoc {A B C} (m : M A) (f : A → M B) (k : B → M C) w s :
  ((m ≫= f) ≫= k) w s = (m ≫= λ x, f x ≫= k) w s.
Proof. rewrite !bind_run. destruct (m w s) as [[a|e] s']; reflexivity. Qed.

(** ** Rules for [emits] *)

Section EmitsRules.
Context (w : World) (P : Event → Prop) (strict : bool).

Lemma fs_rel_refl f : fs_rel strict f f.
Proof. destruct strict; simpl; auto. Qed.

Lemma fs_rel_trans f g h : fs_rel strict f g → fs_rel strict g h → fs_rel strict f h.
Proof. destruct strict; simpl; auto. congruence. Qed.

Lemma emits_same {A} (m : M A) :
  (∀ s, (m w s).2 = s) → emits w P strict m.
Proof.
  intros H s. exists []. rewrite H, app_nil_r.
  split; [reflexivity|]. split; [constructor | apply fs_rel_refl].
Qed.

Lemma emits_ret {A} (a : A) : emits w P strict (mret a).
Proof. apply emits_same; reflexivity. Qed.

Lemma emits_raise {A} e : emits w P strict (raise e : M A).
Proof. apply emits_same; reflexivity. Qed.

Lemma emits_lift {A} (o : outcome A) : emits w P strict (lift o).
Proof. apply emits_same; reflexivity. Qed.

Lemma emits_ask : emits w P strict ask.
Proof. apply emits_same; reflexivity. Qed.

Lemma emits_get_fs : emits w P strict get_fs.
Proof. apply emits_same; reflexivity. Qed.

Lemma emits_emit e : P e → emits w P strict (emit e).
Proof.
  intros H s. exists [e]. simpl. split; [reflexivity|].
  split; [repeat constructor; exact H | apply fs_rel_refl].
Qed.

Lemma emits_bind {A B} (m : M A) (k : A → M B) :
  emits w P strict m → (∀ a, emits w P strict (k a)) → emits w P strict (m ≫= k).
Proof.
  intros Hm Hk s. rewrite bind_run.
  destruct (Hm s) as (l1 & E1 & F1 & R1).
  destruct (m w s) as [[a|e] s1]; simpl in *.
  - destruct (Hk a s1) as (l2 & E2 & F2 & R2).
    exists (l1 ++ l2). rewrite E2, E1, app_assoc.
    split; [reflexivity|]. split; [apply Forall_app; auto | eapply fs_rel_trans; eauto].
  - exists l1. auto.
Qed.

Lemma emits_bind_assoc {A B C} (m : M A) (f : A → M B) (k : B → M C) :
  emits w P strict (m ≫= λ x, f x ≫= k) → emits w P strict ((m ≫= f) ≫= k).
Proof. intros H s. rewrite bind_assoc. apply H. Qed.

Lemma emits_bind_ret {A B} (a : A) (k : A → M B) :
  emits w P strict (k a) → emits w P strict (mret a ≫= k).
Proof. intros H s. apply H. Qed.

Lemma emits_bind_lift {A B} (o : outcome A) (k : A → M B) :
  (∀ a, o = Ok a → emits w P strict (k a)) → emits w P strict (lift o ≫= k).
Proof.
  intros H s. destruct o as [a|e].
  - apply (H a eq_refl).
  - apply (emits_raise e s).
Qed.

Lemma emits_bind_ask {A} (k : World → M A) :
  emits w P strict (k w) → emits w P strict (ask ≫= k).
Proof. intros H s. apply H. Qed.

Lemma emits_try_except {A} (m h : M A) :
  emits w P strict m → emits w P strict h → emits w P strict (try_except m h).
Proof.
  intros Hm Hh s. unfold try_except.
  destruct (Hm s) as (l1 & E1 & F1 & R1).
  destruct (m w s) as [[a|e] s1]; simpl in *.
  - exists l1. auto.
  - destruct (Hh s1) as (l2 & E2 & F2 & R2).
    exists (l1 ++ l2). rewrite E2, E1, app_assoc.
    split; [reflexivity|]. split; [apply Forall_app; auto | eapply fs_rel_trans; eauto].
Qed.
End EmitsRules.

Lemma emits_put_fs w P files : emits w P false (put_fs files).
Proof.
  intros s. exists []. simpl. rewrite app_nil_r. repeat split. constructor.
Qed.

Lemma emits_mono {A} w (P P' : Event → Prop) strict (m : M A) :
  (∀ e, P e → P' e) → emits w P strict m → emits w P' false m.
Proof.
  intros HP H s. destruct (H s) as (l & E & F & _).
  exists l. split; [exact E|]. split; [|exact I].
  eapply Forall_impl; eauto.
Qed.

(** One step of a syntax-directed proof of [emits]. *)
Ltac emits_step :=
  lazymatch goal with
  | |- emits _ _ _ ((_ ≫= _) ≫= _) => apply emits_bind_assoc
  | |- emits _ _ _ (mret _ ≫= _) => apply emits_bind_ret
  | |- emits _ _ _ (lift _ ≫= _) => apply emits_bind_lift; intros ? ?
  | |- emits _ _ _ (ask ≫= _) => apply emits_bind_ask
  | |- emits _ _ _ (_ ≫= _) => apply emits_bind; [| intros ?]
  | |- emits _ _ _ (mret _) => apply emits_ret
  | |- emits _ _ _ (raise _) => apply emits_raise
  | |- emits _ _ _ (lift _) => apply emits_lift
  | |- emits _ _ _ ask => apply emits_ask
  | |- emits _ _ _ get_fs => apply emits_get_fs
  | |- emits _ _ _ (put_fs _) => apply emits_put_fs
  | |- emits _ _ _ (emit _) => apply emits_emit
  | |- emits _ _ _ (try_except _ _) => apply emits_try_except
  | |- emits _ _ _ (match ?x with _ => _ end) => destruct x eqn:?
  | |- emits _ _ _ (let _ := _ in _) => cbv zeta
  end.

Ltac unfold_program :=
  unfold main_stages, main_wandb, init_wandb, main_dataset, scene_branch, img_branch, cartoon_branch,
    LocalSubjectsDataset_init, pd_read_csv, load_dataset, dataset_param,
    main_loader, main_model, getattr_torch, main_callbacks, main_trainer,
    main_save_config, trainer_fit, get_config, yaml_safe_load, get_rank,
    os_environ_get, open_read, os_makedirs, open_write, yaml_dump_to, py_print,
    time_strftime, fmt, lib_call.

(** ** The initialisation block, run *)

Ltac run_unfold :=
  unfold mbind, M_bind, mret, M_ret, ask, raise, lift, emit, get_fs, put_fs, logged.

Lemma get_rank_run w s :
  get_rank w s = (Ok (rank_of w), logged s [EnvGet "LOCAL_RANK"]).
Proof.
  unfold get_rank, try_except, os_environ_get, rank_of. run_unfold. simpl.
  destruct (py_int (environ w !! "LOCAL_RANK")); reflexivity.
Qed.

Lemma lib_call_run e w s :
  lib_call e w s =
  (match lib_raises w e with Some x => Raise x | None => Ok tt end, logged s [e]).
Proof.
  unfold lib_call. run_unfold. simpl. destruct (lib_raises w e); reflexivity.
Qed.

Lemma get_config_run w s :
  get_config w s = (loaded_config w (fs s), logged s (config_events w (fs s))).
Proof.
  unfold get_config, os_environ_get, open_read, yaml_safe_load, loaded_config, config_events.
  run_unfold. simpl.
  destruct (environ w !! "XFL_CONFIG") as [path|]; [|reflexivity].
  destruct (fs s !! path) as [[|c]|] eqn:E; simpl; rewrite E; simpl;
    rewrite <- ?app_assoc; reflexivity.
Qed.

Lemma logged_logged s l1 l2 : logged (logged s l1) l2 = logged s (l1 ++ l2).
Proof. unfold logged. simpl. by rewrite app_assoc. Qed.

(** [main] up to line 99, with the log of each way out. *)
Lemma main_run w s :
  main w s =
  let r := rank_of w in
  let pre := [EnvGet "LOCAL_RANK"; EnvGet "LOCAL_RANK"; CudaSetDevice r] in
  match lib_raises w (CudaSetDevice r) with
  | Some x => (Raise x, logged s pre)
  | None =>
      match loaded_config w (fs s) with
      | Raise e => (Raise e, logged s (pre ++ config_events w (fs s)))
      | Ok config =>
          match py_getitem config "train" with
          | Raise e => (Raise e, logged s (pre ++ config_events w (fs s)))
          | Ok training_config =>
              main_stages (r =? 0)%Z r config training_config (strftime_now w) w
                (logged s (pre ++ config_events w (fs s) ++ [Strftime "%Y%m%d-%H%M%S"]))
          end
      end
  end.
Proof.
  unfold main. rewrite bind_run, get_rank_run, bind_run, get_rank_run.
  cbv zeta. rewrite bind_run, lib_call_run, !logged_logged. simpl app.
  destruct (lib_raises w _); [reflexivity|].
  rewrite bind_run, get_config_run, logged_logged. simpl fs.
  destruct (loaded_config w (fs s)) as [config|e]; [|reflexivity].
  rewrite bind_run. unfold lift at 1.
  destruct (py_getitem config "train") as [tc|e]; [|reflexivity].
  rewrite bind_run. unfold time_strftime at 1. run_unfold. simpl.
  rewrite <- !app_assoc. reflexivity.
Qed.

Lemma run_eq w files : run w files = main w (initial files).
Proof. reflexivity. Qed.

(** ** Rank detection *)

(** C9: rank detection never fails.  Whatever the environment, [get_rank]
    returns an integer; it returns 0 when [LOCAL_RANK] is unset and when its
    value does not parse as an integer, and the parsed value otherwise. *)
Theorem get_rank_never_fails (w : World) (s : St) :
  ∃ z : Z,
    outcome_of (get_rank w s) = Ok z
    ∧ (environ w !! "LOCAL_RANK" = None → z = 0%Z)
    ∧ (∀ v, environ w !! "LOCAL_RANK" = Some v → parse_int v = None → z = 0%Z)
    ∧ (∀ v n, environ w !! "LOCAL_RANK" = Some v → parse_int v = Some n → z = n).
Proof.
  exists (rank_of w). rewrite get_rank_run. split; [reflexivity|].
  unfold rank_of, py_int.
  destruct (environ w !! "LOCAL_RANK") as [v|].
  - split; [discriminate|]. split.
    + intros v' [= <-] Hp. by rewrite Hp.
    + intros v' n [= <-] Hp. by rewrite Hp.
  - split; [reflexivity|]. split; intros; discriminate.
Qed.

Lemma get_rank_never_fails_unparseable :
  outcome_of (get_rank (example_world (Some "gpu0")) (initial ∅)) = Ok 0%Z.
Proof.
  destruct (get_rank_never_fails (example_world (Some "gpu0")) (initial ∅))
    as (z & E & _ & H & _).
  rewrite E. f_equal. apply (H "gpu0"); reflexivity.
Defined.

(** ** Configuration loading *)

(** C2: without [XFL_CONFIG], [get_config] fails its assertion; the run
    raises, with that assertion error whenever the device call before it
    returned, and nothing of a dataset, loader or model has been constructed
    by then.  With [XFL_CONFIG] naming a readable file that parses,
    [get_config] returns the parsed value. *)
Theorem missing_config_is_fatal (w : World) (files : gmap string fnode) :
  (environ w !! "XFL_CONFIG" = None →
     (∀ s, outcome_of (get_config w s)
           = Raise (AssertionError "Please set the XFL_CONFIG environment variable"))
     ∧ (∃ e, outcome_of (run w files) = Raise e)
     ∧ (lib_raises w (CudaSetDevice (rank_of w)) = None →
        outcome_of (run w files)
        = Raise (AssertionError "Please set the XFL_CONFIG environment variable"))
     ∧ Forall (λ e, is_construction e = false) (log_of (run w files)))
  ∧ (∀ path c v s,
       environ w !! "XFL_CONFIG" = Some path →
       fs s !! path = Some (File c) →
       safe_load w c = Ok v →
       outcome_of (get_config w s) = Ok v).
Proof.
  split.
  - intros Hunset.
    assert (Hload : ∀ f, loaded_config w f
              = Raise (AssertionError "Please set the XFL_CONFIG environment variable")).
    { intros f. unfold loaded_config. by rewrite Hunset. }
    split; [intros s; by rewrite get_config_run, Hload|].
    rewrite run_eq, main_run. cbv zeta. rewrite Hload.
    unfold config_events. rewrite Hunset.
    destruct (lib_raises w (CudaSetDevice (rank_of w))) as [x|]; simpl.
    + split; [eauto|]. split; [discriminate|]. repeat constructor.
    + split; [eauto|]. split; [reflexivity|]. repeat constructor.
  - intros path c v s Henv Hfile Hparse.
    rewrite get_config_run. unfold loaded_config. simpl.
    by rewrite Henv, Hfile.
Qed.

Lemma missing_config_is_fatal_example :
  outcome_of (run example_world_no_config (example_files "scene"))
  = Raise (AssertionError "Please set the XFL_CONFIG environment variable")
  ∧ outcome_of (get_config (example_world (Some "0")) (initial (example_files "scene")))
    = Ok (example_config "scene").
Proof.
  split.
  - apply (proj1 (missing_config_is_fatal example_world_no_config (example_files "scene")));
      reflexivity.
  - apply (proj2 (missing_config_is_fatal (example_world (Some "0")) (example_files "scene"))
             "config.yaml" "scene"); reflexivity.
Defined.

(** ** Dataset selection *)

Lemma emits_grows {A} w P strict (m : M A) :
  emits w P strict m → ∀ s, ∃ l, log (m w s).2 = log s ++ l.
Proof. intros H s. destruct (H s) as (l & E & _). eauto. Qed.

Lemma dataset_param_run tc k w s :
  dataset_param tc k w s
  = (match py_getitem tc "dataset" with
     | Ok d => py_getitem d k
     | Raise e => Raise e
     end, s).
Proof.
  unfold dataset_param. run_unfold.
  destruct (py_getitem tc "dataset"); reflexivity.
Qed.

Lemma bind_emit_run {A} e (k : unit → M A) w s :
  (emit e ≫= k) w s = k tt w (logged s [e]).
Proof. reflexivity. Qed.

Lemma bind_ret_run {A B} (a : A) (k : A → M B) w s :
  (mret a ≫= k) w s = k a w s.
Proof. reflexivity. Qed.

(** The tag [scene] leads to the table named by the two literals of line
    112, whatever else the dataset group holds. *)
Lemma scene_reads_literal_paths w s tc d t :
  py_getitem tc "dataset" = Ok d →
  py_getitem d "type" = Ok t →
  py_eq_str t "scene" = true →
  ∃ rest,
    log (main_dataset tc w s).2
    = log s ++ NewLocalSubjectsDataset "csv_path" "images_path" :: ReadCsv "csv_path" :: rest.
Proof.
  intros Hd Ht Hscene. unfold main_dataset.
  rewrite bind_run, dataset_param_run, Hd, Ht, Hscene.
  unfold scene_branch, LocalSubjectsDataset_init, pd_read_csv.
  rewrite !bind_assoc, bind_emit_run.
  rewrite !bind_assoc, bind_emit_run, logged_logged.
  match goal with
  | |- context [log (?m w ?s1).2] =>
      assert (H : emits w (λ _, True) false m)
        by (unfold_program; repeat emits_step; exact I);
      destruct (emits_grows _ _ _ _ H s1) as (l & E)
  end.
  rewrite E. simpl. rewrite <- !app_assoc. simpl. eauto.
Qed.

(** C1 (the source departs from the claim): in a scene run whose config
    gives [csv_file = data/train.csv] and [image_dir = data/images], the
    table read and the image directory are the literals [csv_path] and
    [images_path] of line 112; the configured values are never used. *)
Theorem scene_ignores_configured_paths :
  let r := run (example_world (Some "0")) (example_files "scene") in
  loaded_config (example_world (Some "0")) (example_files "scene") = Ok (example_config "scene")
  ∧ dict_lookup "csv_file"
      match example_dataset_group "scene" with VDict kvs => kvs | _ => [] end
    = Some (VStr "data/train.csv")
  ∧ dict_lookup "image_dir"
      match example_dataset_group "scene" with VDict kvs => kvs | _ => [] end
    = Some (VStr "data/images")
  ∧ existsb (mentions_csv "csv_path") (log_of r) = true
  ∧ existsb (mentions_image_dir "images_path") (log_of r) = true
  ∧ existsb (mentions_csv "data/train.csv") (log_of r) = false
  ∧ existsb (mentions_image_dir "data/images") (log_of r) = false.
Proof. vm_compute. repeat split; reflexivity. Qed.

Lemma main_dataset_unsupported w s tc d t :
  py_getitem tc "dataset" = Ok d →
  py_getitem d "type" = Ok t →
  py_eq_str t "scene" = false →
  py_eq_str t "img" = false →
  py_eq_str t "cartoon" = false →
  main_dataset tc w s = (Raise NotImplementedError, s).
Proof.
  intros Hd Ht H1 H2 H3. unfold main_dataset.
  rewrite bind_run, dataset_param_run, Hd, Ht, H1.
  rewrite bind_run, dataset_param_run, Hd, Ht, H2.
  rewrite bind_run, dataset_param_run, Hd, Ht, H3.
  rewrite bind_run, dataset_param_run, Hd, Ht, H1.
  reflexivity.
Qed.

Lemma main_wandb_emits w tc b rn :
  emits w (λ e, is_wandb e = true) true (main_wandb tc b rn).
Proof. unfold_program. repeat emits_step; reflexivity. Qed.

Lemma emits_strict_state {A} w P (m : M A) s :
  emits w P true m → ∃ l, (m w s).2 = logged s l ∧ Forall P l.
Proof.
  intros H. destruct (H s) as (l & E & F & R). exists l. split; [|exact F].
  simpl in R. destruct (m w s) as [o [f lg]]. simpl in *. unfold logged. by subst.
Qed.

Lemma config_events_stage w files :
  Forall (λ e, stage_of e = Some SConfig) (config_events w files).
Proof.
  unfold config_events.
  destruct (environ w !! "XFL_CONFIG") as [p|]; [|repeat constructor].
  destruct (files !! p) as [[|c]|]; repeat constructor.
Qed.

Lemma main_stages_unsupported w s b r config tc rn d t :
  py_getitem tc "dataset" = Ok d →
  py_getitem d "type" = Ok t →
  py_eq_str t "scene" = false →
  py_eq_str t "img" = false →
  py_eq_str t "cartoon" = false →
  ∃ l e,
    main_stages b r config tc rn w s = (Raise e, logged s l)
    ∧ Forall (λ ev, is_wandb ev = true ∨ ∃ args, ev = Print args) l
    ∧ (In (Print [VStr "Rank:"; VInt r]) l → e = NotImplementedError).
Proof.
  intros Hd Ht H1 H2 H3. unfold main_stages. rewrite bind_run.
  destruct (emits_strict_state w _ _ s (main_wandb_emits w tc b rn)) as (l1 & E1 & F1).
  destruct (main_wandb tc b rn w s) as [[[]|e] s1]; simpl in E1; subst s1.
  - unfold py_print. rewrite bind_emit_run, logged_logged.
    destruct b.
    + rewrite bind_emit_run, logged_logged, bind_run.
      rewrite (main_dataset_unsupported _ _ _ _ _ Hd Ht H1 H2 H3).
      eexists _, _. split; [reflexivity|]. split; [|reflexivity].
      rewrite !Forall_app.
      repeat split; try (repeat constructor; eauto; fail).
      eapply Forall_impl; eauto; simpl; auto.
    + rewrite bind_ret_run.
      rewrite bind_run, (main_dataset_unsupported _ _ _ _ _ Hd Ht H1 H2 H3).
      eexists _, _. split; [reflexivity|]. split; [|reflexivity].
      rewrite !Forall_app.
      repeat split; try (repeat constructor; eauto; fail).
      eapply Forall_impl; eauto; simpl; auto.
  - exists l1, e. split; [reflexivity|]. split.
    + eapply Forall_impl; eauto; simpl; auto.
    + intros Hin. rewrite List.Forall_forall in F1. apply F1 in Hin. discriminate.
Qed.

(** C3: a dataset tag other than [scene], [img] and [cartoon] sends the
    selection to its final branch: [NotImplementedError], with the state
    untouched.  The run raises; it raises that error whenever it got as far
    as the print of line 106; and its log holds no event of a dataset,
    loader or model. *)
Theorem unsupported_tag_not_implemented
    (w : World) (files : gmap string fnode) (config tc d t : pyval) :
  loaded_config w files = Ok config →
  py_getitem config "train" = Ok tc →
  py_getitem tc "dataset" = Ok d →
  py_getitem d "type" = Ok t →
  py_eq_str t "scene" = false →
  py_eq_str t "img" = false →
  py_eq_str t "cartoon" = false →
  (∀ s, main_dataset tc w s = (Raise NotImplementedError, s))
  ∧ (∃ e, outcome_of (run w files) = Raise e)
  ∧ (In (Print [VStr "Rank:"; VInt (rank_of w)]) (log_of (run w files)) →
     outcome_of (run w files) = Raise NotImplementedError)
  ∧ Forall (λ e, is_construction e = false) (log_of (run w files)).
Proof.
  intros Hc Htc Hd Ht H1 H2 H3.
  split; [intros s; by apply (main_dataset_unsupported w s tc d t)|].
  rewrite run_eq, main_run. cbv zeta. simpl fs. rewrite Hc, Htc.
  destruct (lib_raises w (CudaSetDevice (rank_of w))) as [x|].
  { split; [eauto|]. split.
    - simpl. intros [H|[H|[H|[]]]]; discriminate.
    - repeat constructor. }
  destruct (main_stages_unsupported w
              (logged (initial files)
                 ([EnvGet "LOCAL_RANK"; EnvGet "LOCAL_RANK"; CudaSetDevice (rank_of w)]
                  ++ config_events w files ++ [Strftime "%Y%m%d-%H%M%S"]))
              (rank_of w =? 0)%Z (rank_of w) config tc (strftime_now w) d t
              Hd Ht H1 H2 H3) as (l & e & E & F & Hnot).
  rewrite E. unfold outcome_of, log_of. simpl.
  split; [eauto|]. split.
  - intros [H|[H|[H|Hin]]]; try discriminate.
    rewrite <- app_assoc in Hin. apply in_app_or in Hin as [Hin|Hin].
    + pose proof (config_events_stage w files) as Hs.
      rewrite List.Forall_forall in Hs. apply Hs in Hin. discriminate.
    + destruct Hin as [H|Hin]; [discriminate|]. by rewrite (Hnot Hin).
  - repeat constructor. rewrite <- app_assoc. apply Forall_app. split.
    + eapply Forall_impl; [apply config_events_stage|].
      intros ev Hev. unfold is_construction. by rewrite Hev.
    + constructor; [reflexivity|]. eapply Forall_impl; [exact F|].
      intros ev [Hw|[args ->]]; [|reflexivity].
      destruct ev; try discriminate; reflexivity.
Qed.

Lemma unsupported_tag_not_implemented_example :
  outcome_of (run (example_world None) (example_files "unsupported"))
  = Raise NotImplementedError.
Proof.
  apply (unsupported_tag_not_implemented (example_world None) (example_files "unsupported")
           (example_config "unsupported") (example_train "unsupported")
           (example_dataset_group "unsupported") (VStr "unsupported"));
    try reflexivity.
  vm_compute. tauto.
Defined.

(** ** The trainer and its callback *)

Lemma py_get_ok obj k dflt v :
  py_get obj k dflt = Ok v →
  ∃ kvs, obj = VDict kvs ∧ v = default dflt (dict_lookup k kvs).
Proof.
  destruct obj; try discriminate. simpl. intros H. exists kvs. split; [reflexivity|].
  destruct (dict_lookup k kvs); by inversion H.
Qed.

Lemma main_stages_trainer_limits w b r config tc rn :
  emits w (λ e, ∀ t, e = NewTrainer t → trainer_limits tc t) false
    (main_stages b r config tc rn).
Proof.
  unfold_program. repeat emits_step; intros t' [=]; subst t'.
  all: repeat match goal with
         | H : py_get _ _ _ = Ok _ |- _ =>
             apply py_get_ok in H; destruct H as (? & ? & ?); simplify_eq
         end; eexists; repeat split.
Qed.

(** An event property holds throughout a run if it holds of the events of
    the initialisation block and [main_stages] only emits such events; the
    file system is left alone if [main_stages] leaves it alone. *)
Lemma run_emits (P : Event → Prop) strict w files :
  P (EnvGet "LOCAL_RANK") →
  P (CudaSetDevice (rank_of w)) →
  Forall P (config_events w files) →
  P (Strftime "%Y%m%d-%H%M%S") →
  (∀ config tc,
     loaded_config w files = Ok config →
     py_getitem config "train" = Ok tc →
     emits w P strict
       (main_stages (rank_of w =? 0)%Z (rank_of w) config tc (strftime_now w))) →
  Forall P (log_of (run w files)) ∧ fs_rel strict files (fs_of (run w files)).
Proof.
  intros Hr Hd Hc Hs Hm. rewrite run_eq, main_run. cbv zeta. simpl fs.
  destruct (lib_raises w _);
    [split; [repeat constructor; auto|apply fs_rel_refl]|].
  destruct (loaded_config w files) as [config|e] eqn:Ec;
    [|split; [unfold log_of; simpl; repeat constructor; auto|apply fs_rel_refl]].
  destruct (py_getitem config "train") as [tc|e] eqn:Et;
    [|split; [unfold log_of; simpl; repeat constructor; auto|apply fs_rel_refl]].
  destruct (Hm config tc eq_refl Et
              (logged (initial files)
                 ([EnvGet "LOCAL_RANK"; EnvGet "LOCAL_RANK"; CudaSetDevice (rank_of w)]
                  ++ config_events w files ++ [Strftime "%Y%m%d-%H%M%S"])))
    as (l & E & F & R).
  split; [|exact R].
  unfold log_of. rewrite E. simpl.
  repeat constructor; auto.
  rewrite <- app_assoc. apply Forall_app. split; [exact Hc|].
  constructor; [exact Hs|exact F].
Qed.

Lemma run_Forall (P : Event → Prop) w files :
  P (EnvGet "LOCAL_RANK") →
  P (CudaSetDevice (rank_of w)) →
  Forall P (config_events w files) →
  P (Strftime "%Y%m%d-%H%M%S") →
  (∀ config tc,
     loaded_config w files = Ok config →
     py_getitem config "train" = Ok tc →
     emits w P false
       (main_stages (rank_of w =? 0)%Z (rank_of w) config tc (strftime_now w))) →
  Forall P (log_of (run w files)).
Proof. intros. by apply (run_emits P false). Qed.

Lemma config_events_cases w files e :
  In e (config_events w files) →
  e = EnvGet "XFL_CONFIG" ∨ (∃ p, e = OpenRead p) ∨ (∃ p, e = YamlSafeLoad p).
Proof.
  unfold config_events.
  destruct (environ w !! "XFL_CONFIG") as [p|].
  - destruct (files !! p) as [[|c]|]; simpl; intros H;
      repeat (destruct H as [<-|H]; [eauto|]); destruct H.
  - simpl. intros [<-|[]]. auto.
Qed.

Lemma Forall_config_events (P : Event → Prop) w files :
  P (EnvGet "XFL_CONFIG") → (∀ p, P (OpenRead p)) → (∀ p, P (YamlSafeLoad p)) →
  Forall P (config_events w files).
Proof.
  intros H1 H2 H3. apply List.Forall_forall. intros e He.
  apply config_events_cases in He as [->|[[p ->]|[p ->]]]; auto.
Qed.

(** C5: every trainer the launcher constructs has the gradient-clip value
    of the training config, or 0.5 when the key is absent, and the step and
    epoch caps of the training config, or -1 (Lightning's encoding of "no
    cap") when the key is absent. *)
Theorem trainer_defaults (w : World) (files : gmap string fnode) (t : Trainer) :
  In (NewTrainer t) (log_of (run w files)) →
  ∃ config kvs,
    loaded_config w files = Ok config
    ∧ py_getitem config "train" = Ok (VDict kvs)
    ∧ gradient_clip_val t = default (VFloat float_0_5) (dict_lookup "gradient_clip_val" kvs)
    ∧ max_steps t = default (VInt (-1)) (dict_lookup "max_steps" kvs)
    ∧ max_epochs t = default (VInt (-1)) (dict_lookup "max_epochs" kvs).
Proof.
  intros Hin.
  pose (P := λ e : Event, ∀ t, e = NewTrainer t →
               ∃ config tc, loaded_config w files = Ok config
                 ∧ py_getitem config "train" = Ok tc ∧ trainer_limits tc t).
  assert (HP : Forall P (log_of (run w files))).
  { apply run_Forall; try (intros ? [=]; fail).
    - apply Forall_config_events; intros; intros ? [=].
    - intros config tc Hc Ht.
      eapply emits_mono; [|apply main_stages_trainer_limits].
      intros e He t' ->. exists config, tc. eauto. }
  rewrite List.Forall_forall in HP.
  destruct (HP _ Hin t eq_refl) as (config & tc & Hc & Ht & kvs & -> & H1 & H2 & H3).
  exists config, kvs. auto.
Qed.

Lemma main_stages_primary w r config tc rn :
  emits w
    (λ e, (∀ cb, e = NewTrainingCallback cb →
             cb = {| cb_run_name := rn; cb_training_config := tc |})
          ∧ (∀ t, e = NewTrainer t →
               callbacks t = [{| cb_run_name := rn; cb_training_config := tc |}]))
    false (main_stages true r config tc rn).
Proof.
  unfold_program. cbv beta iota.
  repeat emits_step; (split; intros ? [=]; subst; reflexivity).
Qed.

Lemma main_stages_secondary w r config tc rn :
  emits w
    (λ e, is_callback e = false ∧ is_wandb e = false
          ∧ (∀ t, e = NewTrainer t → callbacks t = []))
    false (main_stages false r config tc rn).
Proof.
  unfold_program. cbv beta iota.
  repeat emits_step; (split; [reflexivity|split; [reflexivity|]]; intros ? [=]; subst; reflexivity).
Qed.

(** ** Rules for [rank_blind] *)

Section RankBlind.
Context (v : option string) (w : World).

Lemma agree_logged s s' e e' :
  agree s s' → blank_rank e = blank_rank e' → agree (logged s [e]) (logged s' [e']).
Proof.
  intros [Hf Hl] He. split; [exact Hf|].
  simpl. rewrite !map_app, Hl. simpl. by rewrite He.
Qed.

Lemma rb_ret {A} (a : A) : rank_blind v w (mret a).
Proof. intros s s' H. split; [reflexivity|exact H]. Qed.

Lemma rb_raise {A} e : rank_blind v w (raise e : M A).
Proof. intros s s' H. split; [reflexivity|exact H]. Qed.

Lemma rb_lift {A} (o : outcome A) : rank_blind v w (lift o).
Proof. intros s s' H. split; [reflexivity|exact H]. Qed.

Lemma rb_emit e : rank_blind v w (emit e).
Proof. intros s s' H. split; [reflexivity|]. by apply agree_logged. Qed.

Lemma rb_get_fs : rank_blind v w get_fs.
Proof. intros s s' H. split; [|exact H]. simpl. f_equal. apply H. Qed.

Lemma rb_put_fs files : rank_blind v w (put_fs files).
Proof. intros s s' [Hf Hl]. split; [reflexivity|]. split; [reflexivity|exact Hl]. Qed.

Lemma rb_bind {A B} (m : M A) (k : A → M B) :
  rank_blind v w m → (∀ a, rank_blind v w (k a)) → rank_blind v w (m ≫= k).
Proof.
  intros Hm Hk s s' H. rewrite !bind_run.
  destruct (Hm s s' H) as [Eo Ha].
  destruct (m w s) as [[a|e] s1], (m (with_local_rank v w) s') as [[a'|e'] s1'];
    simpl in Eo; try discriminate.
  - inversion Eo; subst a'. apply Hk, Ha.
  - inversion Eo; subst e'. split; [reflexivity|exact Ha].
Qed.

Lemma rb_bind_assoc {A B C} (m : M A) (f : A → M B) (k : B → M C) :
  rank_blind v w (m ≫= λ x, f x ≫= k) → rank_blind v w ((m ≫= f) ≫= k).
Proof. intros H s s' Hs. rewrite !bind_assoc. by apply H. Qed.

Lemma rb_lib_call e : rank_blind v w (lib_call e).
Proof.
  intros s s' H. rewrite !lib_call_run. simpl.
  split; [reflexivity|]. by apply agree_logged.
Qed.

Lemma rb_environ_get name :
  name ≠ "LOCAL_RANK" → rank_blind v w (os_environ_get name).
Proof.
  intros Hne s s' H. unfold os_environ_get. run_unfold. simpl. split.
  - f_equal. destruct v; [by rewrite lookup_insert_ne|by rewrite lookup_delete_ne].
  - by apply agree_logged.
Qed.

Lemma rb_strftime f : rank_blind v w (time_strftime f).
Proof.
  intros s s' H. unfold time_strftime. run_unfold. simpl.
  split; [reflexivity|]. by apply agree_logged.
Qed.

Lemma rb_fmt x : rank_blind v w (fmt x).
Proof. intros s s' H. split; [reflexivity|exact H]. Qed.

Lemma rb_yaml_safe_load path c : rank_blind v w (yaml_safe_load path c).
Proof.
  intros s s' H. unfold yaml_safe_load. run_unfold. simpl.
  split; [reflexivity|]. by apply agree_logged.
Qed.

Lemma rb_pd_read_csv path : rank_blind v w (pd_read_csv path).
Proof.
  intros [f lg] [f' lg'] [Hf Hl]. simpl in Hf, Hl. subst f'.
  assert (Ha : agree (logged (Build_St f lg) [ReadCsv path])
                     (logged (Build_St f lg') [ReadCsv path]))
    by (apply agree_logged; [by split|reflexivity]).
  unfold pd_read_csv. run_unfold. simpl.
  destruct (f !! path) as [[|c]|]; split; try reflexivity; exact Ha.
Qed.

Lemma rb_load_dataset path kw : rank_blind v w (load_dataset path kw).
Proof.
  intros s s' H. unfold load_dataset. rewrite !bind_run, !lib_call_run. simpl.
  assert (Ha : agree (logged s [LoadDataset path kw]) (logged s' [LoadDataset path kw]))
    by (by apply agree_logged).
  destruct (lib_raises w (LoadDataset path kw)); split; try reflexivity; exact Ha.
Qed.

Lemma rb_yaml_dump_to x path : rank_blind v w (yaml_dump_to x path).
Proof.
  intros s s' H. unfold yaml_dump_to. rewrite !bind_run, !lib_call_run. simpl.
  assert (Ha : agree (logged s [YamlDump x path]) (logged s' [YamlDump x path]))
    by (by apply agree_logged).
  destruct (lib_raises w (YamlDump x path)); [split; [reflexivity|exact Ha]|].
  run_unfold. simpl. split; [reflexivity|].
  destruct Ha as [Hf Hl]. simpl in *. split; simpl; [by rewrite Hf|exact Hl].
Qed.
End RankBlind.

Ltac rb_step :=
  lazymatch goal with
  | |- rank_blind _ _ ((_ ≫= _) ≫= _) => apply rb_bind_assoc
  | |- rank_blind _ _ (_ ≫= _) => apply rb_bind; [| intros ?]
  | |- rank_blind _ _ (mret _) => apply rb_ret
  | |- rank_blind _ _ (raise _) => apply rb_raise
  | |- rank_blind _ _ (lift _) => apply rb_lift
  | |- rank_blind _ _ get_fs => apply rb_get_fs
  | |- rank_blind _ _ (put_fs _) => apply rb_put_fs
  | |- rank_blind _ _ (emit _) => apply rb_emit
  | |- rank_blind _ _ (lib_call _) => apply rb_lib_call
  | |- rank_blind _ _ (os_environ_get _) => apply rb_environ_get; discriminate
  | |- rank_blind _ _ (time_strftime _) => apply rb_strftime
  | |- rank_blind _ _ (fmt _) => apply rb_fmt
  | |- rank_blind _ _ (yaml_safe_load _ _) => apply rb_yaml_safe_load
  | |- rank_blind _ _ (pd_read_csv _) => apply rb_pd_read_csv
  | |- rank_blind _ _ (load_dataset _ _) => apply rb_load_dataset
  | |- rank_blind _ _ (yaml_dump_to _ _) => apply rb_yaml_dump_to
  | |- rank_blind _ _ (match ?x with _ => _ end) => destruct x
  | |- rank_blind _ _ (let _ := _ in _) => cbv zeta
  end.

Ltac unfold_stages :=
  unfold main_wandb, init_wandb, main_dataset, scene_branch, img_branch, cartoon_branch,
    LocalSubjectsDataset_init, dataset_param, main_loader, main_model, getattr_torch,
    main_callbacks, main_trainer, main_save_config, trainer_fit, py_print,
    os_makedirs, open_write, open_read.

(** [get_config] does not look at [LOCAL_RANK]. *)
Lemma get_config_rank_blind v w : rank_blind v w get_config.
Proof. unfold get_config. unfold_stages. repeat rb_step. Qed.

(** Apart from the print of line 106, [main_stages] does not look at the
    rank. *)
Lemma main_stages_rank_blind v w b r r' config tc rn s s' :
  agree s s' →
  (main_stages b r config tc rn w s).1
  = (main_stages b r' config tc rn (with_local_rank v w) s').1
  ∧ agree (main_stages b r config tc rn w s).2
          (main_stages b r' config tc rn (with_local_rank v w) s').2.
Proof.
  intros H. unfold main_stages. rewrite !bind_run.
  assert (Hw : rank_blind v w (main_wandb tc b rn))
    by (unfold_stages; repeat rb_step).
  destruct (Hw s s' H) as [Eo Ha].
  destruct (main_wandb tc b rn w s) as [[a|e] s1],
           (main_wandb tc b rn (with_local_rank v w) s') as [[a'|e'] s1'];
    simpl in Eo; try discriminate;
    [|inversion Eo; subst e'; split; [reflexivity|exact Ha]].
  unfold py_print at 1 4. rewrite !bind_emit_run.
  match goal with
  | |- (?m w _).1 = _ ∧ _ =>
      assert (Hr : rank_blind v w m) by (unfold_stages; repeat rb_step)
  end.
  apply Hr, agree_logged; [exact Ha|reflexivity].
Qed.

Lemma environ_with_local_rank v w name :
  name ≠ "LOCAL_RANK" → environ (with_local_rank v w) !! name = environ w !! name.
Proof.
  intros H. destruct v; simpl; [by rewrite lookup_insert_ne|by rewrite lookup_delete_ne].
Qed.

Lemma loaded_config_with_local_rank v w files :
  loaded_config (with_local_rank v w) files = loaded_config w files.
Proof. unfold loaded_config. by rewrite environ_with_local_rank. Qed.

Lemma config_events_with_local_rank v w files :
  config_events (with_local_rank v w) files = config_events w files.
Proof. unfold config_events. by rewrite environ_with_local_rank. Qed.

(** C6: on the primary process every callback constructed carries the run
    name and the training config and is the trainer's only callback; on any
    other process no callback is constructed, [wandb] is neither imported
    nor initialised, and the trainer's callback list is empty.  The rank
    matters only through the test [rank == 0]: changing [LOCAL_RANK] without
    changing that test (and without changing what the device call does)
    changes neither the outcome nor the file system, and changes the log
    only in the rank that lines 96 and 106 pass on. *)
Theorem callback_only_on_primary (w : World) (files : gmap string fnode) :
  (rank_of w = 0%Z →
   ∀ config tc,
     loaded_config w files = Ok config →
     py_getitem config "train" = Ok tc →
     Forall
       (λ e, (∀ cb, e = NewTrainingCallback cb →
                cb = {| cb_run_name := strftime_now w; cb_training_config := tc |})
             ∧ (∀ t, e = NewTrainer t →
                  callbacks t
                  = [{| cb_run_name := strftime_now w; cb_training_config := tc |}]))
       (log_of (run w files)))
  ∧ (rank_of w ≠ 0%Z →
     Forall
       (λ e, is_callback e = false ∧ is_wandb e = false
             ∧ (∀ t, e = NewTrainer t → callbacks t = []))
       (log_of (run w files)))
  ∧ (∀ v,
       (rank_of (with_local_rank v w) =? 0)%Z = (rank_of w =? 0)%Z →
       lib_raises w (CudaSetDevice (rank_of (with_local_rank v w)))
       = lib_raises w (CudaSetDevice (rank_of w)) →
       outcome_of (run w files) = outcome_of (run (with_local_rank v w) files)
       ∧ fs_of (run w files) = fs_of (run (with_local_rank v w) files)
       ∧ map blank_rank (log_of (run w files))
         = map blank_rank (log_of (run (with_local_rank v w) files))).
Proof.
  split; [|split].
  - intros Hr config tc Hc Ht.
    apply run_Forall; try (split; intros ? [=]; fail).
    + apply Forall_config_events; intros; split; intros ? [=].
    + intros config' tc' Hc' Ht'. rewrite Hr. simpl.
      assert (config' = config) as -> by congruence.
      assert (tc' = tc) as -> by congruence.
      apply main_stages_primary.
  - intros Hr.
    apply run_Forall; try (repeat split; intros ? [=]; fail).
    + apply Forall_config_events; intros; repeat split; intros ? [=].
    + intros config tc Hc Ht.
      destruct (rank_of w =? 0)%Z eqn:E; [apply Z.eqb_eq in E; contradiction|].
      apply main_stages_secondary.
  - intros v Hb Hd. rewrite !run_eq, !main_run. cbv zeta.
    change (lib_raises (with_local_rank v w)) with (lib_raises w).
    change (strftime_now (with_local_rank v w)) with (strftime_now w).
    simpl fs. rewrite loaded_config_with_local_rank, config_events_with_local_rank.
    rewrite Hb, Hd.
    destruct (lib_raises w (CudaSetDevice (rank_of w))) as [x|];
      [repeat split; reflexivity|].
    destruct (loaded_config w files) as [config|e];
      [|repeat split; reflexivity].
    destruct (py_getitem config "train") as [tc|e];
      [|repeat split; reflexivity].
    match goal with
    | |- outcome_of (main_stages ?b ?r _ _ _ _ ?s) = outcome_of (main_stages _ ?r' _ _ _ _ ?s') ∧ _ =>
        destruct (main_stages_rank_blind v w b r r' config tc (strftime_now w) s s')
          as (Ho & Hf & Hl); [split; reflexivity|]
    end.
    repeat split; assumption.
Qed.

(** ** Rules for [within] *)

Lemma Sorted_le_cons_bound (p : nat) (l : list nat) :
  Sorted le l → Forall (λ n, p ≤ n)%nat l → Sorted le (p :: l).
Proof.
  intros Hs Hb. constructor; [exact Hs|].
  destruct l as [|a l']; constructor. by inversion Hb.
Qed.

Lemma positions_app pos l1 l2 :
  positions pos (l1 ++ l2) = positions pos l1 ++ positions pos l2.
Proof. unfold positions. apply omap_app. Qed.

Section WithinRules.
Context (lo hi : nat).

Lemma within_quiet {A} (m : M A) :
  (∀ w s, log (m w s).2 = log s) → within lo hi m.
Proof.
  intros H w s. exists []. rewrite H, app_nil_r.
  split; [reflexivity|]. split; constructor.
Qed.

Lemma within_ret {A} (a : A) : within lo hi (mret a).
Proof. by apply within_quiet. Qed.

Lemma within_raise {A} e : within lo hi (raise e : M A).
Proof. by apply within_quiet. Qed.

Lemma within_lift {A} (o : outcome A) : within lo hi (lift o).
Proof. by apply within_quiet. Qed.

Lemma within_bind_assoc {A B C} (m : M A) (f : A → M B) (k : B → M C) :
  within lo hi (m ≫= λ x, f x ≫= k) → within lo hi ((m ≫= f) ≫= k).
Proof. intros H w s. rewrite bind_assoc. apply H. Qed.

Lemma within_bind_ret {A B} (a : A) (k : A → M B) :
  within lo hi (k a) → within lo hi (mret a ≫= k).
Proof. intros H w s. apply H. Qed.

Lemma within_bind_raise {A B} e (k : A → M B) : within lo hi (raise e ≫= k).
Proof. by apply within_quiet. Qed.

Lemma within_bind_lift {A B} (o : outcome A) (k : A → M B) :
  (∀ a, within lo hi (k a)) → within lo hi (lift o ≫= k).
Proof.
  intros H w s. destruct o as [a|e]; [apply H|].
  apply (within_raise (A:=B) e w s).
Qed.

Lemma within_bind_ask {A} (k : World → M A) :
  (∀ w, within lo hi (k w)) → within lo hi (ask ≫= k).
Proof. intros H w s. apply H. Qed.

Lemma within_bind_get_fs {A} (k : gmap string fnode → M A) :
  (∀ f, within lo hi (k f)) → within lo hi (get_fs ≫= k).
Proof. intros H w s. apply H. Qed.

Lemma within_bind_put_fs {A} files (k : unit → M A) :
  within lo hi (k tt) → within lo hi (put_fs files ≫= k).
Proof. intros H w s. apply (H w (Build_St files (log s))). Qed.

Lemma within_put_fs files : within lo hi (put_fs files).
Proof. by apply within_quiet. Qed.

Lemma within_bind_emit {A} e (k : unit → M A) :
  match stage_of e with
  | Some st =>
      (lo ≤ code_position st ≤ hi)%nat ∧ within (code_position st) hi (k tt)
  | None => within lo hi (k tt)
  end →
  within lo hi (emit e ≫= k).
Proof.
  intros H w s. rewrite bind_emit_run.
  destruct (stage_of e) as [st|] eqn:Est.
  - destruct H as [Hb Hk]. destruct (Hk w (logged s [e])) as (l & E & Hs & Hf).
    exists (e :: l). rewrite E. simpl. rewrite <- app_assoc.
    split; [reflexivity|].
    unfold positions in *. simpl. rewrite Est. simpl.
    split.
    + apply Sorted_le_cons_bound; [exact Hs|].
      eapply Forall_impl; [exact Hf|]. simpl. lia.
    + constructor; [exact Hb|].
      eapply Forall_impl; [exact Hf|]. simpl. lia.
  - destruct (H w (logged s [e])) as (l & E & Hs & Hf).
    exists (e :: l). rewrite E. simpl. rewrite <- app_assoc.
    split; [reflexivity|].
    unfold positions in *. simpl. rewrite Est. simpl. auto.
Qed.
End WithinRules.

Ltac within_step :=
  lazymatch goal with
  | |- within _ _ ((_ ≫= _) ≫= _) => apply within_bind_assoc
  | |- within _ _ (mret _ ≫= _) => apply within_bind_ret
  | |- within _ _ (raise _ ≫= _) => apply within_bind_raise
  | |- within _ _ (lift _ ≫= _) => apply within_bind_lift; intros ?
  | |- within _ _ (ask ≫= _) => apply within_bind_ask; intros ?
  | |- within _ _ (get_fs ≫= _) => apply within_bind_get_fs; intros ?
  | |- within _ _ (put_fs _ ≫= _) => apply within_bind_put_fs
  | |- within _ _ (emit _ ≫= _) =>
      apply within_bind_emit; simpl; first [split; [lia|] | idtac]
  | |- within _ _ ((match ?x with _ => _ end) ≫= _) => destruct x
  | |- within _ _ (mret _) => apply within_ret
  | |- within _ _ (raise _) => apply within_raise
  | |- within _ _ (lift _) => apply within_lift
  | |- within _ _ (put_fs _) => apply within_put_fs
  | |- within _ _ (match ?x with _ => _ end) => destruct x
  | |- within _ _ (let _ := _ in _) => cbv zeta
  end.

Lemma within_weaken {A} lo hi lo' hi' (m : M A) :
  (lo' ≤ lo)%nat → (hi ≤ hi')%nat → within lo hi m → within lo' hi' m.
Proof.
  intros H1 H2 H w s. destruct (H w s) as (l & E & Hs & Hf).
  exists l. split; [exact E|]. split; [exact Hs|].
  eapply Forall_impl; [exact Hf|]. simpl. lia.
Qed.

Lemma Sorted_le_app (l1 l2 : list nat) (mid : nat) :
  Sorted le l1 → Sorted le l2 →
  Forall (λ n, n ≤ mid)%nat l1 → Forall (λ n, mid ≤ n)%nat l2 →
  Sorted le (l1 ++ l2).
Proof.
  intros H1 H2 B1 B2. induction l1 as [|a l1 IH]; [exact H2|].
  simpl. inversion H1 as [|? ? Hs Hh]; subst. inversion B1; subst.
  constructor; [by apply IH|].
  destruct l1 as [|b l1']; simpl.
  - destruct l2 as [|c l2']; constructor. inversion B2; subst. lia.
  - constructor. by inversion Hh.
Qed.

(** Sequencing: the first part stays at or below [mid], the rest at or
    above. *)
Lemma within_bind_seq {A B} lo hi mid (m : M A) (k : A → M B) :
  (lo ≤ mid ≤ hi)%nat →
  within lo mid m → (∀ a, within mid hi (k a)) → within lo hi (m ≫= k).
Proof.
  intros Hb Hm Hk w s. rewrite bind_run.
  destruct (Hm w s) as (l1 & E1 & S1 & F1).
  destruct (m w s) as [[a|e] s1]; simpl in *.
  - destruct (Hk a w s1) as (l2 & E2 & S2 & F2).
    exists (l1 ++ l2). rewrite E2, E1, app_assoc. split; [reflexivity|].
    rewrite positions_app. split.
    + apply (Sorted_le_app _ _ mid); auto.
      * eapply Forall_impl; [exact F1|]. simpl. lia.
      * eapply Forall_impl; [exact F2|]. simpl. lia.
    + apply Forall_app. split.
      * eapply Forall_impl; [exact F1|]. simpl. lia.
      * eapply Forall_impl; [exact F2|]. simpl. lia.
  - exists l1. split; [exact E1|]. split; [exact S1|].
    eapply Forall_impl; [exact F1|]. simpl. lia.
Qed.

Lemma py_print_within n args : within n n (py_print args).
Proof. intros w s. exists [Print args]. repeat split; constructor. Qed.

Lemma main_wandb_within tc b rn : within 2 2 (main_wandb tc b rn).
Proof. unfold_program. repeat within_step. Qed.

Lemma main_dataset_within tc : within 3 3 (main_dataset tc).
Proof. unfold_program. repeat within_step. Qed.

Lemma main_loader_within tc ds : within 4 4 (main_loader tc ds).
Proof. unfold_program. repeat within_step. Qed.

Lemma main_model_within config tc : within 5 5 (main_model config tc).
Proof. unfold_program. repeat within_step. Qed.

Lemma main_callbacks_within tc b rn : within 6 6 (main_callbacks tc b rn).
Proof. unfold_program. repeat within_step. Qed.

Lemma main_trainer_within tc cbs : within 6 6 (main_trainer tc cbs).
Proof. unfold_program. repeat within_step. Qed.

Lemma main_save_config_within config tc b rn : within 7 7 (main_save_config config tc b rn).
Proof. unfold_program. repeat within_step. Qed.

Lemma trainer_fit_within t m dl : within 8 8 (trainer_fit t m dl).
Proof. unfold_program. repeat within_step. Qed.

Ltac within_seq mid lem :=
  apply (within_bind_seq _ _ mid);
  [lia | eapply within_weaken; [| |apply lem]; lia | intros ?].

Lemma main_stages_within b r config tc rn :
  within 1 8 (main_stages b r config tc rn).
Proof.
  unfold main_stages.
  within_seq 2%nat main_wandb_within.
  within_seq 2%nat (py_print_within 2).
  apply (within_bind_seq _ _ 2%nat); [lia| |intros ?].
  { destruct b; [apply py_print_within|apply within_ret]. }
  within_seq 3%nat main_dataset_within.
  within_seq 3%nat (py_print_within 3).
  within_seq 4%nat main_loader_within.
  within_seq 4%nat (py_print_within 4).
  within_seq 5%nat main_model_within.
  within_seq 6%nat main_callbacks_within.
  within_seq 6%nat main_trainer_within.
  cbv zeta.
  within_seq 7%nat main_save_config_within.
  eapply within_weaken; [| |apply trainer_fit_within]; lia.
Qed.

Lemma get_rank_within : within 0 0 get_rank.
Proof.
  intros w s. rewrite get_rank_run. exists [EnvGet "LOCAL_RANK"].
  split; [reflexivity|]. split; repeat constructor.
Qed.

Lemma get_config_within : within 1 1 get_config.
Proof. unfold_program. repeat within_step. Qed.

Lemma main_within : within 0 8 main.
Proof.
  unfold main.
  within_seq 0%nat get_rank_within.
  within_seq 0%nat get_rank_within.
  cbv zeta.
  apply (within_bind_seq _ _ 0%nat); [lia| |intros ?].
  { unfold_program. repeat within_step. }
  within_seq 1%nat get_config_within.
  apply within_bind_lift; intros tc.
  apply (within_bind_seq _ _ 1%nat); [lia| |intros ?].
  { unfold_program. repeat within_step. }
  eapply within_weaken; [| |apply main_stages_within]; lia.
Qed.

Lemma sortedb_Sorted l : Sorted le l ↔ sortedb l = true.
Proof.
  induction l as [|a [|b l'] IH]; simpl.
  - split; [reflexivity|constructor].
  - split; [reflexivity|]. intros _. repeat constructor.
  - rewrite andb_true_iff, Nat.leb_le, <- IH. split.
    + intros H. inversion H as [|? ? Hs Hh]; subst. inversion Hh; subst. auto.
    + intros [Hab Hs]. constructor; [exact Hs|by constructor].
Qed.

(** ** At most one call of [fit], and last *)

Lemma fit_last_bind {A B} w (m : M A) (k : A → M B) :
  emits w (λ e, is_fit e = false) false m →
  (∀ a, fit_last w (k a)) → fit_last w (m ≫= k).
Proof.
  intros Hm Hk s. rewrite bind_run.
  destruct (Hm s) as (l1 & E1 & F1 & _).
  destruct (m w s) as [[a|e] s1]; simpl in *.
  - destruct (Hk a s1) as (pre & Fp & [[Hno E2]|(t & md & dl & E2)]).
    + exists (l1 ++ pre). split; [by apply Forall_app|].
      left. split; [exact Hno|]. by rewrite E2, E1, app_assoc.
    + exists (l1 ++ pre). split; [by apply Forall_app|].
      right. exists t, md, dl. by rewrite E2, E1, !app_assoc.
  - exists l1. split; [exact F1|]. left. auto.
Qed.

Ltac no_fit := unfold_program; repeat emits_step; reflexivity.

Lemma main_stages_fit_last w b r config tc rn :
  fit_last w (main_stages b r config tc rn).
Proof.
  unfold main_stages.
  repeat (apply fit_last_bind; [no_fit|intros ?]).
  intros s. exists []. split; [constructor|]. right.
  unfold trainer_fit. rewrite lib_call_run. simpl. eauto.
Qed.

(** The log of a run, split at the start of [main_stages]. *)
Lemma run_fit_last w files :
  ∃ pre,
    Forall (λ e, is_fit e = false) pre
    ∧ ((is_ok (outcome_of (run w files)) = false ∧ log_of (run w files) = pre)
       ∨ (∃ t md dl, log_of (run w files) = pre ++ [TrainerFit t md dl])).
Proof.
  rewrite run_eq, main_run. cbv zeta. simpl fs.
  assert (Hc : Forall (λ e, is_fit e = false) (config_events w files))
    by (apply Forall_config_events; reflexivity).
  destruct (lib_raises w _).
  { eexists. split; [|left; split; reflexivity]. repeat constructor. }
  destruct (loaded_config w files) as [config|e].
  2:{ eexists. split; [|left; split; reflexivity]. simpl. repeat constructor. exact Hc. }
  destruct (py_getitem config "train") as [tc|e].
  2:{ eexists. split; [|left; split; reflexivity]. simpl. repeat constructor. exact Hc. }
  set (p := [EnvGet "LOCAL_RANK"; EnvGet "LOCAL_RANK"; CudaSetDevice (rank_of w)]
            ++ config_events w files ++ [Strftime "%Y%m%d-%H%M%S"]).
  assert (Hp : Forall (λ e, is_fit e = false) p).
  { subst p. simpl. repeat constructor. apply Forall_app. split; [exact Hc|].
    by constructor. }
  destruct (main_stages_fit_last w (rank_of w =? 0)%Z (rank_of w) config tc
              (strftime_now w) (logged (initial files) p))
    as (pre & Fp & [[Hno E]|(t & md & dl & E)]);
    exists (p ++ pre); (split; [by apply Forall_app|]).
  - left. split; [exact Hno|]. unfold log_of. rewrite E. reflexivity.
  - right. exists t, md, dl. unfold log_of. rewrite E. simpl. by rewrite app_assoc.
Qed.

(** ** Stages a returning run has gone through *)

Section HasRules.
Context (w : World).

Lemma has_quiet {A} P strict (m : M A) : emits w P strict m → on_ok_has w [] m.
Proof.
  intros H s. destruct (H s) as (l & E & _). exists l. split; [exact E|]. constructor.
Qed.

Lemma has_bind {A B} a b (m : M A) (k : A → M B) :
  on_ok_has w a m → (∀ x, on_ok_has w b (k x)) → on_ok_has w (a ++ b) (m ≫= k).
Proof.
  intros Hm Hk s. rewrite bind_run.
  destruct (Hm s) as (l1 & E1 & H1).
  destruct (m w s) as [[x|e] s1]; simpl in *.
  - destruct (Hk x s1) as (l2 & E2 & H2).
    exists (l1 ++ l2). rewrite E2, E1, app_assoc. split; [reflexivity|].
    intros Hok. apply Forall_app. split.
    + eapply Forall_impl; [exact (H1 eq_refl)|].
      intros st (e & He & Hs). exists e. split; [apply in_or_app; auto|exact Hs].
    + eapply Forall_impl; [exact (H2 Hok)|].
      intros st (e & He & Hs). exists e. split; [apply in_or_app; auto|exact Hs].
  - exists l1. split; [exact E1|]. discriminate.
Qed.

Lemma has_skip {A B} P strict sts (m : M A) (k : A → M B) :
  emits w P strict m → (∀ x, on_ok_has w sts (k x)) → on_ok_has w sts (m ≫= k).
Proof. intros Hm Hk. apply (has_bind [] sts); [by eapply has_quiet|exact Hk]. Qed.

Lemma has_bind_assoc {A B C} sts (m : M A) (f : A → M B) (k : B → M C) :
  on_ok_has w sts (m ≫= λ x, f x ≫= k) → on_ok_has w sts ((m ≫= f) ≫= k).
Proof. intros H s. rewrite bind_assoc. apply H. Qed.

Lemma has_raise {A} sts e : on_ok_has w sts (raise e : M A).
Proof. intros s. exists []. rewrite app_nil_r. split; [reflexivity|discriminate]. Qed.

Lemma has_bind_raise {A B} sts e (k : A → M B) : on_ok_has w sts (raise e ≫= k).
Proof. intros s. exists []. rewrite app_nil_r. split; [reflexivity|discriminate]. Qed.

Lemma has_emit_bind {A} e st (k : unit → M A) :
  stage_of e = Some st →
  emits w (λ _, True) false (k tt) →
  on_ok_has w [st] (emit e ≫= k).
Proof.
  intros Hst Hk s. rewrite bind_emit_run.
  destruct (Hk (logged s [e])) as (l & E & _).
  exists (e :: l). rewrite E. simpl. rewrite <- app_assoc. split; [reflexivity|].
  intros _. repeat constructor. exists e. split; [by left|exact Hst].
Qed.
End HasRules.

Ltac any_events := solve [unfold_program; repeat emits_step; exact I].

(** Find the first event of the stage on each path that can return. *)
Ltac has_step :=
  lazymatch goal with
  | |- on_ok_has _ _ ((_ ≫= _) ≫= _) => apply has_bind_assoc
  | |- on_ok_has _ _ (raise _ ≫= _) => apply has_bind_raise
  | |- on_ok_has _ _ (raise _) => apply has_raise
  | |- on_ok_has _ _ (emit _ ≫= _) =>
      first [apply has_emit_bind; [reflexivity|any_events]
            |eapply (has_skip _ (λ _, True) false); [any_events|intros ?]]
  | |- on_ok_has _ _ ((match ?x with _ => _ end) ≫= _) => destruct x
  | |- on_ok_has _ _ (match ?x with _ => _ end) => destruct x
  | |- on_ok_has _ _ (let _ := _ in _) => cbv zeta
  | |- on_ok_has _ _ (_ ≫= _) =>
      eapply (has_skip _ (λ _, True) false); [any_events|intros ?]
  end.

Ltac has_stage := unfold_program; cbv beta iota; repeat has_step.

Lemma main_dataset_has w tc : on_ok_has w [SDataset] (main_dataset tc).
Proof. has_stage. Qed.

Lemma main_loader_has w tc ds : on_ok_has w [SLoader] (main_loader tc ds).
Proof. has_stage. Qed.

Lemma main_model_has w config tc : on_ok_has w [SModel] (main_model config tc).
Proof. has_stage. Qed.

Lemma main_trainer_has w tc cbs : on_ok_has w [SDriver] (main_trainer tc cbs).
Proof. has_stage. Qed.

Lemma main_save_config_has w config tc rn :
  on_ok_has w [SPersist] (main_save_config config tc true rn).
Proof. has_stage. Qed.

Lemma trainer_fit_has w t md dl : on_ok_has w [SFit] (trainer_fit t md dl).
Proof.
  intros s. unfold trainer_fit. rewrite lib_call_run. eexists. split; [reflexivity|].
  intros _. repeat constructor. eexists. split; [by left|reflexivity].
Qed.

Ltac has_skip_phase := eapply (has_skip _ (λ _, True) false); [any_events|intros ?].

Lemma main_stages_has w b r config tc rn :
  on_ok_has w (stages_from_dataset b) (main_stages b r config tc rn).
Proof.
  unfold main_stages, stages_from_dataset.
  has_skip_phase. has_skip_phase. has_skip_phase.
  apply (has_bind w [SDataset]); [apply main_dataset_has|intros ds].
  has_skip_phase.
  apply (has_bind w [SLoader]); [apply main_loader_has|intros dl].
  has_skip_phase.
  apply (has_bind w [SModel]); [apply main_model_has|intros md].
  has_skip_phase.
  apply (has_bind w [SDriver]); [apply main_trainer_has|intros t].
  cbv zeta. destruct b.
  - apply (has_bind w [SPersist] [SFit]); [apply main_save_config_has|intros _].
    apply trainer_fit_has.
  - has_skip_phase. apply trainer_fit_has.
Qed.

Lemma main_has w :
  on_ok_has w (SRank :: SConfig :: stages_from_dataset (rank_of w =? 0)%Z) main.
Proof.
  intros s. rewrite main_run. cbv zeta.
  destruct (lib_raises w _).
  { eexists. split; [reflexivity|discriminate]. }
  destruct (loaded_config w (fs s)) as [config|e] eqn:Ec.
  2:{ eexists. split; [reflexivity|discriminate]. }
  destruct (py_getitem config "train") as [tc|e].
  2:{ eexists. split; [reflexivity|discriminate]. }
  match goal with
  | |- context [main_stages ?b ?r _ _ ?rn w ?s1] =>
      destruct (main_stages_has w b r config tc rn s1) as (l & E & H)
  end.
  eexists. rewrite E. simpl. split; [rewrite <- app_assoc; reflexivity|].
  intros Hok. constructor; [|constructor].
  - eexists. split; [by left|reflexivity].
  - exists (EnvGet "XFL_CONFIG"). split; [|reflexivity].
    do 3 right. apply in_or_app. left. apply in_or_app. left.
    unfold config_events. destruct (environ w !! "XFL_CONFIG") as [p|]; [|by left].
    destruct (fs s !! p) as [[|c]|]; by left.
  - eapply Forall_impl; [exact (H Hok)|].
    intros st (e & He & Hs). exists e. split; [|exact Hs].
    do 3 right. apply in_or_app. right. exact He.
Qed.

(** C8 as the spec words it (config before rank) fails: in the scene run of
    the example world the rank is read, and the device set, before the
    config is looked for. *)
Lemma spec_order_violated :
  ¬ in_order spec_position
      (log_of (run (example_world (Some "0")) (example_files "scene"))).
Proof.
  unfold in_order. rewrite sortedb_Sorted. vm_compute. discriminate.
Qed.

(** C8, amended to the order of the source: in every run the stages occur
    in the order rank, config, metrics, dataset, loader, model wrapper,
    driver, config copy, fit, no stage before one earlier in this list;
    [fit] is called at most once, as the last event of the run, and exactly
    once in a run that returns; and a run that returns has gone through
    rank, config, dataset, loader, model wrapper, driver and fit, and on the
    primary process through the config copy. *)
Theorem stages_in_source_order (w : World) (files : gmap string fnode) :
  in_order code_position (log_of (run w files))
  ∧ (∃ pre,
       Forall (λ e, is_fit e = false) pre
       ∧ ((is_ok (outcome_of (run w files)) = false ∧ log_of (run w files) = pre)
          ∨ (∃ t md dl, log_of (run w files) = pre ++ [TrainerFit t md dl])))
  ∧ (is_ok (outcome_of (run w files)) = true →
     Forall (λ st, ∃ e, In e (log_of (run w files)) ∧ stage_of e = Some st)
       (SRank :: SConfig :: stages_from_dataset (rank_of w =? 0)%Z)).
Proof.
  split; [|split; [apply run_fit_last|]].
  - destruct (main_within w (initial files)) as (l & E & Hs & _).
    unfold in_order, log_of, run. rewrite E. exact Hs.
  - destruct (main_has w (initial files)) as (l & E & H).
    unfold log_of, outcome_of, run. rewrite E. exact H.
Qed.

(** ** Rules for [after] *)

Lemma after_bind_quiet {A B} w P files (m : M A) (k : A → M B) Q :
  emits w P true m →
  (∀ e s, fs s = files → Forall P (log s) → Q (Raise e) s) →
  (∀ a, after w P files (k a) Q) →
  after w P files (m ≫= k) Q.
Proof.
  intros Hm Hr Hk s Hf HP. rewrite bind_run.
  destruct (Hm s) as (l & E & F & R). simpl in R.
  destruct (m w s) as [[a|e] s1]; simpl in *.
  - apply Hk; [congruence|]. rewrite E. by apply Forall_app.
  - apply Hr; [congruence|]. rewrite E. by apply Forall_app.
Qed.

Ltac quiet_phase :=
  solve [unfold_program; cbv beta iota; repeat emits_step; split; reflexivity].

(** ** The config copy, run *)

Lemma os_makedirs_run d w s :
  os_makedirs d w s
  = match fs s !! d with
    | Some _ => (Raise (FileExistsError d), logged s [Makedirs d])
    | None =>
        match below_file (fs s) (ancestors d ++ [d]) with
        | Some p => (Raise (NotADirectoryError p), logged s [Makedirs d])
        | None =>
            (Ok tt, {| fs := <[d := Dir]> (foldr mkdir_missing (fs s) (ancestors d));
                       log := log s ++ [Makedirs d] |})
        end
    end.
Proof.
  unfold os_makedirs. run_unfold. simpl.
  destruct (fs s !! d); [reflexivity|].
  destruct (below_file _ _); reflexivity.
Qed.

Lemma open_write_log p w s :
  log (open_write p w s).2 = log s ++ [OpenWrite p].
Proof.
  unfold open_write. run_unfold. simpl.
  destruct (last (ancestors p)) as [d|]; simpl.
  - destruct (fs s !! d) as [[|c]|]; simpl; try reflexivity.
    destruct (fs s !! p) as [[|c]|]; reflexivity.
  - destruct (fs s !! p) as [[|c]|]; reflexivity.
Qed.

Lemma yaml_dump_to_run v p w s :
  yaml_dump_to v p w s
  = match lib_raises w (YamlDump v p) with
    | Some x => (Raise x, logged s [YamlDump v p])
    | None =>
        (Ok tt, {| fs := <[p := File (yaml_dump w v)]> (fs s);
                   log := log s ++ [YamlDump v p] |})
    end.
Proof.
  unfold yaml_dump_to. rewrite bind_run, lib_call_run.
  destruct (lib_raises w (YamlDump v p)); reflexivity.
Qed.

Lemma main_save_config_primary config tc sp w s :
  py_get tc "save_path" (VStr "./output") = Ok sp →
  main_save_config config tc true (strftime_now w) w s
  = (os_makedirs (output_dir w sp) ;;
     open_write (output_file w sp) ;;
     yaml_dump_to config (output_file w sp)) w s.
Proof.
  intros H. unfold main_save_config. rewrite bind_run. unfold lift at 1. rewrite H.
  reflexivity.
Qed.

(** With the output directory already there, the copy stops at
    [os.makedirs]. *)
Lemma main_save_config_exists config tc sp w s :
  py_get tc "save_path" (VStr "./output") = Ok sp →
  is_Some (fs s !! output_dir w sp) →
  main_save_config config tc true (strftime_now w) w s
  = (Raise (FileExistsError (output_dir w sp)), logged s [Makedirs (output_dir w sp)]).
Proof.
  intros H [n Hn]. rewrite (main_save_config_primary _ _ sp) by exact H.
  rewrite bind_run, os_makedirs_run, Hn. reflexivity.
Qed.

Lemma before_copy_no_write l :
  Forall before_copy l → Forall (λ e, is_config_write e = false ∧ is_fit e = false) l.
Proof.
  intros H. eapply Forall_impl; [exact H|].
  intros e [H1 H2]. split; [|exact H2].
  destruct e; try reflexivity; discriminate.
Qed.

Lemma before_copy_not_makedirs l d : Forall before_copy l → ¬ In (Makedirs d) l.
Proof.
  intros H Hin. rewrite List.Forall_forall in H. destruct (H _ Hin). discriminate.
Qed.

Lemma main_stages_existing_dir w files r config tc sp :
  py_get tc "save_path" (VStr "./output") = Ok sp →
  is_Some (files !! output_dir w sp) →
  after w before_copy files (main_stages true r config tc (strftime_now w))
    (aborted_at_makedirs files (output_dir w sp)).
Proof.
  intros Hsp Hd. unfold main_stages.
  repeat (apply after_bind_quiet;
          [quiet_phase
          |intros e s Hf HP; split; [eauto|]; split;
             [intros Hin; by apply before_copy_not_makedirs in Hin
             |split; [by apply before_copy_no_write|exact Hf]]
          |intros ?]).
  intros s Hf HP. rewrite bind_run, (main_save_config_exists _ _ sp); [|exact Hsp|by rewrite Hf].
  simpl. split; [eauto|]. split; [reflexivity|]. split; [|exact Hf].
  apply Forall_app. split; [by apply before_copy_no_write|]. repeat constructor.
Qed.

Lemma prelude_before_copy z w files :
  Forall before_copy
    ([EnvGet "LOCAL_RANK"; EnvGet "LOCAL_RANK"; CudaSetDevice z]
     ++ config_events w files ++ [Strftime "%Y%m%d-%H%M%S"]).
Proof.
  simpl. repeat constructor. apply Forall_app. split.
  - apply Forall_config_events; intros; split; reflexivity.
  - repeat constructor.
Qed.

(** C10: on the primary process, if the directory [{save_path}/{run_name}]
    already exists, the run raises; once it reaches [os.makedirs] the error
    is [FileExistsError] for that directory; [config.yaml] is neither opened
    nor written, [fit] is not called, and the file system is as it was. *)
Theorem existing_output_dir_aborts
    (w : World) (files : gmap string fnode) (config tc save_path : pyval) :
  rank_of w = 0%Z →
  loaded_config w files = Ok config →
  py_getitem config "train" = Ok tc →
  py_get tc "save_path" (VStr "./output") = Ok save_path →
  is_Some (files !! output_dir w save_path) →
  (∃ e, outcome_of (run w files) = Raise e)
  ∧ (In (Makedirs (output_dir w save_path)) (log_of (run w files)) →
     outcome_of (run w files) = Raise (FileExistsError (output_dir w save_path)))
  ∧ Forall (λ e, is_config_write e = false ∧ is_fit e = false) (log_of (run w files))
  ∧ fs_of (run w files) = files.
Proof.
  intros Hr Hc Ht Hsp Hd.
  change (aborted_at_makedirs files (output_dir w save_path)
            (outcome_of (run w files)) (run w files).2).
  rewrite run_eq, main_run. cbv zeta. simpl fs. rewrite Hc, Ht, Hr.
  destruct (lib_raises w (CudaSetDevice 0)).
  { split; [eauto|]. split; [|split; [repeat constructor|reflexivity]].
    simpl. intros [H|[H|[H|[]]]]; discriminate. }
  apply (main_stages_existing_dir w files 0%Z config tc save_path Hsp Hd);
    [reflexivity|].
  apply prelude_before_copy.
Qed.

Lemma before_copy_not_fit l t md dl : Forall before_copy l → ¬ In (TrainerFit t md dl) l.
Proof.
  intros H Hin. rewrite List.Forall_forall in H. destruct (H _ Hin). discriminate.
Qed.

Lemma not_fit_app l l' t md dl :
  Forall before_copy l → Forall (λ e, is_fit e = false) l' →
  ¬ In (TrainerFit t md dl) (l ++ l').
Proof.
  intros H H' Hin. apply in_app_or in Hin as [Hin|Hin].
  - by apply before_copy_not_fit in Hin.
  - rewrite List.Forall_forall in H'. apply H' in Hin. discriminate.
Qed.

Lemma main_stages_copy w files r config tc :
  after w before_copy files (main_stages true r config tc (strftime_now w))
    (λ _ s, copied_before_fit w config tc s).
Proof.
  unfold main_stages.
  repeat (apply after_bind_quiet;
          [quiet_phase
          |intros e s Hf HP t md dl Hin; by apply before_copy_not_fit in Hin
          |intros ?]).
  cbv zeta. intros s Hf HP t md dl. rewrite bind_run.
  destruct (py_get tc "save_path" (VStr "./output")) as [sp|e] eqn:Hsp.
  2:{ unfold main_save_config. rewrite bind_run. unfold lift at 1. rewrite Hsp. simpl.
      intros Hin. by apply before_copy_not_fit in Hin. }
  rewrite (main_save_config_primary _ _ sp) by exact Hsp.
  rewrite bind_run, os_makedirs_run.
  destruct (fs s !! output_dir w sp).
  { simpl. intros Hin. apply not_fit_app in Hin; [done|done|repeat constructor]. }
  destruct (below_file _ _).
  { simpl. intros Hin. apply not_fit_app in Hin; [done|done|repeat constructor]. }
  rewrite bind_run.
  match goal with |- context [open_write ?p w ?s1] =>
    pose proof (open_write_log p w s1) as HL;
    destruct (open_write p w s1) as [[[]|e] [f2 l2]]
  end; simpl in HL; subst l2.
  2:{ simpl. rewrite <- app_assoc. intros Hin.
      apply not_fit_app in Hin; [done|done|repeat constructor]. }
  rewrite yaml_dump_to_run.
  destruct (lib_raises w (YamlDump config (output_file w sp))).
  { simpl. rewrite <- !app_assoc. intros Hin.
    apply not_fit_app in Hin; [done|done|repeat constructor]. }
  unfold trainer_fit. rewrite lib_call_run. simpl. rewrite <- !app_assoc. simpl.
  intros Hin. apply in_app_or in Hin as [Hin|Hin];
    [by apply before_copy_not_fit in Hin|].
  destruct Hin as [H|[H|[H|[H|[]]]]]; try discriminate.
  inversion H; subst. exists sp, (log s).
  split; [reflexivity|]. split; [reflexivity|]. split; [exact HP|].
  apply lookup_insert_eq.
Qed.

Lemma main_stages_secondary_no_write w r config tc rn :
  emits w (λ e, is_fs_write e = false) true (main_stages false r config tc rn).
Proof.
  unfold_program. cbv beta iota. repeat emits_step; reflexivity.
Qed.

(** C4: on the primary process a run that calls [fit] has, just before the
    call and nowhere earlier, made the directory [{save_path}/{run_name}],
    opened [config.yaml] in it and dumped the loaded config there, once;
    the file then holds that dump.  On any other process the run makes no
    directory, opens no file for writing and dumps nothing, and leaves the
    file system as it was. *)
Theorem config_copy_on_primary_only (w : World) (files : gmap string fnode) :
  (rank_of w = 0%Z →
   ∀ t md dl,
     In (TrainerFit t md dl) (log_of (run w files)) →
     ∃ config tc sp pre,
       loaded_config w files = Ok config
       ∧ py_getitem config "train" = Ok tc
       ∧ py_get tc "save_path" (VStr "./output") = Ok sp
       ∧ log_of (run w files)
         = pre ++ [Makedirs (output_dir w sp); OpenWrite (output_file w sp);
                   YamlDump config (output_file w sp); TrainerFit t md dl]
       ∧ Forall before_copy pre
       ∧ fs_of (run w files) !! output_file w sp = Some (File (yaml_dump w config)))
  ∧ (rank_of w ≠ 0%Z →
     Forall (λ e, is_fs_write e = false) (log_of (run w files))
     ∧ fs_of (run w files) = files).
Proof.
  split.
  - intros Hr t md dl. unfold log_of, fs_of.
    rewrite run_eq, main_run. cbv zeta. simpl fs. rewrite Hr.
    destruct (lib_raises w (CudaSetDevice 0)).
    { simpl. intros [H|[H|[H|[]]]]; discriminate. }
    assert (Hp : Forall before_copy
                   ([EnvGet "LOCAL_RANK"; EnvGet "LOCAL_RANK"; CudaSetDevice 0]
                    ++ config_events w files)).
    { pose proof (prelude_before_copy 0 w files) as Hp.
      rewrite app_assoc in Hp. by apply Forall_app in Hp as [Hp _]. }
    destruct (loaded_config w files) as [config|e];
      [|intros Hin; by apply (before_copy_not_fit _ t md dl) in Hp].
    destruct (py_getitem config "train") as [tc|e] eqn:Et;
      [|intros Hin; by apply (before_copy_not_fit _ t md dl) in Hp].
    intros Hin.
    destruct (main_stages_copy w files 0%Z config tc
                (logged (initial files)
                   ([EnvGet "LOCAL_RANK"; EnvGet "LOCAL_RANK"; CudaSetDevice 0]
                    ++ config_events w files ++ [Strftime "%Y%m%d-%H%M%S"]))
                eq_refl (prelude_before_copy 0 w files) t md dl Hin)
      as (sp & pre & Hsp & El & Fp & Ef).
    exists config, tc, sp, pre. repeat split; assumption.
  - intros Hr.
    destruct (run_emits (λ e, is_fs_write e = false) true w files) as [H1 H2];
      try reflexivity.
    + apply Forall_config_events; reflexivity.
    + intros config tc _ _.
      destruct (rank_of w =? 0)%Z eqn:E; [apply Z.eqb_eq in E; contradiction|].
      apply main_stages_secondary_no_write.
    + split; [exact H1|]. symmetry. exact H2.
Qed.

(** ** Batches of a scene run *)

Lemma iloc_nat df i row :
  nth_error (df_rows df) i = Some row → iloc df (Z.of_nat i) = Ok row.
Proof.
  intros H. unfold iloc.
  assert (i < length (df_rows df))%nat by (apply nth_error_Some; congruence).
  destruct (Z.of_nat i <? 0)%Z eqn:E1; [lia|].
  destruct ((0 <=? Z.of_nat i)%Z && (Z.of_nat i <? Z.of_nat (length (df_rows df)))%Z) eqn:E2.
  - by rewrite Nat2Z.id, H.
  - apply andb_false_iff in E2 as [E2|E2]; lia.
Qed.

Lemma image_open_rgb_run w s path c size :
  existsb (is_file (fs s)) (ancestors path) = false →
  fs s !! path = Some (File c) →
  decode_image w c = Ok size →
  image_open_rgb path w s
  = (Ok {| img_path := path; img_mode := "RGB"; img_size := size |},
     logged s [ImageOpen path]).
Proof.
  intros Ha Hf Hd. unfold image_open_rgb. run_unfold. simpl. rewrite Ha, Hf. simpl.
  by rewrite Hd.
Qed.

(** [__getitem__] on a valid record: both images are opened, in the order
    A then B, and transformed; the prompt is handed on as it is. *)
Lemma getitem_valid_run w self i row s a p b ca sa cb sb :
  nth_error (df_rows (lsd_data self)) i = Some row →
  series_getitem (df_columns (lsd_data self)) row "imageA" = Ok (Scalar (VStr a)) →
  series_getitem (df_columns (lsd_data self)) row "prompt" = Ok (Scalar (VStr p)) →
  series_getitem (df_columns (lsd_data self)) row "imageB" = Ok (Scalar (VStr b)) →
  existsb (is_file (fs s)) (ancestors (path_join (lsd_image_dir self) a)) = false →
  fs s !! path_join (lsd_image_dir self) a = Some (File ca) →
  decode_image w ca = Ok sa →
  existsb (is_file (fs s)) (ancestors (path_join (lsd_image_dir self) b)) = false →
  fs s !! path_join (lsd_image_dir self) b = Some (File cb) →
  decode_image w cb = Ok sb →
  LocalSubjectsDataset_getitem self (Z.of_nat i) w s
  = (Ok {| imageA := maybe_transform (lsd_transform self)
                       {| img_path := path_join (lsd_image_dir self) a;
                          img_mode := "RGB"; img_size := sa |};
           prompt := Scalar (VStr p);
           imageB := maybe_transform (lsd_transform self)
                       {| img_path := path_join (lsd_image_dir self) b;
                          img_mode := "RGB"; img_size := sb |} |},
     logged s [ImageOpen (path_join (lsd_image_dir self) a);
               ImageOpen (path_join (lsd_image_dir self) b)]).
Proof.
  intros Hnth Ha Hp Hb Haa Hfa Hda Hab Hfb Hdb.
  unfold LocalSubjectsDataset_getitem, fmt. run_unfold. cbv zeta beta.
  rewrite (iloc_nat _ _ _ Hnth), Ha, Hp, Hb. simpl first_if_series. simpl py_str.
  cbv beta iota. simpl py_str.
  rewrite (image_open_rgb_run w s _ ca sa Haa Hfa Hda).
  rewrite (image_open_rgb_run w (logged s [ImageOpen (path_join (lsd_image_dir self) a)])
             _ cb sb Hab Hfb Hdb).
  rewrite logged_logged. destruct (lsd_transform self); reflexivity.
Qed.

(** On a valid table [__getitem__] returns the raw sample of the row and
    has opened its two files. *)
Lemma getitem_valid w files self i s :
  fs s = files →
  lsd_transform self = Some transform →
  (i < length (df_rows (lsd_data self)))%nat →
  Forall (valid_row w files (lsd_image_dir self) (df_columns (lsd_data self)))
         (df_rows (lsd_data self)) →
  ∃ row raw,
    nth_error (df_rows (lsd_data self)) i = Some row
    ∧ raw_of_row (lsd_image_dir self) (df_columns (lsd_data self)) row raw
    ∧ LocalSubjectsDataset_getitem self (Z.of_nat i) w s
      = (Ok raw, logged s (image_opens (lsd_image_dir self) (lsd_data self) i)).
Proof.
  intros Hfs Htr Hi Hv.
  destruct (nth_error (df_rows (lsd_data self)) i) as [row|] eqn:Hnth;
    [|apply nth_error_None in Hnth; lia].
  rewrite List.Forall_forall in Hv.
  destruct (Hv row (nth_error_In _ _ Hnth))
    as (a & p & b & Ha & Hp & Hb & (Haa & ca & sa & Hfa & Hda)
        & (Hab & cb & sb & Hfb & Hdb)).
  rewrite <- Hfs in Haa, Hfa, Hab, Hfb.
  exists row, {| imageA := resized (lsd_image_dir self) a; prompt := Scalar (VStr p);
                 imageB := resized (lsd_image_dir self) b |}.
  split; [reflexivity|]. split; [by exists a, p, b|].
  rewrite (getitem_valid_run w self i row s a p b ca sa cb sb) by assumption.
  unfold image_opens. by rewrite Hnth, Ha, Hb, Htr.
Qed.

Lemma adapter_getitem_valid w files self kw i g s :
  fs s = files →
  lsd_transform self = Some transform →
  (i < length (df_rows (lsd_data self)))%nat →
  Forall (valid_row w files (lsd_image_dir self) (df_columns (lsd_data self)))
         (df_rows (lsd_data self)) →
  ∃ row raw,
    nth_error (df_rows (lsd_data self)) i = Some row
    ∧ raw_of_row (lsd_image_dir self) (df_columns (lsd_data self)) row raw
    ∧ adapter_getitem (DScene (DLocalSubjects self) kw) (Z.of_nat i) g w s
      = (Ok (scene_record kw g raw),
         logged s (image_opens (lsd_image_dir self) (lsd_data self) i)).
Proof.
  intros Hfs Htr Hi Hv.
  destruct (getitem_valid w files self i s Hfs Htr Hi Hv) as (row & raw & Hn & Hr & E).
  exists row, raw. split; [exact Hn|]. split; [exact Hr|].
  unfold adapter_getitem. by rewrite bind_run, E.
Qed.

Lemma logged_nil s : logged s [] = s.
Proof. destruct s. unfold logged. simpl. by rewrite app_nil_r. Qed.

(** [mapM] over inputs on which [f] succeeds, logging [ev]. *)
Lemma mapM_ok {A B} (f : A → M B) w files (P : A → Prop) (ev : A → list Event)
    (g : A → B → Prop) :
  (∀ x s, P x → fs s = files → ∃ y, f x w s = (Ok y, logged s (ev x)) ∧ g x y) →
  ∀ l s, Forall P l → fs s = files →
    ∃ ys, mapM f l w s = (Ok ys, logged s (flat_map ev l)) ∧ Forall2 g l ys.
Proof.
  intros Hf l. induction l as [|x l IH]; intros s HP Hfs.
  - exists []. simpl. rewrite logged_nil. split; [reflexivity|constructor].
  - apply Forall_cons in HP as [Hx Hl].
    destruct (Hf x s Hx Hfs) as (y & E1 & Hr).
    destruct (IH (logged s (ev x)) Hl Hfs) as (ys & E2 & Hrs).
    exists (y :: ys). simpl. rewrite bind_run, E1, bind_run, E2, logged_logged.
    split; [reflexivity|by constructor].
Qed.

Lemma chunks_aux_Forall {A} (P : A → Prop) fuel n (l : list A) :
  Forall P l → Forall (Forall P) (chunks_aux fuel n l).
Proof.
  revert l. induction fuel as [|fuel IH]; intros l H; simpl; [constructor|].
  destruct l as [|x l']; [constructor|].
  constructor; [by apply Forall_take|]. apply IH. by apply Forall_drop.
Qed.

Lemma ceil_div_0 n : (0 < n)%nat → ceil_div 0 n = 0%nat.
Proof. intros H. unfold ceil_div. apply Nat.div_small. lia. Qed.

Lemma ceil_div_step len n :
  (0 < n)%nat → (0 < len)%nat → ceil_div len n = S (ceil_div (len - n) n).
Proof.
  intros Hn Hl. unfold ceil_div.
  destruct (le_lt_dec n len) as [Hge|Hlt].
  - replace (len + n - 1)%nat with ((len - n + n - 1) + 1 * n)%nat by lia.
    rewrite Nat.div_add by lia. lia.
  - replace (len - n)%nat with 0%nat by lia.
    rewrite (Nat.div_small (0 + n - 1) n) by lia.
    replace (len + n - 1)%nat with ((len - 1) + 1 * n)%nat by lia.
    rewrite Nat.div_add by lia. rewrite Nat.div_small by lia. reflexivity.
Qed.

Lemma chunks_aux_length {A} fuel n (l : list A) :
  (0 < n)%nat → (length l ≤ fuel)%nat →
  length (chunks_aux fuel n l) = ceil_div (length l) n.
Proof.
  intros Hn. revert l. induction fuel as [|fuel IH]; intros l Hl; simpl.
  - destruct l; [|simpl in Hl; lia]. simpl. by rewrite ceil_div_0.
  - destruct l as [|x l']; [simpl; by rewrite ceil_div_0|].
    simpl length at 1. rewrite IH.
    + rewrite length_drop. symmetry. apply ceil_div_step; simpl; lia.
    + rewrite length_drop. simpl in *. lia.
Qed.

(** The number of batches of one pass is the ceiling of the number of
    indices over the batch size. *)
Lemma chunks_length {A} n (l : list A) :
  (0 < n)%nat → length (chunks n l) = ceil_div (length l) n.
Proof. intros Hn. by apply chunks_aux_length. Qed.

(** The groups of indices, put together again. *)
Lemma chunks_aux_concat {A} fuel n (l : list A) :
  (0 < n)%nat → (length l ≤ fuel)%nat → concat (chunks_aux fuel n l) = l.
Proof.
  intros Hn. revert l. induction fuel as [|fuel IH]; intros l Hl; simpl.
  - destruct l; [reflexivity|simpl in Hl; lia].
  - destruct l as [|x l']; [reflexivity|].
    cbn [concat]. rewrite IH.
    + apply take_drop.
    + rewrite length_drop. simpl in *. lia.
Qed.

Lemma flat_map_chunks {A B} (ev : A → list B) n (l : list A) :
  (0 < n)%nat → flat_map (flat_map ev) (chunks n l) = flat_map ev l.
Proof.
  intros Hn. rewrite <- (chunks_aux_concat (length l) n l Hn (le_n _)) at 2.
  unfold chunks. generalize (chunks_aux (length l) n l). intros ll.
  induction ll as [|c ll IH]; [reflexivity|].
  simpl. by rewrite flat_map_app, IH.
Qed.

Lemma Forall2_zip_with_length {A B C} (g : A → B → Prop) (h : A → B → C) l1 l2 :
  Forall2 g l1 l2 → length (zip_with h l1 l2) = length l1.
Proof. induction 1; simpl; congruence. Qed.

(** What a batch for [ixs] holds: as many pairs and prompts as indices,
    the prompts strings. *)
Lemma batch_for_size dir df kw gates ixs b :
  batch_for dir df kw gates ixs b → batch_of_size (length ixs) b.
Proof.
  intros (raws & HF & ->). unfold batch_of_size, collate. simpl.
  rewrite !length_map, (Forall2_zip_with_length _ _ _ _ HF).
  repeat split. apply Forall_map. clear -HF.
  induction HF as [|i raw ixs raws (row & _ & a & p & b & _ & _ & _ & ->) _ IH];
    simpl; constructor; [by exists p|exact IH].
Qed.

(** One pass over a loader of the scene adapter whose table is valid. *)
Lemma epoch_valid w files self kw nw b order gates s :
  fs s = files →
  lsd_transform self = Some transform →
  (0 < b)%Z →
  Forall (λ i, i < length (df_rows (lsd_data self)))%nat order →
  Forall (valid_row w files (lsd_image_dir self) (df_columns (lsd_data self)))
         (df_rows (lsd_data self)) →
  ∃ batches,
    epoch {| dl_dataset := DScene (DLocalSubjects self) kw; dl_batch_size := VInt b;
             dl_shuffle := true; dl_num_workers := nw |} order gates w s
    = (Ok batches,
       logged s (flat_map (image_opens (lsd_image_dir self) (lsd_data self)) order))
    ∧ Forall2 (batch_for (lsd_image_dir self) (lsd_data self) kw gates)
        (chunks (Z.to_nat b) order) batches.
Proof.
  intros Hfs Htr Hb Hix Hv. unfold epoch. cbn [dl_batch_size dl_dataset].
  rewrite (proj2 (Z.ltb_lt 0 b) Hb).
  rewrite <- (flat_map_chunks (image_opens (lsd_image_dir self) (lsd_data self))
                (Z.to_nat b) order) by lia.
  apply (mapM_ok _ w files
           (Forall (λ i, i < length (df_rows (lsd_data self)))%nat)).
  - intros ixs s0 Hixs Hfs0.
    destruct (mapM_ok
                (λ i : nat, adapter_getitem (DScene (DLocalSubjects self) kw)
                              (Z.of_nat i) (gates i))
                w files (λ i, i < length (df_rows (lsd_data self)))%nat
                (image_opens (lsd_image_dir self) (lsd_data self))
                (λ i r, ∃ row raw,
                   nth_error (df_rows (lsd_data self)) i = Some row
                   ∧ raw_of_row (lsd_image_dir self) (df_columns (lsd_data self)) row raw
                   ∧ r = scene_record kw (gates i) raw)) with (l := ixs) (s := s0)
      as (rs & E1 & HR); [|assumption|assumption|].
    + intros i s2 Hi Hfs2.
      destruct (adapter_getitem_valid w files self kw i (gates i) s2 Hfs2 Htr Hi Hv)
        as (row & raw & Hn & Hr & E).
      exists (scene_record kw (gates i) raw). split; [exact E|]. by exists row, raw.
    + exists (collate rs). rewrite bind_run, E1.
      split; [reflexivity|]. clear E1.
      induction HR as [|i r ixs' rs' (row & raw & Hn & Hr & ->) _ IH].
      * exists []. split; [constructor|reflexivity].
      * apply Forall_cons in Hixs as [_ Hixs].
        destruct (IH Hixs) as (raws & HF & Ec).
        exists (raw :: raws). split; [constructor; [by exists row|exact HF]|].
        unfold collate in *. simpl. by inversion Ec.
  - by apply chunks_aux_Forall.
  - exact Hfs.
Qed.

Lemma pd_read_csv_ok path w s df s1 :
  pd_read_csv path w s = (Ok df, s1) →
  ∃ c, fs s !! path = Some (File c) ∧ parse_csv w c = Ok df ∧ fs s1 = fs s.
Proof.
  unfold pd_read_csv. run_unfold. simpl.
  destruct (fs s !! path) as [[|c]|]; try discriminate.
  intros H. exists c. split; [reflexivity|].
  destruct (parse_csv w c); inversion H; subst. auto.
Qed.

Lemma emits_strict_fs {A} w P (m : M A) s : emits w P true m → fs (m w s).2 = fs s.
Proof. intros H. destruct (H s) as (l & _ & _ & R). simpl in R. by rewrite <- R. Qed.

(** What the [scene] branch returns: the adapter over the table parsed
    from [csv_path], with [images_path] as its image directory. *)
Lemma scene_branch_ok tc w s ds s1 :
  scene_branch tc w s = (Ok ds, s1) →
  ∃ c df kw,
    fs s !! "csv_path" = Some (File c)
    ∧ parse_csv w c = Ok df
    ∧ ds = DScene (DLocalSubjects {| lsd_data := df; lsd_image_dir := "images_path";
                                     lsd_transform := Some transform;
                                     lsd_features := features_literal |}) kw
    ∧ fs s1 = fs s.
Proof.
  intros H.
  assert (Hfs : fs s1 = fs s).
  { assert (He : emits w (λ _, True) true (scene_branch tc))
      by (unfold_program; repeat emits_step; exact I).
    pose proof (emits_strict_fs w _ _ s He) as Hs. by rewrite H in Hs. }
  revert H. unfold scene_branch, LocalSubjectsDataset_init.
  rewrite bind_assoc, bind_emit_run, bind_assoc, bind_run.
  destruct (pd_read_csv "csv_path" w _) as [[df|e] s2] eqn:Ecsv; [|discriminate].
  apply pd_read_csv_ok in Ecsv as (c & Hc & Hp & _). simpl in Hc.
  rewrite bind_ret_run. cbv zeta.
  unfold dataset_param, lib_call, py_print. run_unfold. simpl.
  intros H. repeat case_match; simplify_eq.
  eexists c, df, _. repeat split; eauto.
Qed.

Lemma main_loader_ok tc ds w s dl s1 :
  main_loader tc ds w s = (Ok dl, s1) →
  ∃ bs nw,
    py_getitem tc "batch_size" = Ok bs
    ∧ dl = {| dl_dataset := ds; dl_batch_size := bs; dl_shuffle := true;
              dl_num_workers := nw |}
    ∧ fs s1 = fs s.
Proof.
  unfold main_loader, lib_call. run_unfold. simpl. intros H.
  repeat case_match; simplify_eq. eauto.
Qed.

Lemma Permutation_seq_bound order n :
  Permutation order (seq 0 n) → Forall (λ i, i < n)%nat order.
Proof.
  intros H. apply List.Forall_forall. intros i Hi.
  apply (Permutation_in _ H) in Hi. apply in_seq in Hi. lia.
Qed.

(** C7: in a scene run the dataset wraps the local dataset over the table
    [pd.read_csv] parsed, and its length is the number of records of that
    table.  When every record is valid, one pass over the loader that
    [main] builds opens the two files of every sampled record, in the order
    sampled, and yields the ceiling of records over batch size many batches,
    one per group of sampled indices; each batch is the collation of the
    records made of the raw samples of its rows: the two files the row
    names, in RGB and 600 by 600, and the prompt string of the row.  With 4
    records and batch size 2 that is exactly 2 batches, each of 2
    condition/target pairs and 2 prompt strings.  (The number of workers
    does not enter the model: batches are read in the calling process.) *)
Theorem scene_epoch_batches
    (w : World) (s s1 s2 : St) (tc d t : pyval) (ds : dataset) (dl : DataLoader)
    (c : string) (df : DataFrame) (b : Z) (order : list nat)
    (gates : nat → bool * bool) :
  py_getitem tc "dataset" = Ok d →
  py_getitem d "type" = Ok t →
  py_eq_str t "scene" = true →
  main_dataset tc w s = (Ok ds, s1) →
  main_loader tc ds w s1 = (Ok dl, s2) →
  fs s !! "csv_path" = Some (File c) →
  parse_csv w c = Ok df →
  Forall (valid_row w (fs s) "images_path" (df_columns df)) (df_rows df) →
  py_getitem tc "batch_size" = Ok (VInt b) →
  (0 < b)%Z →
  Permutation order (seq 0 (length (df_rows df))) →
  ∃ local kw,
    ds = DScene (DLocalSubjects local) kw
    ∧ lsd_data local = df
    ∧ LocalSubjectsDataset_len local = length (df_rows df)
    ∧ dataset_len ds = length (df_rows df)
    ∧ ∃ batches,
        epoch dl order gates w s2
        = (Ok batches, logged s2 (flat_map (image_opens "images_path" df) order))
        ∧ length batches = ceil_div (length (df_rows df)) (Z.to_nat b)
        ∧ Forall2 (batch_for "images_path" df kw gates) (chunks (Z.to_nat b) order) batches
        ∧ (length (df_rows df) = 4%nat → b = 2%Z →
           length batches = 2%nat ∧ Forall (batch_of_size 2) batches).
Proof.
  intros Hd Ht Hscene Hds Hdl Hc Hp Hv Hbs Hb Hperm.
  unfold main_dataset in Hds.
  rewrite bind_run, dataset_param_run, Hd, Ht, Hscene in Hds.
  apply scene_branch_ok in Hds as (c' & df' & kw & Hc' & Hp' & -> & Hfs1).
  assert (c' = c) as -> by congruence.
  assert (df' = df) as -> by congruence.
  apply main_loader_ok in Hdl as (bs & nw & Hbs' & -> & Hfs2).
  assert (bs = VInt b) as -> by congruence.
  eexists _, kw. split; [reflexivity|]. split; [reflexivity|].
  split; [reflexivity|]. split; [reflexivity|].
  destruct (epoch_valid w (fs s)
              {| lsd_data := df; lsd_image_dir := "images_path";
                 lsd_transform := Some transform; lsd_features := features_literal |}
              kw nw b order gates s2)
    as (batches & E & HF); try assumption.
  { congruence. }
  { reflexivity. }
  { by apply Permutation_seq_bound. }
  exists batches. split; [exact E|].
  pose proof (Forall2_length _ _ _ HF) as Hlen.
  rewrite chunks_length in Hlen by lia.
  rewrite (Permutation_length Hperm), length_seq in Hlen.
  split; [by symmetry|]. split; [exact HF|].
  intros H4 ->. split; [by rewrite <- Hlen, H4|].
  pose proof (Permutation_length Hperm) as Hlo. rewrite length_seq, H4 in Hlo.
  destruct order as [|i0 [|i1 [|i2 [|i3 [|]]]]]; try discriminate.
  change (chunks (Z.to_nat 2) [i0; i1; i2; i3]) with [[i0; i1]; [i2; i3]] in HF.
  inversion HF as [|? b1 ? l1 Hb1 HF1]; subst.
  inversion HF1 as [|? b2 ? l2 Hb2 HF2]; subst.
  inversion HF2; subst.
  repeat constructor;
    first [apply (batch_for_size _ _ _ _ _ _ Hb1) | apply (batch_for_size _ _ _ _ _ _ Hb2)].
Qed.

(** ** The theorems at the example world *)

Ltac in_list := repeat (first [left; reflexivity | right]).

Lemma trainer_defaults_example :
  ∃ config kvs,
    loaded_config (example_world (Some "0")) (example_files "scene") = Ok config
    ∧ py_getitem config "train" = Ok (VDict kvs)
    ∧ gradient_clip_val example_trainer
      = default (VFloat float_0_5) (dict_lookup "gradient_clip_val" kvs)
    ∧ max_steps example_trainer = default (VInt (-1)) (dict_lookup "max_steps" kvs)
    ∧ max_epochs example_trainer = default (VInt (-1)) (dict_lookup "max_epochs" kvs).
Proof.
  apply (trainer_defaults (example_world (Some "0")) (example_files "scene") example_trainer).
  vm_compute. in_list.
Defined.

Lemma existing_output_dir_aborts_example :
  outcome_of (run (example_world (Some "0"))
                (<["runs/20250101-093000" := Dir]> (example_files "scene")))
  = Raise (FileExistsError "runs/20250101-093000").
Proof.
  destruct (existing_output_dir_aborts (example_world (Some "0"))
              (<["runs/20250101-093000" := Dir]> (example_files "scene"))
              (example_config "scene") (example_train "scene") (VStr "runs"))
    as (_ & H & _);
    [vm_compute; reflexivity | vm_compute; reflexivity | vm_compute; reflexivity
    |vm_compute; reflexivity | exists Dir; vm_compute; reflexivity |].
  apply H. vm_compute. in_list.
Defined.

Lemma config_copy_on_primary_only_example :
  fs_of (run (example_world (Some "0")) (example_files "scene"))
    !! "runs/20250101-093000/config.yaml"
  = Some (File "flux_path: black-forest-labs/FLUX.1-dev")
  ∧ fs_of (run (example_world (Some "1")) (example_files "scene")) = example_files "scene".
Proof.
  split.
  - destruct (proj1 (config_copy_on_primary_only (example_world (Some "0"))
                       (example_files "scene"))
                eq_refl example_fit.1.1 example_fit.1.2 example_fit.2)
      as (config & tc & sp & pre & Hc & Ht & Hsp & _ & _ & Hf).
    { vm_compute. in_list. }
    assert (config = example_config "scene") as ->
      by (vm_compute in Hc; inversion Hc; reflexivity).
    assert (tc = example_train "scene") as ->
      by (vm_compute in Ht; inversion Ht; reflexivity).
    assert (sp = VStr "runs") as ->
      by (vm_compute in Hsp; inversion Hsp; reflexivity).
    exact Hf.
  - apply (proj2 (config_copy_on_primary_only (example_world (Some "1"))
                    (example_files "scene"))).
    vm_compute. discriminate.
Defined.

Lemma callback_only_on_primary_example :
  outcome_of (run (example_world (Some "1")) (example_files "scene"))
  = outcome_of (run (with_local_rank (Some "3") (example_world (Some "1")))
                  (example_files "scene"))
  ∧ Forall (λ e, is_callback e = false ∧ is_wandb e = false
                 ∧ (∀ t, e = NewTrainer t → callbacks t = []))
      (log_of (run (example_world (Some "1")) (example_files "scene"))).
Proof.
  destruct (callback_only_on_primary (example_world (Some "1")) (example_files "scene"))
    as (_ & H2 & H3).
  split.
  - apply (H3 (Some "3")); reflexivity.
  - apply H2. vm_compute. discriminate.
Defined.

Lemma stages_in_source_order_example :
  Forall (λ st, ∃ e, In e (log_of (run (example_world (Some "0")) (example_files "scene")))
                     ∧ stage_of e = Some st)
    [SRank; SConfig; SDataset; SLoader; SModel; SDriver; SPersist; SFit].
Proof.
  apply (proj2 (proj2 (stages_in_source_order (example_world (Some "0"))
                         (example_files "scene")))).
  vm_compute. reflexivity.
Defined.

Lemma example_order : Permutation [2; 0; 3; 1]%nat (seq 0 4).
Proof.
  simpl. apply Permutation_sym.
  apply (perm_trans (l' := [0; 2; 1; 3]%nat)).
  - apply perm_skip, perm_swap.
  - apply (perm_trans (l' := [2; 0; 1; 3]%nat)); [apply perm_swap|].
    do 2 apply perm_skip. apply perm_swap.
Qed.

Lemma example_rows_valid :
  Forall (valid_row (example_world (Some "0")) (example_files "scene") "images_path"
            (df_columns example_table))
    (df_rows example_table).
Proof.
  repeat constructor;
    (eexists _, _, _; split; [reflexivity|]; split; [reflexivity|];
     split; [reflexivity|];
     split; (split; [vm_compute; reflexivity|];
             eexists _, _; split; [vm_compute; reflexivity|reflexivity])).
Qed.

Lemma scene_epoch_batches_example :
  ∃ local kw,
    example_dataset.1 = DScene (DLocalSubjects local) kw
    ∧ lsd_data local = example_table
    ∧ LocalSubjectsDataset_len local = 4%nat
    ∧ dataset_len example_dataset.1 = 4%nat
    ∧ ∃ batches,
        epoch example_loader.1 [2; 0; 3; 1]%nat (λ _, (false, false))
          (example_world (Some "0")) example_loader.2
        = (Ok batches,
           logged example_loader.2
             [ImageOpen "images_path/a2.png"; ImageOpen "images_path/b2.png";
              ImageOpen "images_path/a0.png"; ImageOpen "images_path/b0.png";
              ImageOpen "images_path/a3.png"; ImageOpen "images_path/b3.png";
              ImageOpen "images_path/a1.png"; ImageOpen "images_path/b1.png"])
        ∧ length batches = 2%nat
        ∧ Forall (batch_of_size 2) batches.
Proof.
  destruct (scene_epoch_batches (example_world (Some "0"))
              example_state example_dataset.2 example_loader.2
              (example_train "scene") (example_dataset_group "scene") (VStr "scene")
              example_dataset.1 example_loader.1
              "imageA,prompt,imageB" example_table 2 [2; 0; 3; 1]%nat
              (λ _, (false, false)))
    as (local & kw & Hds & Hdf & Hlen & Hdl & batches & E & _ & _ & H4);
    try (vm_compute; reflexivity).
  - exact example_rows_valid.
  - exact example_order.
  - exists local, kw. split; [exact Hds|]. split; [exact Hdf|].
    split; [exact Hlen|]. split; [exact Hdl|].
    exists batches. split; [exact E|]. by apply H4.
Defined.

(** * Further properties of the launcher *)

(** ** [LocalSubjectsDataset.__getitem__] *)

Lemma iloc_out_of_range df idx :
  (idx < - Z.of_nat (length (df_rows df)) ∨ Z.of_nat (length (df_rows df)) ≤ idx)%Z →
  iloc df idx = Raise IndexError.
Proof.
  intros H. unfold iloc.
  destruct (idx <? 0)%Z eqn:E.
  - destruct (0 <=? idx + Z.of_nat (length (df_rows df)))%Z eqn:E1; [lia|reflexivity].
  - destruct (idx <? Z.of_nat (length (df_rows df)))%Z eqn:E1; [lia|].
    by rewrite andb_false_r.
Qed.

Lemma iloc_negative df k :
  (0 < k ≤ Z.of_nat (length (df_rows df)))%Z →
  iloc df (- k) = iloc df (Z.of_nat (length (df_rows df)) - k).
Proof.
  intros H. unfold iloc.
  destruct (- k <? 0)%Z eqn:E1; [|lia].
  destruct (Z.of_nat (length (df_rows df)) - k <? 0)%Z eqn:E2; [lia|].
  by replace (- k + Z.of_nat (length (df_rows df)))%Z
    with (Z.of_nat (length (df_rows df)) - k)%Z by lia.
Qed.

Lemma getitem_by_iloc self idx idx' w s :
  iloc (lsd_data self) idx = iloc (lsd_data self) idx' →
  LocalSubjectsDataset_getitem self idx w s = LocalSubjectsDataset_getitem self idx' w s.
Proof.
  intros H. unfold LocalSubjectsDataset_getitem. by rewrite H.
Qed.

(** X1: an index outside [-len, len) makes [__getitem__] raise
    [IndexError] at its first line: no image is opened and the state is as
    it was. *)
Theorem getitem_out_of_range (self : LocalSubjectsDataset) (idx : Z) (w : World) (s : St) :
  (idx < - Z.of_nat (LocalSubjectsDataset_len self)
   ∨ Z.of_nat (LocalSubjectsDataset_len self) ≤ idx)%Z →
  LocalSubjectsDataset_getitem self idx w s = (Raise IndexError, s).
Proof.
  intros H. unfold LocalSubjectsDataset_getitem. cbv zeta.
  rewrite bind_run. unfold lift at 1. by rewrite iloc_out_of_range.
Qed.

Lemma getitem_out_of_range_example :
  LocalSubjectsDataset_getitem example_local 4 (example_world (Some "0")) example_state
  = (Raise IndexError, example_state)
  ∧ LocalSubjectsDataset_getitem example_local (-5) (example_world (Some "0")) example_state
    = (Raise IndexError, example_state).
Proof.
  split; apply getitem_out_of_range; vm_compute; [right|left]; congruence.
Defined.

(** X2: a negative index counts from the end: [dataset[-k]] is
    [dataset[len - k]] for [1 <= k <= len], outcome and effects alike. *)
Theorem getitem_negative_index
    (self : LocalSubjectsDataset) (k : Z) (w : World) (s : St) :
  (0 < k ≤ Z.of_nat (LocalSubjectsDataset_len self))%Z →
  LocalSubjectsDataset_getitem self (- k) w s
  = LocalSubjectsDataset_getitem self (Z.of_nat (LocalSubjectsDataset_len self) - k) w s.
Proof. intros H. apply getitem_by_iloc. by apply iloc_negative. Qed.

Lemma getitem_negative_index_example :
  LocalSubjectsDataset_getitem example_local (- 1) (example_world (Some "0")) example_state
  = LocalSubjectsDataset_getitem example_local (4 - 1) (example_world (Some "0")) example_state.
Proof.
  apply (getitem_negative_index example_local 1). vm_compute. split; congruence.
Defined.

Lemma series_getitem_missing cols row name :
  ¬ In name cols → series_getitem cols row name = Raise (KeyError name).
Proof.
  intros H. unfold series_getitem.
  assert (E : List.filter (λ cv : string * pyval, String.eqb (fst cv) name) (combine cols row)
              = []).
  { revert row. induction cols as [|c cols IH]; intros row; [reflexivity|].
    destruct row as [|v row]; [reflexivity|]. simpl.
    destruct (String.eqb c name) eqn:E.
    - apply String.eqb_eq in E. subst. exfalso. apply H. by left.
    - apply IH. intros Hin. apply H. by right. }
  by rewrite E.
Qed.

Lemma series_getitem_present cols row name :
  In name cols → length row = length cols →
  ∃ c v, series_getitem cols row name = Ok c ∧ first_if_series c = Ok v.
Proof.
  intros Hin Hlen. unfold series_getitem.
  assert (E : ∃ x xs, map snd (List.filter (λ cv : string * pyval, String.eqb (fst cv) name)
                                 (combine cols row)) = x :: xs).
  { revert row Hlen. induction cols as [|c cols IH]; intros row Hlen; [destruct Hin|].
    destruct row as [|v row]; [discriminate|]. simpl.
    destruct (String.eqb c name) eqn:E; [simpl; eauto|].
    apply IH; [|by inversion Hlen].
    destruct Hin as [->|Hin]; [|exact Hin]. by rewrite String.eqb_refl in E. }
  destruct E as (x & xs & ->). destruct xs; simpl; eauto.
Qed.

(** X3: when the table lacks one of the columns [imageA], [prompt],
    [imageB], [__getitem__] of a record in range raises [KeyError] for the
    first one missing, in this order, before any image is opened. *)
Theorem getitem_missing_column
    (self : LocalSubjectsDataset) (idx : Z) (row : list pyval) (w : World) (s : St) :
  iloc (lsd_data self) idx = Ok row →
  length row = length (df_columns (lsd_data self)) →
  (¬ In "imageA" (df_columns (lsd_data self)) →
   LocalSubjectsDataset_getitem self idx w s = (Raise (KeyError "imageA"), s))
  ∧ (In "imageA" (df_columns (lsd_data self)) →
     ¬ In "prompt" (df_columns (lsd_data self)) →
     LocalSubjectsDataset_getitem self idx w s = (Raise (KeyError "prompt"), s))
  ∧ (In "imageA" (df_columns (lsd_data self)) →
     In "prompt" (df_columns (lsd_data self)) →
     ¬ In "imageB" (df_columns (lsd_data self)) →
     LocalSubjectsDataset_getitem self idx w s = (Raise (KeyError "imageB"), s)).
Proof.
  intros Hrow Hlen.
  unfold LocalSubjectsDataset_getitem, fmt. run_unfold. cbv zeta beta. rewrite Hrow.
  split; [|split].
  - intros HA. by rewrite (series_getitem_missing _ _ _ HA).
  - intros HA HP.
    destruct (series_getitem_present _ row _ HA Hlen) as (c & v & -> & ->).
    by rewrite (series_getitem_missing _ _ _ HP).
  - intros HA HP HB.
    destruct (series_getitem_present _ row _ HA Hlen) as (c & v & -> & ->).
    destruct (series_getitem_present _ row _ HP Hlen) as (c' & v' & -> & _).
    by rewrite (series_getitem_missing _ _ _ HB).
Qed.

Lemma getitem_missing_column_example :
  LocalSubjectsDataset_getitem example_local_no_prompt 0 (example_world (Some "0"))
    example_state
  = (Raise (KeyError "prompt"), example_state).
Proof.
  apply (proj1 (proj2 (getitem_missing_column example_local_no_prompt 0
                         [VStr "a0.png"; VStr "b0.png"] (example_world (Some "0"))
                         example_state eq_refl eq_refl))).
  - simpl. auto.
  - simpl. intros [H|[H|[]]]; discriminate.
Defined.

Lemma apply_transform_path t im : img_path (apply_transform t im) = img_path im.
Proof.
  destruct t as [ops]. simpl. revert im.
  induction ops as [|op ops IH]; intros im; [reflexivity|].
  simpl. rewrite IH. by destruct op.
Qed.

Lemma apply_transform_mode t im : img_mode (apply_transform t im) = img_mode im.
Proof.
  destruct t as [ops]. simpl. revert im.
  induction ops as [|op ops IH]; intros im; [reflexivity|].
  simpl. rewrite IH. by destruct op.
Qed.

Ltac pick_segment :=
  first [exists []; split; [by rewrite app_nil_r|]
        |eexists [_]; split; [reflexivity|]
        |eexists [_; _]; split; [by rewrite <- app_assoc|]].

(** X4: [__getitem__] only reads.  It leaves the file system as it was and
    logs nothing but image openings; when it returns, it has opened exactly
    the two files the sample's images come from, A before B, and both
    images are in RGB mode. *)
Theorem getitem_reads_two_images
    (self : LocalSubjectsDataset) (idx : Z) (w : World) (s : St) :
  fs (LocalSubjectsDataset_getitem self idx w s).2 = fs s
  ∧ ∃ l,
      log (LocalSubjectsDataset_getitem self idx w s).2 = log s ++ l
      ∧ Forall (λ e, is_image_open e = true) l
      ∧ ∀ sample,
          (LocalSubjectsDataset_getitem self idx w s).1 = Ok sample →
          l = [ImageOpen (img_path (imageA sample)); ImageOpen (img_path (imageB sample))]
          ∧ img_mode (imageA sample) = "RGB"
          ∧ img_mode (imageB sample) = "RGB".
Proof.
  unfold LocalSubjectsDataset_getitem, image_open_rgb, fmt. run_unfold. cbv zeta beta.
  simpl.
  repeat case_match; simplify_eq; simpl; (split; [reflexivity|]); pick_segment;
    (split; [repeat constructor|]); intros sample [=]; subst; simpl;
    rewrite ?apply_transform_path, ?apply_transform_mode; auto.
Qed.

(** X5: with the module's [transform], the one [main] passes, every sample
    [__getitem__] returns has both images at 600 by 600, whatever the size
    of the files. *)
Theorem getitem_resizes
    (self : LocalSubjectsDataset) (idx : Z) (w : World) (s s' : St) (sample : Sample) :
  lsd_transform self = Some transform →
  LocalSubjectsDataset_getitem self idx w s = (Ok sample, s') →
  img_size (imageA sample) = (600, 600)%nat ∧ img_size (imageB sample) = (600, 600)%nat.
Proof.
  intros Ht. unfold LocalSubjectsDataset_getitem, image_open_rgb, fmt. run_unfold.
  cbv zeta beta. rewrite Ht. simpl. intros H.
  repeat case_match; simplify_eq. split; reflexivity.
Qed.

Lemma getitem_resizes_example :
  match LocalSubjectsDataset_getitem example_local 2 (example_world (Some "0")) example_state
  with
  | (Ok sample, _) =>
      img_size (imageA sample) = (600, 600)%nat ∧ img_size (imageB sample) = (600, 600)%nat
  | (Raise _, _) => False
  end.
Proof.
  destruct (LocalSubjectsDataset_getitem example_local 2 (example_world (Some "0"))
              example_state) as [[sample|e] s'] eqn:E.
  - apply (getitem_resizes example_local 2 (example_world (Some "0")) example_state s' sample);
      [reflexivity|exact E].
  - vm_compute in E. discriminate.
Defined.



(** ** [get_rank] on the decimal text of a rank *)



















(** ** Errors of the initialisation block *)

(** X8: a config that cannot be loaded (no file, a directory, text that
    does not parse) or that has no usable [train] entry ends the run with
    that very error as soon as the config stage is over: the run name is
    not drawn and nothing of the later stages happens. *)
Theorem config_errors_abort_early (w : World) (files : gmap string fnode) (e : exn) :
  lib_raises w (CudaSetDevice (rank_of w)) = None →
  (loaded_config w files = Raise e
   ∨ ∃ config, loaded_config w files = Ok config ∧ py_getitem config "train" = Raise e) →
  run w files
  = (Raise e,
     logged (initial files)
       ([EnvGet "LOCAL_RANK"; EnvGet "LOCAL_RANK"; CudaSetDevice (rank_of w)]
        ++ config_events w files)).
Proof.
  intros Hd H. rewrite run_eq, main_run. cbv zeta. rewrite Hd. simpl fs.
  destruct H as [->|(config & -> & ->)]; reflexivity.
Qed.

Lemma config_errors_abort_early_example :
  run (example_world (Some "0")) ∅
  = (Raise (FileNotFoundError "config.yaml"),
     logged (initial ∅)
       [EnvGet "LOCAL_RANK"; EnvGet "LOCAL_RANK"; CudaSetDevice 0;
        EnvGet "XFL_CONFIG"; OpenRead "config.yaml"]).
Proof.
  rewrite (config_errors_abort_early (example_world (Some "0")) ∅
             (FileNotFoundError "config.yaml"));
    [vm_compute; reflexivity | reflexivity | left; reflexivity].
Defined.

(** ** The metrics backend *)

(** X9: a [wandb] group without a [project] stops the primary process
    with the lookup error, after [wandb] was imported and before
    [wandb.init] is called; every other process passes the same lines
    without an event and goes on. *)
Theorem wandb_missing_project
    (w : World) (s : St) (tc wandb_config : pyval) (run_name : string) (e : exn) :
  py_get tc "wandb" VNone = Ok wandb_config →
  wandb_config ≠ VNone →
  py_getitem wandb_config "project" = Raise e →
  lib_raises w ImportWandb = None →
  main_wandb tc true run_name w s = (Raise e, logged s [ImportWandb])
  ∧ main_wandb tc false run_name w s = (Ok tt, s).
Proof.
  intros Hw Hne Hp Hi. unfold main_wandb. rewrite !bind_run. unfold lift at 1 2.
  rewrite Hw. cbv beta iota.
  destruct wandb_config; try done;
    (split; [|reflexivity]; unfold init_wandb;
     rewrite bind_run, lib_call_run, Hi; cbv beta iota;
     rewrite bind_run; unfold lift at 1; by rewrite Hp).
Qed.

Lemma wandb_missing_project_example :
  main_wandb example_train_wandb true "20250101-093000" (example_world (Some "0"))
    example_state
  = (Raise (KeyError "project"), logged example_state [ImportWandb])
  ∧ main_wandb example_train_wandb false "20250101-093000" (example_world (Some "1"))
      example_state
    = (Ok tt, example_state).
Proof.
  split.
  - apply (wandb_missing_project (example_world (Some "0")) example_state
             example_train_wandb (VDict [(VStr "entity", VStr "lab")]));
      [reflexivity|discriminate|reflexivity|reflexivity].
  - apply (wandb_missing_project (example_world (Some "1")) example_state
             example_train_wandb (VDict [(VStr "entity", VStr "lab")])
             "20250101-093000" (KeyError "project"));
      [reflexivity|discriminate|reflexivity|reflexivity].
Defined.

(** ** The dataset chain *)

Lemma dataset_param_at tc d k w s :
  py_getitem tc "dataset" = Ok d →
  dataset_param tc k w s = (py_getitem d k, s).
Proof. intros H. by rewrite dataset_param_run, H. Qed.

(** X10: the second [scene] test, line 157, is never reached with a tag it
    accepts: the chain behaves exactly as the chain without it, so the
    unbound [dataset] of line 158 is never read. *)
Theorem line_157_is_dead (tc : pyval) (w : World) (s : St) :
  main_dataset tc w s = main_dataset_without_line_157 tc w s.
Proof.
  unfold main_dataset, main_dataset_without_line_157.
  rewrite !bind_run, dataset_param_run.
  destruct (py_getitem tc "dataset") as [d|e] eqn:Ed; [|reflexivity].
  destruct (py_getitem d "type") as [t|e] eqn:Et; [|reflexivity].
  destruct (py_eq_str t "scene") eqn:E1; [reflexivity|].
  rewrite !bind_run, (dataset_param_at tc d _ w s Ed), Et.
  destruct (py_eq_str t "img") eqn:E2; [reflexivity|].
  rewrite !bind_run, (dataset_param_at tc d _ w s Ed), Et.
  destruct (py_eq_str t "cartoon") eqn:E3; [reflexivity|].
  rewrite bind_run, (dataset_param_at tc d _ w s Ed), Et, E1. reflexivity.
Qed.

Lemma main_dataset_img tc d w s :
  py_getitem tc "dataset" = Ok d →
  py_getitem d "type" = Ok (VStr "img") →
  main_dataset tc w s = img_branch tc w s.
Proof.
  intros Hd Ht. unfold main_dataset.
  rewrite bind_run, (dataset_param_at tc d _ w s Hd), Ht.
  change (py_eq_str (VStr "img") "scene") with false. cbv iota.
  rewrite bind_run, (dataset_param_at tc d _ w s Hd), Ht. reflexivity.
Qed.

(** X11: in the [img] branch a missing [urls] is found before anything is
    fetched, the state untouched; a missing [condition_size] is found only
    after [load_dataset] has been called with the shard list. *)
Theorem img_branch_validation_order
    (tc d : pyval) (w : World) (s : St) :
  py_getitem tc "dataset" = Ok d →
  py_getitem d "type" = Ok (VStr "img") →
  (∀ e, py_getitem d "urls" = Raise e → main_dataset tc w s = (Raise e, s))
  ∧ (∀ urls e,
       py_getitem d "urls" = Ok urls →
       lib_raises w (LoadDataset "webdataset" (webdataset_kwargs urls)) = None →
       py_getitem d "condition_size" = Raise e →
       main_dataset tc w s
       = (Raise e, logged s [LoadDataset "webdataset" (webdataset_kwargs urls)])).
Proof.
  intros Hd Ht. rewrite (main_dataset_img tc d w s Hd Ht). unfold img_branch.
  split.
  - intros e He. by rewrite bind_run, (dataset_param_at tc d _ w s Hd), He.
  - intros urls e Hu Hl He.
    rewrite bind_run, (dataset_param_at tc d _ w s Hd), Hu. cbv beta iota.
    unfold load_dataset. rewrite bind_assoc, bind_run, lib_call_run.
    fold (webdataset_kwargs urls). rewrite Hl. cbv beta iota.
    rewrite bind_assoc. unfold ask at 1. rewrite bind_run. cbv beta iota.
    rewrite bind_ret_run, bind_run, dataset_param_run, Hd, He. reflexivity.
Qed.

Lemma img_branch_validation_order_example :
  main_dataset (example_train_img []) (example_world (Some "0")) example_state
  = (Raise (KeyError "urls"), example_state)
  ∧ main_dataset (example_train_img [(VStr "urls", VList [VStr "shard-0.tar"])])
      (example_world (Some "0")) example_state
    = (Raise (KeyError "condition_size"),
       logged example_state
         [LoadDataset "webdataset" (webdataset_kwargs (VList [VStr "shard-0.tar"]))]).
Proof.
  split.
  - apply (proj1 (img_branch_validation_order (example_train_img [])
                    (VDict [(VStr "type", VStr "img")])
                    (example_world (Some "0")) example_state eq_refl eq_refl)).
    reflexivity.
  - apply (proj2 (img_branch_validation_order
                    (example_train_img [(VStr "urls", VList [VStr "shard-0.tar"])])
                    (VDict [(VStr "type", VStr "img");
                            (VStr "urls", VList [VStr "shard-0.tar"])])
                    (example_world (Some "0")) example_state eq_refl eq_refl));
      reflexivity.
Defined.

(** ** What the constructors are given *)

Lemma py_eq_str_true t s : py_eq_str t s = true → t = VStr s.
Proof.
  destruct t; try discriminate. simpl. intros H.
  apply String.eqb_eq in H. by subst.
Qed.

(** *** Rules for [returns] *)

Section ReturnsRules.
Context (w : World) (P : Event → Prop).

Lemma returns_same {A} (Q : A → Prop) (m : M A) :
  (∀ s, (m w s).2 = s) → (∀ s a, (m w s).1 = Ok a → Q a) → returns w P Q m.
Proof.
  intros H HQ s. exists []. rewrite H, app_nil_r.
  split; [reflexivity|]. split; [constructor | apply HQ].
Qed.

Lemma returns_ret {A} (Q : A → Prop) (a : A) : Q a → returns w P Q (mret a).
Proof. intros H. apply returns_same; [reflexivity|]. by intros s a' [= <-]. Qed.

Lemma returns_raise {A} (Q : A → Prop) e : returns w P Q (raise e : M A).
Proof. apply returns_same; [reflexivity|]. intros s a. discriminate. Qed.

Lemma returns_lift {A} (Q : A → Prop) (o : outcome A) :
  (∀ a, o = Ok a → Q a) → returns w P Q (lift o).
Proof. intros H. apply returns_same; [reflexivity|]. intros s a. apply H. Qed.

Lemma returns_emit (Q : unit → Prop) e : P e → Q tt → returns w P Q (emit e).
Proof.
  intros H HQ s. exists [e]. simpl. split; [reflexivity|].
  split; [repeat constructor; exact H|]. by intros [] _.
Qed.

Lemma returns_bind {A B} (Q : A → Prop) (R : B → Prop) (m : M A) (k : A → M B) :
  returns w P Q m → (∀ a, Q a → returns w P R (k a)) → returns w P R (m ≫= k).
Proof.
  intros Hm Hk s. rewrite bind_run.
  destruct (Hm s) as (l1 & E1 & F1 & R1).
  destruct (m w s) as [[a|e] s1]; simpl in *.
  - destruct (Hk a (R1 a eq_refl) s1) as (l2 & E2 & F2 & R2).
    exists (l1 ++ l2). rewrite E2, E1, app_assoc.
    split; [reflexivity|]. split; [apply Forall_app; auto | exact R2].
  - exists l1. split; [exact E1|]. split; [exact F1|]. intros a. discriminate.
Qed.

Lemma returns_bind_assoc {A B C} (R : C → Prop)
    (m : M A) (f : A → M B) (k : B → M C) :
  returns w P R (m ≫= λ x, f x ≫= k) → returns w P R ((m ≫= f) ≫= k).
Proof. intros H s. rewrite bind_assoc. apply H. Qed.

Lemma returns_bind_ret {A B} (R : B → Prop) (a : A) (k : A → M B) :
  returns w P R (k a) → returns w P R (mret a ≫= k).
Proof. intros H s. apply H. Qed.

Lemma returns_bind_raise {A B} (R : B → Prop) e (k : A → M B) :
  returns w P R (raise e ≫= k).
Proof. intros s. apply (returns_raise R e s). Qed.

Lemma returns_bind_lift {A B} (R : B → Prop) (o : outcome A) (k : A → M B) :
  (∀ a, o = Ok a → returns w P R (k a)) → returns w P R (lift o ≫= k).
Proof.
  intros H s. destruct o as [a|e].
  - apply (H a eq_refl).
  - apply (returns_raise R e s).
Qed.

Lemma returns_bind_ask {A} (R : A → Prop) (k : World → M A) :
  returns w P R (k w) → returns w P R (ask ≫= k).
Proof. intros H s. apply H. Qed.

Lemma returns_bind_get_fs {A} (R : A → Prop) (k : gmap string fnode → M A) :
  (∀ files, returns w P R (k files)) → returns w P R (get_fs ≫= k).
Proof. intros H s. apply H. Qed.

Lemma returns_bind_emit {A} (R : A → Prop) e (k : unit → M A) :
  P e → returns w P R (k tt) → returns w P R (emit e ≫= k).
Proof.
  intros He H. apply (returns_bind (λ _, True)).
  - by apply returns_emit.
  - by intros [] _.
Qed.

Lemma returns_put_fs (Q : unit → Prop) files : Q tt → returns w P Q (put_fs files).
Proof.
  intros HQ s. exists []. simpl. rewrite app_nil_r.
  split; [reflexivity|]. split; [constructor|]. by intros [] _.
Qed.

Lemma returns_bind_put_fs {A} (R : A → Prop) files (k : unit → M A) :
  returns w P R (k tt) → returns w P R (put_fs files ≫= k).
Proof.
  intros H. apply (returns_bind (λ _, True)).
  - by apply returns_put_fs.
  - by intros [] _.
Qed.

Lemma returns_weaken {A} (Q Q' : A → Prop) (m : M A) :
  (∀ a, Q a → Q' a) → returns w P Q m → returns w P Q' m.
Proof.
  intros HQ H s. destruct (H s) as (l & E & F & R).
  exists l. split; [exact E|]. split; [exact F|]. intros a Ha. auto.
Qed.

Lemma returns_emits {A} (Q : A → Prop) (m : M A) :
  returns w P Q m → emits w P false m.
Proof.
  intros H s. destruct (H s) as (l & E & F & _). exists l. by repeat split.
Qed.
End ReturnsRules.

(** One step of a syntax-directed proof of [returns]; a [match] in front
    of a bind is split, so that the continuation knows the branch. *)
Ltac returns_step :=
  lazymatch goal with
  | |- returns _ _ _ ((_ ≫= _) ≫= _) => apply returns_bind_assoc
  | |- returns _ _ _ (mret _ ≫= _) => apply returns_bind_ret
  | |- returns _ _ _ (raise _ ≫= _) => apply returns_bind_raise
  | |- returns _ _ _ (lift _ ≫= _) => apply returns_bind_lift; intros ? ?
  | |- returns _ _ _ (ask ≫= _) => apply returns_bind_ask
  | |- returns _ _ _ (get_fs ≫= _) => apply returns_bind_get_fs; intros ?
  | |- returns _ _ _ (put_fs _ ≫= _) => apply returns_bind_put_fs
  | |- returns _ _ _ (emit _ ≫= _) => apply returns_bind_emit; [simpl|]
  | |- returns _ _ _ ((match ?x with _ => _ end) ≫= _) => destruct x eqn:?
  | |- returns _ _ _ (match ?x with _ => _ end) => destruct x eqn:?
  | |- returns _ _ _ (let _ := _ in _) => cbv zeta
  | |- returns _ _ _ (mret _) => apply returns_ret
  | |- returns _ _ _ (raise _) => apply returns_raise
  | |- returns _ _ _ (lift _) => apply returns_lift; intros ? ?
  | |- returns _ _ _ (emit _) => apply returns_emit; [simpl|]
  | |- returns _ _ _ (put_fs _) => apply returns_put_fs
  end.

Ltac same_lookups :=
  repeat match goal with
    | H1 : ?x = Ok ?a, H2 : ?x = Ok ?b |- _ =>
        rewrite H1 in H2; injection H2 as <-
    | H : py_eq_str _ _ = true |- _ => apply py_eq_str_true in H; subst
    end.

Ltac adapter_kw :=
  repeat (apply Forall_cons; split;
          [unfold param_source; simpl String.eqb; cbv iota; simpl fst; simpl snd;
           assumption|]);
  by apply Forall_nil.

Lemma main_wandb_returns w b config tc rn :
  returns w (arguments_ok w b config tc rn) (λ _, True) (main_wandb tc b rn).
Proof.
  unfold_program. repeat returns_step; auto.
  all: repeat split; eexists; eauto.
Qed.

Lemma main_dataset_returns w b config tc rn :
  returns w (arguments_ok w b config tc rn) (dataset_from w tc) (main_dataset tc).
Proof.
  unfold_program. repeat returns_step; auto.
  all: same_lookups.
  all: do 2 eexists; (split; [eassumption|split; [eassumption|]]).
  all: repeat (split; [first [reflexivity|eexists; split; [eassumption|reflexivity]]|]).
  all: adapter_kw.
Qed.

Lemma main_loader_returns w b config tc rn ds :
  dataset_from w tc ds →
  returns w (arguments_ok w b config tc rn)
    (λ dl, loader_from tc dl ∧ dataset_from w tc (dl_dataset dl))
    (main_loader tc ds).
Proof.
  intros Hds. unfold_program. repeat returns_step; auto.
  all: by repeat split.
Qed.

Lemma main_model_returns w b config tc rn :
  returns w (arguments_ok w b config tc rn) (model_from config tc)
    (main_model config tc).
Proof.
  unfold_program. repeat returns_step; auto.
  all: by repeat split.
Qed.

Lemma main_trainer_returns w b config tc rn cbs :
  returns w (arguments_ok w b config tc rn) (trainer_from tc)
    (main_trainer tc cbs).
Proof.
  unfold_program. repeat returns_step; auto.
  all: by repeat split.
Qed.

Ltac other_events :=
  solve [unfold_program; repeat returns_step; auto].

(** The arguments of every construction and of [wandb.init] in
    [main_stages]. *)
Lemma main_stages_arguments w b r config tc rn :
  emits w (arguments_ok w b config tc rn) false (main_stages b r config tc rn).
Proof.
  apply (returns_emits _ _ (λ _, True)). unfold main_stages.
  apply (returns_bind _ _ (λ _, True)); [apply main_wandb_returns|intros _ _].
  apply (returns_bind _ _ (λ _, True)); [other_events|intros _ _].
  apply (returns_bind _ _ (λ _, True)); [destruct b; other_events|intros _ _].
  apply (returns_bind _ _ (dataset_from w tc)); [apply main_dataset_returns|intros ds Hds].
  apply (returns_bind _ _ (λ _, True)); [other_events|intros _ _].
  apply (returns_bind _ _ (λ dl, loader_from tc dl ∧ dataset_from w tc (dl_dataset dl)));
    [by apply main_loader_returns|intros dl Hdl].
  apply (returns_bind _ _ (λ _, True)); [other_events|intros _ _].
  apply (returns_bind _ _ (model_from config tc)); [apply main_model_returns|intros md Hmd].
  apply (returns_bind _ _ (λ _, True)); [destruct b; other_events|intros cbs _].
  apply (returns_bind _ _ (trainer_from tc)); [apply main_trainer_returns|intros t Ht].
  cbv zeta.
  apply (returns_bind _ _ (λ _, True)); [|intros _ _; other_events].
  unfold_program. repeat returns_step; auto.
Qed.

(** The same of a whole run: construction events only occur once the
    config and its [train] section are there. *)
Lemma run_arguments w files e :
  In e (log_of (run w files)) →
  takes_arguments e = true →
  ∃ config tc,
    loaded_config w files = Ok config
    ∧ py_getitem config "train" = Ok tc
    ∧ arguments_ok w (rank_of w =? 0)%Z config tc (strftime_now w) e.
Proof.
  intros Hin.
  pose (P := λ e : Event, takes_arguments e = true →
               ∃ config tc, loaded_config w files = Ok config
                 ∧ py_getitem config "train" = Ok tc
                 ∧ arguments_ok w (rank_of w =? 0)%Z config tc (strftime_now w) e).
  assert (HP : Forall P (log_of (run w files))).
  { apply run_Forall; try (intros [=]; fail).
    - apply Forall_config_events; intros; intros [=].
    - intros config tc Hc Ht.
      eapply emits_mono; [|apply main_stages_arguments].
      intros e' He' _. exists config, tc. eauto. }
  rewrite List.Forall_forall in HP. exact (HP _ Hin).
Qed.

(** X12: every model the run constructs is given the pipeline id, the
    dtype name and the optional [model] group (default: empty) of the top
    level of the config, the LoRA and optimizer settings and the optional
    [gradient_checkpointing] (default: [False]) of its [train] section, and
    the device ["cuda"]. *)
Theorem model_arguments (w : World) (files : gmap string fnode) (m : OminiModel) :
  In (NewOminiModel m) (log_of (run w files)) →
  ∃ config tc,
    loaded_config w files = Ok config
    ∧ py_getitem config "train" = Ok tc
    ∧ model_from config tc m.
Proof. intros Hin. exact (run_arguments w files _ Hin eq_refl). Qed.

Lemma model_arguments_example :
  ∃ config tc,
    loaded_config (example_world (Some "0")) (example_files "scene") = Ok config
    ∧ py_getitem config "train" = Ok tc
    ∧ model_from config tc example_fit.1.2.
Proof.
  apply (model_arguments (example_world (Some "0")) (example_files "scene")).
  vm_compute. in_list.
Defined.

(** X13: every loader the run constructs shuffles, takes its batch size
    and worker count from the [train] section, and wraps the dataset the
    tag selects: for [scene] the adapter over the local table with the
    image directory ["images_path"] and the 600x600 resize, for [img] the
    adapter over the [webdataset] shards of [urls], for [cartoon] the
    adapter over the hub dataset; the adapter's keywords come from the
    dataset group, [condition_type] from the [train] section, and only the
    [img] adapter is given a [position_scale], 1.0 unless configured. *)
Theorem loader_arguments (w : World) (files : gmap string fnode) (dl : DataLoader) :
  In (NewDataLoader dl) (log_of (run w files)) →
  ∃ config tc,
    loaded_config w files = Ok config
    ∧ py_getitem config "train" = Ok tc
    ∧ loader_from tc dl
    ∧ dataset_from w tc (dl_dataset dl).
Proof.
  intros Hin.
  destruct (run_arguments w files _ Hin eq_refl) as (config & tc & Hc & Ht & Hl & Hd).
  exists config, tc. auto.
Qed.

Lemma loader_arguments_example :
  ∃ config tc,
    loaded_config (example_world (Some "0")) (example_files "img") = Ok config
    ∧ py_getitem config "train" = Ok tc
    ∧ loader_from tc example_loader_img
    ∧ dataset_from (example_world (Some "0")) tc (dl_dataset example_loader_img).
Proof.
  apply (loader_arguments (example_world (Some "0")) (example_files "img")).
  vm_compute. in_list.
Defined.

(** X14: every trainer the run constructs takes [accumulate_grad_batches]
    from the [train] section, has checkpointing, the progress bar and the
    logger switched off, and carries no [training_config] attribute yet. *)
Theorem trainer_switches (w : World) (files : gmap string fnode) (t : Trainer) :
  In (NewTrainer t) (log_of (run w files)) →
  ∃ config tc,
    loaded_config w files = Ok config
    ∧ py_getitem config "train" = Ok tc
    ∧ trainer_from tc t.
Proof. intros Hin. exact (run_arguments w files _ Hin eq_refl). Qed.

Lemma trainer_switches_example :
  ∃ config tc,
    loaded_config (example_world (Some "0")) (example_files "scene") = Ok config
    ∧ py_getitem config "train" = Ok tc
    ∧ trainer_from tc example_trainer.
Proof.
  apply (trainer_switches (example_world (Some "0")) (example_files "scene")).
  vm_compute. in_list.
Defined.

(** X15: [wandb.init] is only called by the process of rank 0, under the
    run's time stamp as name and with the [project] of the [wandb] group of
    the [train] section. *)
Theorem wandb_init_arguments
    (w : World) (files : gmap string fnode) (project : pyval) (name : string) :
  In (WandbInit project name) (log_of (run w files)) →
  rank_of w = 0%Z
  ∧ name = strftime_now w
  ∧ ∃ config tc,
      loaded_config w files = Ok config
      ∧ py_getitem config "train" = Ok tc
      ∧ wandb_from tc project.
Proof.
  intros Hin.
  destruct (run_arguments w files _ Hin eq_refl) as (config & tc & Hc & Ht & Hb & Hn & Hp).
  split; [by apply Z.eqb_eq|]. split; [exact Hn|]. exists config, tc. auto.
Qed.

Lemma wandb_init_arguments_example :
  rank_of (example_world_wandb "0") = 0%Z
  ∧ "20250101-093000" = strftime_now (example_world_wandb "0")
  ∧ ∃ config tc,
      loaded_config (example_world_wandb "0") (example_files "img") = Ok config
      ∧ py_getitem config "train" = Ok tc
      ∧ wandb_from tc (VStr "ieap").
Proof.
  apply (wandb_init_arguments (example_world_wandb "0") (example_files "img")).
  vm_compute. in_list.
Defined.

(** ** What [fit] is called on *)

(** A phase that does not call [fit], in front of one whose log holds a
    call of [fit]: it returned. *)
Lemma quiet_then {A B} w (m : M A) (k : A → M B) s (e : Event) :
  is_fit e = true →
  emits w (λ e, is_fit e = false) false m →
  Forall (λ e, is_fit e = false) (log s) →
  In e (log ((m ≫= k) w s).2) →
  ∃ a s', m w s = (Ok a, s') ∧ (m ≫= k) w s = k a w s'
    ∧ Forall (λ e, is_fit e = false) (log s')
    ∧ (∀ x, In x (log s) → In x (log s')).
Proof.
  intros He Hm Hs Hin. rewrite bind_run in *.
  destruct (Hm s) as (l & E & F & _).
  destruct (m w s) as [[a|x] s']; simpl in *.
  - exists a, s'. split; [reflexivity|]. split; [reflexivity|].
    rewrite E. split; [by apply Forall_app|].
    intros y Hy. apply in_or_app. by left.
  - exfalso. rewrite E in Hin.
    assert (Hall : Forall (λ e, is_fit e = false) (log s ++ l)) by by apply Forall_app.
    rewrite List.Forall_forall in Hall. specialize (Hall _ Hin). congruence.
Qed.

Ltac run_lifts :=
  repeat match goal with
    | H : context [match ?x with _ => _ end] |- _ => destruct x eqn:?; simpl in H
    end.

Lemma main_loader_logged w tc ds s dl s' :
  main_loader tc ds w s = (Ok dl, s') → In (NewDataLoader dl) (log s').
Proof.
  unfold_program. run_unfold. simpl. intros H. run_lifts; simplify_eq.
  simpl. apply in_or_app. right. by left.
Qed.

Lemma main_model_logged w config tc s m s' :
  main_model config tc w s = (Ok m, s') → In (NewOminiModel m) (log s').
Proof.
  unfold_program. run_unfold. simpl. intros H. run_lifts; simplify_eq.
  simpl. apply in_or_app. right. by left.
Qed.

Lemma main_trainer_logged w tc cbs s t s' :
  main_trainer tc cbs w s = (Ok t, s') → In (NewTrainer t) (log s').
Proof.
  unfold_program. run_unfold. simpl. intros H. run_lifts; simplify_eq.
  simpl. apply in_or_app. right. by left.
Qed.

Ltac quiet_phase_then Hin Hs :=
  let a := fresh "a" in let s' := fresh "s" in
  let E := fresh "E" in let Ek := fresh "Ek" in
  let Hs' := fresh "Hs" in let I := fresh "I" in
  lazymatch type of Hin with
  | In ?ev (log ((?m ≫= ?k) ?w ?s).2) =>
      let Hq := fresh "Hq" in
      assert (Hq : emits w (λ x, is_fit x = false) false m) by no_fit;
      destruct (quiet_then w m k s ev eq_refl Hq Hs Hin)
        as (a & s' & E & Ek & Hs' & I);
      clear Hq
  end;
  rewrite Ek in Hin |- *; clear Ek.

Lemma main_stages_fit_objects w b r config tc rn s t md dl :
  Forall (λ e, is_fit e = false) (log s) →
  In (TrainerFit t md dl) (log (main_stages b r config tc rn w s).2) →
  In (NewOminiModel md) (log (main_stages b r config tc rn w s).2)
  ∧ In (NewDataLoader dl) (log (main_stages b r config tc rn w s).2)
  ∧ ∃ t0, In (NewTrainer t0) (log (main_stages b r config tc rn w s).2)
      ∧ t = set_training_config t0 tc.
Proof.
  intros Hs Hin. unfold main_stages in *.
  quiet_phase_then Hin Hs. quiet_phase_then Hin Hs0. quiet_phase_then Hin Hs1.
  quiet_phase_then Hin Hs2. quiet_phase_then Hin Hs3. quiet_phase_then Hin Hs4.
  quiet_phase_then Hin Hs5. quiet_phase_then Hin Hs6. quiet_phase_then Hin Hs7.
  quiet_phase_then Hin Hs8. cbv zeta in *. quiet_phase_then Hin Hs9.
  apply main_loader_logged in E4. apply main_model_logged in E6.
  apply main_trainer_logged in E8.
  unfold trainer_fit in *. rewrite lib_call_run in *. unfold logged in *.
  cbn [snd log] in *.
  apply in_app_or in Hin as [Hin|[Hin|[]]].
  { rewrite List.Forall_forall in Hs10. specialize (Hs10 _ Hin). discriminate. }
  injection Hin as <- <- <-.
  split; [apply in_or_app; left; auto 10|].
  split; [apply in_or_app; left; auto 10|].
  exists a8. split; [apply in_or_app; left; auto 10|reflexivity].
Qed.

(** X16: [fit] is only ever called on objects of this run: the model and
    the loader are ones the run constructed, and the trainer is one the
    run constructed, with the [train] section attached to it as
    [training_config]. *)
Theorem fit_uses_constructed_objects
    (w : World) (files : gmap string fnode)
    (t : Trainer) (md : OminiModel) (dl : DataLoader) :
  In (TrainerFit t md dl) (log_of (run w files)) →
  In (NewOminiModel md) (log_of (run w files))
  ∧ In (NewDataLoader dl) (log_of (run w files))
  ∧ ∃ config tc t0,
      loaded_config w files = Ok config
      ∧ py_getitem config "train" = Ok tc
      ∧ In (NewTrainer t0) (log_of (run w files))
      ∧ t = set_training_config t0 tc.
Proof.
  rewrite run_eq, main_run. cbv zeta. simpl fs. unfold log_of.
  assert (Hc : Forall (λ e, is_fit e = false) (config_events w files))
    by (apply Forall_config_events; reflexivity).
  assert (Hno : ∀ l (x : Event), Forall (λ e, is_fit e = false) l → In x l →
                  is_fit x = true → False).
  { intros l x Hl Hx Hf. rewrite List.Forall_forall in Hl.
    specialize (Hl _ Hx). congruence. }
  destruct (lib_raises w _).
  { intros Hin. exfalso. eapply Hno; [|exact Hin|reflexivity]. repeat constructor. }
  destruct (loaded_config w files) as [config|e].
  2:{ intros Hin. exfalso. eapply Hno; [|exact Hin|reflexivity].
      simpl. repeat constructor. exact Hc. }
  destruct (py_getitem config "train") as [tc|e] eqn:Et.
  2:{ intros Hin. exfalso. eapply Hno; [|exact Hin|reflexivity].
      simpl. repeat constructor. exact Hc. }
  intros Hin. apply main_stages_fit_objects in Hin as (Hm & Hd & t0 & Ht & E).
  - split; [exact Hm|]. split; [exact Hd|]. exists config, tc, t0.
    by repeat split.
  - simpl. repeat constructor. apply Forall_app. split; [exact Hc|]. by constructor.
Qed.

Lemma fit_uses_constructed_objects_example :
  let l := log_of (run (example_world (Some "0")) (example_files "scene")) in
  In (NewOminiModel example_fit.1.2) l
  ∧ In (NewDataLoader example_fit.2) l
  ∧ ∃ config tc t0,
      loaded_config (example_world (Some "0")) (example_files "scene") = Ok config
      ∧ py_getitem config "train" = Ok tc
      ∧ In (NewTrainer t0) l
      ∧ example_fit.1.1 = set_training_config t0 tc.
Proof.
  apply (fit_uses_constructed_objects (example_world (Some "0")) (example_files "scene")).
  vm_compute. in_list.
Defined.


(** ** Records with repeated column names *)

(** X17: when several columns are called [imageA] (or [imageB]), the
    file opened is the one the first of them names; the prompt is handed on
    as the table gives it, all values of the repeated columns together,
    without such a choice. *)
Theorem getitem_duplicate_columns
    (self : LocalSubjectsDataset) (idx : Z) (w : World) (s s' : St) (sample : Sample)
    (row : list pyval) (vA vB : pyval) (vsA vsB : list pyval) :
  iloc (lsd_data self) idx = Ok row →
  series_getitem (df_columns (lsd_data self)) row "imageA" = Ok (Series (vA :: vsA)) →
  series_getitem (df_columns (lsd_data self)) row "imageB" = Ok (Series (vB :: vsB)) →
  LocalSubjectsDataset_getitem self idx w s = (Ok sample, s') →
  img_path (imageA sample) = path_join (lsd_image_dir self) (py_str (repr_other w) vA)
  ∧ img_path (imageB sample) = path_join (lsd_image_dir self) (py_str (repr_other w) vB)
  ∧ series_getitem (df_columns (lsd_data self)) row "prompt" = Ok (prompt sample).
Proof.
  intros Hr HA HB. unfold LocalSubjectsDataset_getitem, image_open_rgb, fmt.
  run_unfold. cbv zeta beta. rewrite Hr. simpl. rewrite HA, HB. simpl. intros H.
  repeat case_match; simplify_eq; simpl; rewrite ?apply_transform_path; auto.
Qed.

Lemma getitem_duplicate_columns_example :
  img_path (imageA example_sample_duplicates.1) = "images_path/a0.png"
  ∧ img_path (imageB example_sample_duplicates.1) = "images_path/b0.png"
  ∧ series_getitem (df_columns (lsd_data example_local_duplicates))
      [VStr "a0.png"; VStr "a1.png"; VStr "add a lamp";
       VStr "remove the chair"; VStr "b0.png"; VStr "b1.png"] "prompt"
    = Ok (prompt example_sample_duplicates.1).
Proof.
  apply (getitem_duplicate_columns example_local_duplicates 0 (example_world (Some "0"))
           example_state example_sample_duplicates.2 example_sample_duplicates.1
           [VStr "a0.png"; VStr "a1.png"; VStr "add a lamp";
            VStr "remove the chair"; VStr "b0.png"; VStr "b1.png"]
           (VStr "a0.png") (VStr "b0.png") [VStr "a1.png"] [VStr "b1.png"]);
    vm_compute; reflexivity.
Defined.

(** ** The scene branch without its table *)

Lemma main_dataset_scene tc d w s :
  py_getitem tc "dataset" = Ok d →
  py_getitem d "type" = Ok (VStr "scene") →
  main_dataset tc w s = scene_branch tc w s.
Proof.
  intros Hd Ht. unfold main_dataset.
  by rewrite bind_run, (dataset_param_at tc d _ w s Hd), Ht.
Qed.

(** X18: with the tag [scene], a working directory without an entry
    called [csv_path] stops the dataset stage with [FileNotFoundError] for
    that name, right after the attempt to read it, whatever table the config
    names; nothing else is constructed. *)
Theorem scene_needs_csv_path (tc d : pyval) (w : World) (s : St) :
  py_getitem tc "dataset" = Ok d →
  py_getitem d "type" = Ok (VStr "scene") →
  fs s !! "csv_path" = None →
  main_dataset tc w s
  = (Raise (FileNotFoundError "csv_path"),
     logged s [NewLocalSubjectsDataset "csv_path" "images_path"; ReadCsv "csv_path"]).
Proof.
  intros Hd Ht Hf. rewrite (main_dataset_scene tc d w s Hd Ht).
  unfold scene_branch, LocalSubjectsDataset_init, pd_read_csv. run_unfold. simpl.
  rewrite Hf. simpl. by rewrite <- app_assoc.
Qed.

Lemma scene_needs_csv_path_example :
  main_dataset (example_train "scene") (example_world (Some "0"))
    (initial (delete "csv_path" (example_files "scene")))
  = (Raise (FileNotFoundError "csv_path"),
     logged (initial (delete "csv_path" (example_files "scene")))
       [NewLocalSubjectsDataset "csv_path" "images_path"; ReadCsv "csv_path"]).
Proof.
  apply (scene_needs_csv_path (example_train "scene") (example_dataset_group "scene"));
    reflexivity.
Defined.

(** ** What the config copy leaves of the file system *)

Lemma append_cons c (a b : string) : (String c a ++ b)%string = String c (a ++ b).
Proof. reflexivity. Qed.

Lemma append_nil_l (b : string) : ("" ++ b)%string = b.
Proof. reflexivity. Qed.

Lemma append_nil_r (a : string) : (a ++ "")%string = a.
Proof. induction a as [|c a IH]; [reflexivity|]. by rewrite append_cons, IH. Qed.

Lemma append_assoc (a b c : string) : ((a ++ b) ++ c)%string = (a ++ b ++ c)%string.
Proof.
  induction a as [|x a IH]; [reflexivity|]. by rewrite !append_cons, IH.
Qed.

(** A directory is among the ancestors of what lies in it. *)
Lemma ancestors_from_In (a pre b : string) :
  (pre ++ a)%string ≠ "" →
  In (pre ++ a)%string (ancestors_from pre (a ++ String "/" b)).
Proof.
  revert pre. induction a as [|c a IH]; intros pre Hne.
  - rewrite append_nil_r in *. rewrite append_nil_l. simpl.
    destruct (String.eqb pre "") eqn:E; [by apply String.eqb_eq in E|]. by left.
  - assert (E : (pre ++ String c a)%string = ((pre ++ String c "") ++ a)%string)
      by by rewrite append_assoc.
    rewrite append_cons. simpl. rewrite E in *.
    destruct (_ && _); [right|]; by apply IH.
Qed.

Lemma dir_above_config_yaml (d : string) :
  d ≠ "" → In d (ancestors (d ++ "/config.yaml")).
Proof.
  intros Hd. unfold ancestors.
  change (d ++ "/config.yaml")%string with (d ++ String "/" "config.yaml")%string.
  apply (ancestors_from_In d "" "config.yaml"). by rewrite append_nil_l.
Qed.

Lemma mkdir_missing_keeps p (files : gmap string fnode) :
  files ⊆ mkdir_missing p files.
Proof.
  unfold mkdir_missing. destruct (files !! p) eqn:E; [reflexivity|].
  by apply insert_subseteq.
Qed.

Lemma foldr_mkdir_missing_keeps files l :
  files ⊆ foldr mkdir_missing files l.
Proof.
  induction l as [|p l IH]; [reflexivity|]. simpl.
  etransitivity; [exact IH|apply mkdir_missing_keeps].
Qed.

Lemma insert_keeps (files g : gmap string fnode) p x :
  files ⊆ g → files !! p = None → files ⊆ <[p := x]> g.
Proof.
  intros Hs Hp. apply map_subseteq_spec. intros q y Hq.
  rewrite lookup_insert_ne by congruence.
  by apply (proj1 (map_subseteq_spec files g) Hs).
Qed.

Lemma open_write_fs p w s :
  fs (open_write p w s).2 = fs s ∨ fs (open_write p w s).2 = <[p := File ""]> (fs s).
Proof.
  unfold open_write. run_unfold. simpl.
  destruct (last (ancestors p)) as [d|]; simpl.
  - destruct (fs s !! d) as [[|c]|]; simpl; auto.
    destruct (fs s !! p) as [[|c]|]; auto.
  - destruct (fs s !! p) as [[|c]|]; auto.
Qed.

Lemma main_save_config_run config tc sp run_name w s :
  py_get tc "save_path" (VStr "./output") = Ok sp →
  main_save_config config tc true run_name w s
  = (os_makedirs (py_str (repr_other w) sp ++ "/" ++ run_name) ;;
     open_write (py_str (repr_other w) sp ++ "/" ++ run_name ++ "/config.yaml") ;;
     yaml_dump_to config (py_str (repr_other w) sp ++ "/" ++ run_name ++ "/config.yaml"))
      w s.
Proof.
  intros H. unfold main_save_config. rewrite bind_run. unfold lift at 1. rewrite H.
  reflexivity.
Qed.

Lemma well_formedb_spec files : well_formedb files = true → well_formed files.
Proof.
  unfold well_formedb, well_formed. rewrite forallb_forall.
  intros H p d [x Hx] Hd.
  assert (Hin : In p (map fst (map_to_list files))).
  { apply in_map_iff. exists (p, x). split; [reflexivity|].
    apply list_elem_of_In. by apply elem_of_map_to_list. }
  specialize (H p Hin). rewrite forallb_forall in H. specialize (H d Hd).
  by destruct (files !! d) as [[|c]|].
Qed.

(** X19: the config copy of lines 203-207 only adds to the file system.
    On a file system in which every entry lies in directories that exist,
    every entry is still there with the same content after the copy, on
    either kind of process and however the copy ends.  An older
    [config.yaml] cannot be overwritten, since the directory it lies in
    makes [os.makedirs] fail first. *)
Theorem config_copy_keeps_existing_entries
    (w : World) (config tc : pyval) (is_main_process : bool) (run_name : string)
    (s : St) :
  well_formed (fs s) →
  fs s ⊆ fs (main_save_config config tc is_main_process run_name w s).2.
Proof.
  intros Hwf.
  destruct (py_get tc "save_path" (VStr "./output")) as [sp|e] eqn:Hsp.
  2:{ unfold main_save_config. rewrite bind_run. unfold lift at 1. by rewrite Hsp. }
  destruct is_main_process.
  2:{ unfold main_save_config. rewrite bind_run. unfold lift at 1. by rewrite Hsp. }
  rewrite (main_save_config_run config tc sp run_name w s Hsp).
  set (d := (py_str (repr_other w) sp ++ "/" ++ run_name)%string).
  change (py_str (repr_other w) sp ++ "/" ++ run_name ++ "/config.yaml")%string
    with (py_str (repr_other w) sp ++ String "/" (run_name ++ "/config.yaml"))%string.
  replace (py_str (repr_other w) sp ++ String "/" (run_name ++ "/config.yaml"))%string
    with (d ++ "/config.yaml")%string
    by (subst d; rewrite append_assoc; reflexivity).
  assert (Hne : d ≠ "") by (subst d; destruct (py_str (repr_other w) sp); discriminate).
  rewrite bind_run, os_makedirs_run.
  destruct (fs s !! d) eqn:Hd; [reflexivity|].
  destruct (below_file _ _); [reflexivity|].
  assert (Hp : fs s !! (d ++ "/config.yaml")%string = None).
  { destruct (fs s !! (d ++ "/config.yaml")%string) eqn:Hp; [|reflexivity].
    rewrite (Hwf (d ++ "/config.yaml")%string d) in Hd;
      [discriminate|by rewrite Hp|by apply dir_above_config_yaml]. }
  set (s1 := {| fs := <[d := Dir]> _; log := _ |}).
  assert (H1 : fs s ⊆ fs s1).
  { apply insert_keeps; [apply foldr_mkdir_missing_keeps|exact Hd]. }
  rewrite bind_run.
  assert (H2 : fs s ⊆ fs (open_write (d ++ "/config.yaml") w s1).2).
  { destruct (open_write_fs (d ++ "/config.yaml") w s1) as [->| ->];
      [exact H1|by apply insert_keeps]. }
  destruct (open_write (d ++ "/config.yaml") w s1) as [[[]|e] s2]; [|exact H2].
  rewrite yaml_dump_to_run.
  destruct (lib_raises w _); [exact H2|]. simpl. by apply insert_keeps.
Qed.

Lemma config_copy_keeps_existing_entries_example :
  example_tree
  ⊆ fs (main_save_config (example_config "scene") (example_train "scene") true
          "20250101-093000" (example_world (Some "0")) (initial example_tree)).2
  ∧ example_tree
    ⊆ fs (main_save_config (example_config "scene") (example_train "scene") true
            "20241231-180000" (example_world (Some "0")) (initial example_tree)).2.
Proof.
  split.
  - apply (config_copy_keeps_existing_entries (example_world (Some "0"))
             (example_config "scene") (example_train "scene") true "20250101-093000"
             (initial example_tree)).
    apply well_formedb_spec. vm_compute. reflexivity.
  - apply (config_copy_keeps_existing_entries (example_world (Some "0"))
             (example_config "scene") (example_train "scene") true "20241231-180000"
             (initial example_tree)).
    apply well_formedb_spec. vm_compute. reflexivity.
Defined.
